(** * Stock-Analysis-Agent: score synthesis, intent routing, pipeline stages
      and portfolio decision rules

    A shallow embedding of
      - [agents/synthesizer_agent.py]        (module [Synthesizer]),
      - [orchestrator/routing.py] and the [Intent] types of
        [orchestrator/intent_classifier.py]  (modules [Routing], [Router]),
      - [orchestrator/intent_classifier.py]  (modules [Text], [Classifier]),
      - [orchestrator/portfolio_workflow.py] (modules [Portfolio],
        [Workflow]),
      - [orchestrator/langgraph_flow.py]     (module [Flow]),
      - the handlers of [telegram_bot/bot.py] that start an analysis
        (module [Bot]),
    then the notions used to state properties (modules [SynthesizerSpec],
    [RoutingSpec], [PortfolioSpec], [FlowSpec], [StageLogic],
    [DecisionSpec], [ScoreSpec], [ClassifierSpec], [WorkflowSpec],
    [BotSpec]) and the properties themselves (modules [SynthesizerFacts],
    [RoutingFacts], [PortfolioFacts], [FlowFacts], [RunFacts],
    [ScoreFacts], [RouterFacts], [BotFacts], [ClassifierFacts],
    [DecisionFacts], [WorkflowFacts], [StageFacts]).

    Modelling conventions.
      - A Python [Dict[str, Any]] is a [gmap string pyval]; [d.get(k, v)]
        is [default v (d !! k)].  A dict that the code always builds and
        reads with the same literal keys is a record.
      - Python exceptions are the [Raise] branch of [result]; a stage of the
        pipeline is a state-passing computation [Flow.M] that may raise.
      - Python floats are modelled by exact rationals ([Qc]): a decimal
        literal such as [0.50] denotes the rational 50/100, and
        [round(x, 2)] is round-half-even to hundredths.  Binary rounding
        error of IEEE doubles is outside the model.
      - A [str] is its sequence of bytes.  [str.upper], [str.lower],
        [str.split] and [str.strip] are modelled on ASCII text
        ([Py.isascii]): they act on the ASCII letters and on ASCII white
        space and leave other bytes unchanged.  The properties of the
        classifier and of the case of signals are stated for ASCII text.
      - Network clients, analysis producers and the text generation service
        are the fields of the record [Flow.World]; the text of prompts and
        the rendering of floats and containers in messages are not
        modelled ([Py.PyFormat]).
      - A handler of the bot returns the list of what it sends and runs, in
        order ([Bot.Effect]); failures of the Telegram calls are outside
        the model.
      - [asyncio.gather(..., return_exceptions=True)] is the list of the
        results of its calls, a raised exception being a value of the list.
      - A compiled LangGraph graph whose edges form a chain runs its nodes
        in that order on the state ([Flow.ainvoke]). *)

From Stdlib Require Import ZArith QArith Qcanon Qround Lqa String Ascii List Lia.
From stdpp Require Import base option list sorting gmap strings pretty.

Set Warnings "-register-all".

Local Open Scope string_scope.
Local Open Scope Z_scope.

(* ===================================================================== *)
(** * Python values, exceptions and string helpers                        *)
(* ===================================================================== *)

Module Py.

(** The fragment of Python's [Any] that the modelled code inspects.  Scores
    are typed [int] by the producers' schemas ([agents/schemas.py]). *)
Inductive pyval : Type :=
  | PNone
  | PInt (z : Z)
  | PStr (s : string)
  | PDict (d : gmap string pyval).

Inductive exn_kind : Type := AttributeError | TypeError | OtherError.

Record exn : Type := Exn { exn_kind_of : exn_kind; exn_msg : string }.

(** [str(e)] *)
Definition str_exn (e : exn) : string := exn_msg e.

Inductive result (A : Type) : Type :=
  | Ok (a : A)
  | Raise (e : exn).
Arguments Ok {A} a.
Arguments Raise {A} e.

#[global] Instance result_ret : MRet result := fun A => @Ok A.
#[global] Instance result_bind : MBind result := fun A B k m =>
  match m with
  | Ok a => k a
  | Raise e => Raise e
  end.

(** Truth value of an object in a condition ([if x:], [not x]). *)
Definition truthy (v : pyval) : bool :=
  match v with
  | PNone => false
  | PInt z => negb (z =? 0)
  | PStr s => negb (String.eqb s EmptyString)
  | PDict d => negb (Nat.eqb (size d) 0)
  end.

(** [type(o).__name__] *)
Definition type_name (o : pyval) : string :=
  match o with
  | PNone => "NoneType"
  | PInt _ => "int"
  | PStr _ => "str"
  | PDict _ => "dict"
  end.

(** The exception of [o.attr] when [o] has no such attribute. *)
Definition no_attribute (o : pyval) (attr : string) : exn :=
  Exn AttributeError
    ("'" +:+ type_name o +:+ "' object has no attribute '" +:+ attr +:+ "'").

(** [o.get(k, dflt)]: only a dict has the method. *)
Definition py_get (o : pyval) (k : string) (dflt : pyval) : result pyval :=
  match o with
  | PDict d => Ok (default dflt (d !! k))
  | _ => Raise (no_attribute o "get")
  end.

(** An operand of an arithmetic operation or of an ordering comparison
    with a number. *)
Definition as_int (v : pyval) : result Z :=
  match v with
  | PInt z => Ok z
  | _ => Raise (Exn TypeError "unsupported operand type(s)")
  end.

Definition upper_ascii (c : ascii) : ascii :=
  let n := N_of_ascii c in
  if ((97 <=? n) && (n <=? 122))%N then ascii_of_N (n - 32) else c.

Definition lower_ascii (c : ascii) : ascii :=
  let n := N_of_ascii c in
  if ((65 <=? n) && (n <=? 90))%N then ascii_of_N (n + 32) else c.

Fixpoint str_map (f : ascii -> ascii) (s : string) : string :=
  match s with
  | EmptyString => EmptyString
  | String c s' => String (f c) (str_map f s')
  end.

Definition upper : string -> string := str_map upper_ascii.
Definition lower : string -> string := str_map lower_ascii.

(** [s.isascii()]: every character is below 128.  On such text a character
    is a byte, and [upper], [lower] and the white space of [Text] are those
    of Python. *)
Fixpoint isascii (s : string) : bool :=
  match s with
  | EmptyString => true
  | String c s' => (N_of_ascii c <? 128)%N && isascii s'
  end.

(** [s.upper()] and [s.lower()] on an arbitrary object. *)
Definition py_upper (v : pyval) : result string :=
  match v with
  | PStr s => Ok (upper s)
  | _ => Raise (no_attribute v "upper")
  end.

Definition py_lower (v : pyval) : result string :=
  match v with
  | PStr s => Ok (lower s)
  | _ => Raise (no_attribute v "lower")
  end.

(** [needle in hay] on strings. *)
Fixpoint contains (needle hay : string) : bool :=
  match hay with
  | EmptyString => String.prefix needle EmptyString
  | String _ hay' => String.prefix needle hay || contains needle hay'
  end.

(** [l.count(x)] on a list of strings. *)
Definition count (x : string) (l : list string) : nat :=
  length (filter (fun y => y = x) l).

(** Round-half-even of a rational to an integer, and [round(x, 2)]. *)
Definition round_half_even (x : Qc) : Z :=
  let f := Qfloor x in
  let d := (x - Qc_of_Z f)%Qc in
  let half := Q2Qc 0.5 in
  if bool_decide (d < half)%Qc then f
  else if bool_decide (half < d)%Qc then f + 1
  else if Z.even f then f else f + 1.

Definition py_round2 (x : Qc) : Qc :=
  (Qc_of_Z (round_half_even (x * Qc_of_Z 100)) / Qc_of_Z 100)%Qc.

(** Rendering of values inside f-strings.  The text produced for floats and
    for containers is not modelled; it is supplied by the environment. *)
Class PyFormat : Type := {
  str_float : Qc -> string;          (* f"{x}"      *)
  format_f : nat -> Qc -> string;    (* f"{x:.nf}"  *)
  repr_dict : gmap string pyval -> string;
}.

Definition py_str {fmt : PyFormat} (v : pyval) : string :=
  match v with
  | PNone => "None"
  | PInt z => pretty z
  | PStr s => s
  | PDict d => repr_dict d
  end.

End Py.

Import Py.

(* ===================================================================== *)
(** * agents/synthesizer_agent.py                                         *)
(* ===================================================================== *)

Module Synthesizer.

(** The [weights] dict: always built with these four literal keys. *)
Record Weights : Type := {
  w_fundamental : Qc;
  w_technical : Qc;
  w_market_intel : Qc;
  w_risk : Qc;
}.

Definition weights_long : Weights :=
  {| w_fundamental := Q2Qc 0.50; w_technical := Q2Qc 0.20;
     w_market_intel := Q2Qc 0.20; w_risk := Q2Qc 0.10 |}.

Definition weights_short : Weights :=
  {| w_fundamental := Q2Qc 0.15; w_technical := Q2Qc 0.50;
     w_market_intel := Q2Qc 0.25; w_risk := Q2Qc 0.10 |}.

Definition weights_swing : Weights :=
  {| w_fundamental := Q2Qc 0.30; w_technical := Q2Qc 0.40;
     w_market_intel := Q2Qc 0.20; w_risk := Q2Qc 0.10 |}.

(** The dict returned by [_calculate_weighted_scores]. *)
Record WeightedScores : Type := {
  fundamental_score : pyval;
  technical_score : pyval;
  market_intel_score : pyval;
  risk_score : pyval;
  weighted_average : Qc;
  confidence_adjustment : Z;
  final_score : Qc;
  weights_used : Weights;
  conflicts : list string;
}.

Definition bullish : list string :=
  ["STRONG_BUY"; "BUY"; "BULLISH"; "POSITIVE"; "UNDERVALUED"].
Definition bearish : list string :=
  ["STRONG_SELL"; "SELL"; "BEARISH"; "NEGATIVE"; "OVERVALUED"].

Definition _normalize_signal (signal : pyval) : result string :=
  signal ← py_upper signal;
  if existsb (fun s => contains s signal) bullish then Ok "BULLISH"
  else if existsb (fun s => contains s signal) bearish then Ok "BEARISH"
  else Ok "NEUTRAL".

Definition _detect_conflicts (signals : list string) : list string :=
  let bullish_count := count "BULLISH" signals in
  let bearish_count := count "BEARISH" signals in
  if (0 <? bullish_count)%nat && (0 <? bearish_count)%nat
  then ["Mixed signals: " +:+ pretty bullish_count +:+ " bullish, "
          +:+ pretty bearish_count +:+ " bearish"]
  else [].

Definition _calculate_weighted_scores
    (fundamental technical market_intel risk user_context : pyval)
    : result WeightedScores :=
  time_horizon ← py_get user_context "time_horizon" (PStr "medium");
  horizon ← py_lower time_horizon;
  let weights :=
    if contains "long" horizon then weights_long
    else if contains "short" horizon then weights_short
    else weights_swing in
  fund_score ← py_get fundamental "score" (PInt 50);
  tech_score ← py_get technical "score" (PInt 50);
  intel_score ← py_get market_intel "score" (PInt 50);
  raw_risk ← py_get risk "risk_score" (PInt 50);
  raw_risk_z ← as_int raw_risk;
  let risk_score := 100 - raw_risk_z in
  fund_z ← as_int fund_score;
  tech_z ← as_int tech_score;
  intel_z ← as_int intel_score;
  let weighted :=
    (Qc_of_Z fund_z * w_fundamental weights +
     Qc_of_Z tech_z * w_technical weights +
     Qc_of_Z intel_z * w_market_intel weights +
     Qc_of_Z risk_score * w_risk weights)%Qc in
  rating ← py_get fundamental "rating" (PStr "HOLD");
  s1 ← _normalize_signal rating;
  signal ← py_get technical "signal" (PStr "NEUTRAL");
  s2 ← _normalize_signal signal;
  sentiment ← py_get market_intel "overall_sentiment" (PStr "NEUTRAL");
  s3 ← _normalize_signal sentiment;
  let signals := [s1; s2; s3] in
  let conflicts := _detect_conflicts signals in
  let confidence_adjustment :=
    if (length conflicts =? 0)%nat then 10
    else if (2 <=? length conflicts)%nat then -20
    else 0 in
  Ok {| fundamental_score := fund_score;
        technical_score := tech_score;
        market_intel_score := intel_score;
        risk_score := raw_risk;
        weighted_average := py_round2 weighted;
        confidence_adjustment := confidence_adjustment;
        final_score := py_round2 (weighted + Qc_of_Z confidence_adjustment)%Qc;
        weights_used := weights;
        conflicts := conflicts |}.

(** What [analyze] hands to [_build_analysis_prompt]. *)
Record PromptInputs : Type := {
  p_stock_data : pyval;
  p_fundamental : pyval;
  p_technical : pyval;
  p_market_intel : pyval;
  p_risk : pyval;
  p_user_context : pyval;
  p_scores : WeightedScores;
}.

(** The part of [analyze] before the prompt is built: six [data.get] calls
    and the pre-calculated scores. *)
Definition analyze_inputs (data : pyval) : result PromptInputs :=
  _ ← py_get data "ticker" (PStr "unknown");
  stock_data ← py_get data "stock_data" (PDict ∅);
  fundamental ← py_get data "fundamental_analysis" (PDict ∅);
  technical ← py_get data "technical_analysis" (PDict ∅);
  market_intel ← py_get data "market_intel_analysis" (PDict ∅);
  risk ← py_get data "risk_analysis" (PDict ∅);
  user_context ← py_get data "user_context" (PDict ∅);
  scores ← _calculate_weighted_scores fundamental technical market_intel
              risk user_context;
  Ok {| p_stock_data := stock_data; p_fundamental := fundamental;
        p_technical := technical; p_market_intel := market_intel;
        p_risk := risk; p_user_context := user_context; p_scores := scores |}.

(** [_build_analysis_prompt].  Its first three statements read
    [stock_data]; the f-string starts with two reads of [price_data].  The
    evaluation of the rest of the f-string, which formats numbers and
    lists, is the external step [render]: it receives the arguments of the
    method and may raise. *)
Definition _build_analysis_prompt (render : PromptInputs -> result string)
    (inputs : PromptInputs) : result string :=
  let stock_data := p_stock_data inputs in
  ticker ← py_get stock_data "ticker" (PStr "Unknown");
  _ ← py_get stock_data "name" ticker;
  price_data ← py_get stock_data "price_data" (PDict ∅);
  _ ← py_get price_data "current_price" (PStr "N/A");
  _ ← py_get price_data "change_percent" (PInt 0);
  render inputs.

(** The steps of [analyze] after the score block.  [_run_llm_analysis]
    ([agents/base_agent.py]) catches every exception of the text generation
    service and returns the model's dict or the fallback response: it is
    the external step [run_llm_analysis], which returns a dict. *)
Definition analyze_prompt (render : PromptInputs -> result string)
    (run_llm_analysis : string -> gmap string pyval) (inputs : PromptInputs)
    : result pyval :=
  prompt ← _build_analysis_prompt render inputs;
  Ok (PDict (run_llm_analysis prompt)).

(** [SynthesizerAgent.analyze] *)
Definition analyze (render : PromptInputs -> result string)
    (run_llm_analysis : string -> gmap string pyval) (data : pyval)
    : result pyval :=
  inputs ← analyze_inputs data;
  analyze_prompt render run_llm_analysis inputs.

(** [ComparisonSynthesizerAgent.compare(self, stock1_data, stock2_data)].
    The log line reads [ticker] of both arguments; the comparison prompt and
    [llm.generate_simple] are the external step [generate_simple]. *)
Definition compare (generate_simple : pyval -> pyval -> result pyval)
    (stock1_data stock2_data : pyval) : result pyval :=
  _ ← py_get stock1_data "ticker" PNone;
  _ ← py_get stock2_data "ticker" PNone;
  text ← generate_simple stock1_data stock2_data;
  Ok (PDict {[ "comparison_analysis" := text ]}).

Definition compare_params : list string := ["stock1_data"; "stock2_data"].

End Synthesizer.

(* ===================================================================== *)
(** * Calling a function with keyword arguments                           *)
(* ===================================================================== *)

Module Call.

(** [f(k1=v1, ..., kn=vn)] for a function whose parameters are [params], all
    without defaults and with no [**kwargs] catch-all: a keyword that is not
    a parameter name is a [TypeError], so is a parameter left without a
    value; otherwise the values are returned in parameter order. *)
Definition bind_kwargs (fname : string) (params : list string)
    (kwargs : list (string * pyval)) : result (list pyval) :=
  match List.find (fun kv => negb (bool_decide (fst kv ∈ params))) kwargs with
  | Some (k, _) =>
      Raise (Exn TypeError
        (fname +:+ "() got an unexpected keyword argument '" +:+ k +:+ "'"))
  | None =>
      mapM (fun p =>
              match List.find (fun kv => String.eqb (fst kv) p) kwargs with
              | Some (_, v) => Ok v
              | None =>
                  Raise (Exn TypeError
                    (fname +:+ "() missing 1 required positional argument: '"
                       +:+ p +:+ "'"))
              end) params
  end.

End Call.

(* ===================================================================== *)
(** * orchestrator/intent_classifier.py and orchestrator/routing.py       *)
(* ===================================================================== *)

Module Routing.

Inductive IntentType : Type :=
  | PRICE_CHECK
  | TECHNICAL_ANALYSIS
  | FUNDAMENTAL_ANALYSIS
  | SENTIMENT_ANALYSIS
  | FULL_ANALYSIS
  | COMPARISON
  | DEEP_DIVE
  | HELP
  | UNKNOWN.

#[global] Instance IntentType_eq_dec : EqDecision IntentType.
Proof. solve_decision. Defined.

(** [IntentType.value] *)
Definition value (t : IntentType) : string :=
  match t with
  | PRICE_CHECK => "price_check"
  | TECHNICAL_ANALYSIS => "technical_analysis"
  | FUNDAMENTAL_ANALYSIS => "fundamental_analysis"
  | SENTIMENT_ANALYSIS => "sentiment_analysis"
  | FULL_ANALYSIS => "full_analysis"
  | COMPARISON => "comparison"
  | DEEP_DIVE => "deep_dive"
  | HELP => "help"
  | UNKNOWN => "unknown"
  end.

Record Intent : Type := {
  type : IntentType;
  tickers : list string;
  raw_query : string;
  confidence : Qc;
  aspect : option string;
}.

Inductive ExecutionPath : Type := FAST | SINGLE | STANDARD | COMPARISON_PATH | DEEP_DIVE_PATH.

Record RouteInfo : Type := {
  path : ExecutionPath;
  agents_used : Z;
  expected_time_seconds : Z * Z;
  description : string;
}.

Definition ROUTE_CONFIG (t : IntentType) : option RouteInfo :=
  match t with
  | PRICE_CHECK => Some {| path := FAST; agents_used := 0;
      expected_time_seconds := (1, 3); description := "Quick price check" |}
  | TECHNICAL_ANALYSIS => Some {| path := SINGLE; agents_used := 1;
      expected_time_seconds := (5, 10); description := "Technical analysis only" |}
  | FUNDAMENTAL_ANALYSIS => Some {| path := SINGLE; agents_used := 1;
      expected_time_seconds := (5, 10); description := "Fundamental analysis only" |}
  | SENTIMENT_ANALYSIS => Some {| path := SINGLE; agents_used := 1;
      expected_time_seconds := (5, 10); description := "News & sentiment analysis" |}
  | FULL_ANALYSIS => Some {| path := STANDARD; agents_used := 5;
      expected_time_seconds := (15, 25); description := "Complete stock analysis" |}
  | COMPARISON => Some {| path := COMPARISON_PATH; agents_used := 3;
      expected_time_seconds := (18, 30); description := "Compare two stocks" |}
  | DEEP_DIVE => Some {| path := DEEP_DIVE_PATH; agents_used := 5;
      expected_time_seconds := (25, 45); description := "Comprehensive deep dive" |}
  | HELP | UNKNOWN => None
  end.

Definition get_route (intent : Intent) : RouteInfo :=
  default {| path := STANDARD; agents_used := 5;
             expected_time_seconds := (15, 25);
             description := "Standard analysis" |}
          (ROUTE_CONFIG (type intent)).

Definition should_show_progress (intent : Intent) : bool :=
  let route := get_route intent in
  5 <=? fst (expected_time_seconds route).

(** [validate_intent]: returns [(is_valid, error_message)].  It is a
    function of the intent alone: it takes no collector, producer or
    pipeline state. *)
Definition validate_intent (intent : Intent) : bool * option string :=
  if bool_decide (type intent = UNKNOWN) then
    (false, Some "I couldn't understand your request. Try `/help` for available commands.")
  else if bool_decide (type intent = HELP) then
    (true, None)
  else if (length (tickers intent) =? 0)%nat then
    (false, Some "Please specify a stock ticker. Example: `/a RELIANCE`")
  else if bool_decide (type intent = COMPARISON) && (length (tickers intent) <? 2)%nat then
    (false, Some "Please specify two tickers for comparison. Example: `/c TCS INFY`")
  else
    (true, None).

End Routing.

(* ===================================================================== *)
(** * orchestrator/portfolio_workflow.py                                  *)
(* ===================================================================== *)

Module Portfolio.

Inductive PortfolioAction : Type :=
  | HOLD
  | ADD_MORE
  | BOOK_PARTIAL_25
  | BOOK_PARTIAL_50
  | BOOK_ALL
  | STOP_LOSS_HIT
  | REBALANCE
  | TRAILING_STOP.

Inductive Priority : Type := URGENT | HIGH | MEDIUM | LOW.

(** The columns of the [Portfolio] row that the rules read
    ([database/models.py]): nullable floats are [option Qc]. *)
Record Holding : Type := {
  ticker : string;
  quantity : Z;
  avg_price : Qc;
  target_price : option Qc;
  stop_loss : option Qc;
}.

Record ActionDecision : Type := {
  action : PortfolioAction;
  reason : string;
  priority : Priority;
  notes : list string;
}.

Definition Qcleb (x y : Qc) : bool := bool_decide (x ≤ y)%Qc.
Definition Qcltb (x y : Qc) : bool := bool_decide (x < y)%Qc.

(** Truth value of an optional float: [None] and [0.0] are false. *)
Definition truthy_float (x : option Qc) : bool :=
  match x with
  | None => false
  | Some v => negb (bool_decide (v = Q2Qc 0))
  end.

(** [analysis.get("score", 50) if analysis else 50] for an
    [Optional[Dict]]: [None] and the empty dict are false. *)
Definition score_or_50 (analysis : option (gmap string pyval)) : pyval :=
  match analysis with
  | Some d => if truthy (PDict d) then default (PInt 50) (d !! "score") else PInt 50
  | None => PInt 50
  end.

(** [score < n] and [score >= n] for a score taken from a producer dict. *)
Definition py_lt (v : pyval) (n : Z) : result bool := z ← as_int v; Ok (z <? n).
Definition py_ge (v : pyval) (n : Z) : result bool := z ← as_int v; Ok (n <=? z).

(** [a and b] where evaluating [b] may raise. *)
Definition and_then (a : result bool) (b : result bool) : result bool :=
  x ← a; if x : bool then b else Ok false.

(** Lines 161-165 of [_analyze_single_holding]: the profit percentage handed
    to [_determine_action]. *)
Definition pnl_percent_of (holding : Holding) (current_price : Qc) : Qc :=
  let current_value := (Qc_of_Z (quantity holding) * current_price)%Qc in
  let cost_basis := (Qc_of_Z (quantity holding) * avg_price holding)%Qc in
  let pnl := (current_value - cost_basis)%Qc in
  if Qcltb (Q2Qc 0) cost_basis then (pnl / cost_basis * Qc_of_Z 100)%Qc else Q2Qc 0.

Section DetermineAction.
Context {fmt : PyFormat}.

(** [_determine_action].  The texts are the string literals of the source
    file, character by character: the file stores the rupee sign with its
    bytes encoded twice. *)
Definition _determine_action
    (holding : Holding) (current_price pnl_percent : Qc) (days_held : Z)
    (fundamental technical : option (gmap string pyval)) (user : pyval)
    : result ActionDecision :=
  let fund_score := score_or_50 fundamental in
  let tech_score := score_or_50 technical in
  let stop_hit :=
    match stop_loss holding with
    | Some sl =>
        if truthy_float (Some sl) then
          let stop_loss_distance :=
            ((current_price - sl) / sl * Qc_of_Z 100)%Qc in
          if Qcleb stop_loss_distance (Qc_of_Z 2) then Some sl else None
        else None
    | None => None
    end in
  match stop_hit with
  | Some sl =>
      Ok {| action := STOP_LOSS_HIT;
            reason := "Price near stop loss (â‚¹" +:+ str_float sl +:+ ")";
            priority := URGENT;
            notes := ["Current: â‚¹" +:+ format_f 2 current_price
                        +:+ ", Stop: â‚¹" +:+ format_f 2 sl] |}
  | None =>
  if Qcleb pnl_percent (Qc_of_Z (-15)) then
    weak ← py_lt fund_score 40;
    let note := "Fundamental score: " +:+ py_str fund_score +:+ "/100" in
    if weak : bool then
      Ok {| action := BOOK_ALL;
            reason := "Large loss (" +:+ format_f 1 pnl_percent
                        +:+ "%) with weak fundamentals";
            priority := URGENT; notes := [note] |}
    else
      Ok {| action := HOLD;
            reason := "Down " +:+ format_f 1 pnl_percent
                        +:+ "% but fundamentals intact - hold through volatility";
            priority := HIGH; notes := [note] |}
  else if match target_price holding with
          | Some tp => truthy_float (Some tp) && Qcleb tp current_price
          | None => false
          end then
    Ok {| action := BOOK_PARTIAL_50;
          reason := "Target â‚¹" +:+ from_option str_float "None" (target_price holding)
                      +:+ " reached";
          priority := HIGH;
          notes := ["Consider moving to trailing stop"] |}
  else if Qcleb (Qc_of_Z 25) pnl_percent then
    weakening ← py_lt tech_score 45;
    let note := "Technical score: " +:+ py_str tech_score +:+ "/100" in
    if weakening : bool then
      Ok {| action := BOOK_PARTIAL_50;
            reason := "Profit " +:+ format_f 1 pnl_percent
                        +:+ "% but technicals weakening";
            priority := HIGH; notes := [note] |}
    else if Qcleb (Qc_of_Z 50) pnl_percent then
      Ok {| action := BOOK_PARTIAL_25;
            reason := "Large profit (" +:+ format_f 1 pnl_percent
                        +:+ "%) - secure some gains";
            priority := MEDIUM; notes := [note] |}
    else
      Ok {| action := TRAILING_STOP;
            reason := "Good profit (" +:+ format_f 1 pnl_percent
                        +:+ "%) - use trailing stop";
            priority := MEDIUM; notes := [note] |}
  else
    deteriorated ← py_lt fund_score 35;
    if deteriorated : bool then
      Ok {| action := BOOK_ALL;
            reason := "Fundamentals severely deteriorated";
            priority := HIGH;
            notes := ["Fundamental score dropped to " +:+ py_str fund_score
                        +:+ "/100"] |}
    else
    breakout ← and_then (py_ge tech_score 75) (Ok (Qcltb pnl_percent (Qc_of_Z 10)));
    if breakout : bool then
      Ok {| action := ADD_MORE;
            reason := "Strong technical setup - good to add";
            priority := MEDIUM;
            notes := ["Technical score: " +:+ py_str tech_score +:+ "/100";
                      "Current position profitable by " +:+ format_f 1 pnl_percent
                        +:+ "%"] |}
    else
    let both := "Fund: " +:+ py_str fund_score +:+ "/100, Tech: "
                  +:+ py_str tech_score +:+ "/100" in
    if Qcleb (Qc_of_Z 10) pnl_percent && Qcltb pnl_percent (Qc_of_Z 25) then
      strong ← and_then (py_ge fund_score 70) (py_ge tech_score 65);
      if strong : bool then
        Ok {| action := HOLD;
              reason := "Profit " +:+ format_f 1 pnl_percent
                          +:+ "% - strong fundamentals & technicals, hold for more";
              priority := LOW; notes := [both] |}
      else
        Ok {| action := BOOK_PARTIAL_25;
              reason := "Profit " +:+ format_f 1 pnl_percent
                          +:+ "% - secure partial gains";
              priority := MEDIUM; notes := [both] |}
    else if Qcltb (Qc_of_Z (-15)) pnl_percent && Qcltb pnl_percent (Qc_of_Z 0) then
      strong ← and_then (py_ge fund_score 70) (py_ge tech_score 60);
      if strong : bool then
        Ok {| action := ADD_MORE;
              reason := "Down " +:+ format_f 1 pnl_percent
                          +:+ "% but fundamentals strong - buying opportunity";
              priority := MEDIUM; notes := [both] |}
      else
        Ok {| action := HOLD;
              reason := "Down " +:+ format_f 1 pnl_percent
                          +:+ "% - monitor for improvement";
              priority := LOW; notes := [both] |}
    else if Qcleb (Qc_of_Z 0) pnl_percent && Qcltb pnl_percent (Qc_of_Z 10) then
      strong ← and_then (py_ge fund_score 70) (py_ge tech_score 70);
      if strong : bool then
        Ok {| action := HOLD;
              reason := "Up " +:+ format_f 1 pnl_percent
                          +:+ "% with strong outlook - hold for more";
              priority := LOW; notes := [both] |}
      else
        Ok {| action := HOLD;
              reason := "Up " +:+ format_f 1 pnl_percent +:+ "% - no action needed";
              priority := LOW; notes := [both] |}
    else
      Ok {| action := HOLD;
            reason := "Position stable - continue monitoring";
            priority := LOW; notes := [both] |}
  end.

End DetermineAction.

End Portfolio.

(* ===================================================================== *)
(** * orchestrator/langgraph_flow.py                                      *)
(* ===================================================================== *)

Module Flow.
Import Routing.

(** A [StockData] object returned by the price collector: its
    [model_dump()] and [len(price_data.historical_ohlcv)] (0 when
    [price_data] is missing). *)
Record StockData : Type := {
  model_dump : pyval;
  hist_count : nat;
}.

(** The collaborators of [StockAnalysisGraph].  Every call either returns
    or raises.  A returned [None] is [PNone] (or [None] of an option);
    [Some d] is an object whose [model_dump()] is [d].  Of the synthesizer,
    whose [analyze] is modelled in [Synthesizer], the collaborators are the
    f-string of its prompt ([synthesizer_render]) and its
    [_run_llm_analysis]. *)
Record World : Type := {
  now : string;
  cache_get_price : string -> result pyval;
  get_quick_price : string -> result pyval;
  get_stock_data : string -> bool -> Z -> result (option StockData);
  get_news : string -> result (option pyval);
  get_market_data : result (option pyval);
  fundamental_analyze : pyval -> result pyval;
  technical_analyze : pyval -> result pyval;
  market_intel_analyze : pyval -> result pyval;
  risk_analyze : pyval -> result pyval;
  synthesizer_render : Synthesizer.PromptInputs -> result string;
  synthesizer_run_llm_analysis : string -> gmap string pyval;
  comparison_generate_simple : pyval -> pyval -> result pyval;
}.

(** [GraphState].  The optional data and agent-output entries are kept under
    their string keys in [slots]; [None] is [PNone]. *)
Record GraphState : Type := {
  ticker : string;
  ticker_2 : option string;
  intent : IntentType;
  user_id : option string;
  slots : gmap string pyval;
  errors : list string;
  progress : list string;
  start_time : string;
  execution_path : string;
}.

Definition initial_slots : gmap string pyval :=
  <["stock_data" := PNone]> (
  <["stock_data_2" := PNone]> (
  <["news_data" := PNone]> (
  <["market_data" := PNone]> (
  <["fundamental_analysis" := PNone]> (
  <["fundamental_analysis_2" := PNone]> (
  <["technical_analysis" := PNone]> (
  <["technical_analysis_2" := PNone]> (
  <["market_intel_analysis" := PNone]> (
  <["risk_analysis" := PNone]> (
  <["synthesized_recommendation" := PNone]> ∅)))))))))).

(** The steps of the synthesizer after its score block, with the
    collaborators of [w]. *)
Definition synthesizer_generate (w : World) (inputs : Synthesizer.PromptInputs)
    : result pyval :=
  Synthesizer.analyze_prompt (synthesizer_render w)
    (synthesizer_run_llm_analysis w) inputs.

(** ** Stage bodies: state passing with exceptions *)

Definition M (A : Type) : Type := GraphState -> result A * GraphState.

#[global] Instance M_ret : MRet M := fun A a st => (Ok a, st).
#[global] Instance M_bind : MBind M := fun A B k m st =>
  match m st with
  | (Ok a, st') => k a st'
  | (Raise e, st') => (Raise e, st')
  end.

#[global] Instance M_fmap : FMap M := fun A B f m st =>
  match m st with
  | (Ok a, st') => (Ok (f a), st')
  | (Raise e, st') => (Raise e, st')
  end.

Definition lift {A} (r : result A) : M A := fun st => (r, st).
Definition gets {A} (f : GraphState -> A) : M A := fun st => (Ok (f st), st).
Definition modify (f : GraphState -> GraphState) : M unit :=
  fun st => (Ok tt, f st).

(** [try: body except Exception as e: handler(e)] *)
Definition try_except (body : M unit) (handler : exn -> M unit) : M unit :=
  fun st =>
    match body st with
    | (Ok _, st') => (Ok tt, st')
    | (Raise e, st') => handler e st'
    end.

Definition with_slots (f : gmap string pyval -> gmap string pyval)
    (st : GraphState) : GraphState :=
  {| ticker := ticker st; ticker_2 := ticker_2 st; intent := intent st;
     user_id := user_id st; slots := f (slots st); errors := errors st;
     progress := progress st; start_time := start_time st;
     execution_path := execution_path st |}.

Definition with_errors (f : list string -> list string)
    (st : GraphState) : GraphState :=
  {| ticker := ticker st; ticker_2 := ticker_2 st; intent := intent st;
     user_id := user_id st; slots := slots st; errors := f (errors st);
     progress := progress st; start_time := start_time st;
     execution_path := execution_path st |}.

Definition with_progress (f : list string -> list string)
    (st : GraphState) : GraphState :=
  {| ticker := ticker st; ticker_2 := ticker_2 st; intent := intent st;
     user_id := user_id st; slots := slots st; errors := errors st;
     progress := f (progress st); start_time := start_time st;
     execution_path := execution_path st |}.

(** [state[k] = v], [state.get(k)], [state["errors"].append(msg)],
    [state["progress"].append(msg)] *)
Definition set_slot (k : string) (v : pyval) : M unit :=
  modify (with_slots (insert k v)).
Definition get_slot (k : string) : M pyval :=
  gets (fun st => default PNone (slots st !! k)).
Definition append_error (msg : string) : M unit :=
  modify (with_errors (fun l => (l ++ [msg])%list)).
Definition append_progress (msg : string) : M unit :=
  modify (with_progress (fun l => (l ++ [msg])%list)).

(** [x or {}] *)
Definition or_empty_dict (v : pyval) : pyval :=
  if truthy v then v else PDict ∅.

(** [for i, x in enumerate(l): f(i, x)] *)
Definition for_enumerate {A} (f : nat -> A -> M unit) (l : list A) : M unit :=
  foldr (fun step rest => step ;; rest) (mret tt) (imap f l).

(** [state.get('ticker_2')] as a value *)
Definition ticker_2_value (st : GraphState) : pyval :=
  from_option PStr PNone (ticker_2 st).

Section Stages.
Context {fmt : PyFormat} (w : World).

Definition _collect_price_data : M unit :=
  try_except
    (ticker ← gets ticker;
     cached ← lift (cache_get_price w ticker);
     if truthy cached then
       set_slot "stock_data"
         (PDict (<["price_data" := cached]> (<["ticker" := PStr ticker]> ∅)));;
       append_progress "✅ Price data (cached)"
     else
       price_data ← lift (get_quick_price w ticker);
       if truthy price_data then
         set_slot "stock_data"
           (PDict (<["price_data" := price_data]> (<["ticker" := PStr ticker]> ∅)));;
         append_progress "✅ Price data fetched"
       else
         append_error ("Could not fetch price for " +:+ ticker))
    (fun e => append_error ("Price fetch error: " +:+ str_exn e)).

Definition _collect_stock_data : M unit :=
  try_except
    (ticker ← gets ticker;
     stock_data ← lift (get_stock_data w ticker true 365);
     match stock_data with
     | Some sd =>
         set_slot "stock_data" (model_dump sd);;
         append_progress "✅ Stock data collected"
     | None => append_error ("Could not fetch data for " +:+ ticker)
     end)
    (fun e => append_error ("Data collection error: " +:+ str_exn e)).

Definition _collect_all_data : M unit :=
  try_except
    (ticker ← gets ticker;
     let stock_data := get_stock_data w ticker true 180 in
     let news_data := get_news w ticker in
     let market_data := get_market_data w in
     match stock_data with
     | Raise e => append_error ("Stock data error: " +:+ str_exn e)
     | Ok (Some sd) =>
         set_slot "stock_data" (model_dump sd);;
         if (0 <? hist_count sd)%nat then
           append_progress ("✅ Stock data collected (" +:+ pretty (hist_count sd)
                              +:+ " days historical)")
         else
           append_progress "✅ Stock data collected (no historical)";;
           append_error "Warning: No historical data available for technical analysis"
     | Ok None => mret tt
     end;;
     match news_data with
     | Raise e => append_error ("News data error: " +:+ str_exn e)
     | Ok (Some d) =>
         set_slot "news_data" d;;
         append_progress "✅ News data collected"
     | Ok None => mret tt
     end;;
     match market_data with
     | Raise e => append_error ("Market data error: " +:+ str_exn e)
     | Ok (Some d) =>
         set_slot "market_data" d;;
         append_progress "✅ Market data collected"
     | Ok None => mret tt
     end)
    (fun e => append_error ("Data collection error: " +:+ str_exn e)).

Definition _collect_comparison_data : M unit :=
  try_except
    (ticker1 ← gets ticker;
     ticker2 ← gets ticker_2;
     match ticker2 with
     | Some t2 =>
         if truthy (PStr t2) then
           let stock1 := get_stock_data w ticker1 true 365 in
           let stock2 := get_stock_data w t2 true 365 in
           match stock1 with
           | Ok (Some sd) =>
               set_slot "stock_data" (model_dump sd);;
               append_progress ("✅ " +:+ ticker1 +:+ " data collected")
           | Ok None => append_error ("Error fetching " +:+ ticker1 +:+ ": None")
           | Raise e =>
               append_error ("Error fetching " +:+ ticker1 +:+ ": " +:+ str_exn e)
           end;;
           match stock2 with
           | Ok (Some sd) =>
               set_slot "stock_data_2" (model_dump sd);;
               append_progress ("✅ " +:+ t2 +:+ " data collected")
           | Ok None => append_error ("Error fetching " +:+ t2 +:+ ": None")
           | Raise e =>
               append_error ("Error fetching " +:+ t2 +:+ ": " +:+ str_exn e)
           end
         else append_error "Second ticker required for comparison"
     | None => append_error "Second ticker required for comparison"
     end)
    (fun e => append_error ("Comparison data error: " +:+ str_exn e)).

(** The input bundle [{'stock_data': ..., 'ticker': ...}] *)
Definition bundle (stock_data ticker : pyval) : pyval :=
  PDict (<["stock_data" := stock_data]> (<["ticker" := ticker]> ∅)).

Definition intel_bundle (stock_data news_data market_data ticker : pyval) : pyval :=
  PDict (<["stock_data" := stock_data]> (<["news_data" := news_data]> (
         <["market_data" := market_data]> (<["ticker" := ticker]> ∅)))).

(** [state[slot] = result] followed by the progress line that reads
    [result.get(key, 0)]. *)
Definition store_result (slot label key : string) (result : pyval) : M unit :=
  set_slot slot result;;
  score ← lift (py_get result key (PInt 0));
  append_progress ("✅ " +:+ label +:+ ": " +:+ py_str score +:+ "/100").

Definition _run_single_agent : M unit :=
  try_except
    (intent ← gets intent;
     stock_data ← get_slot "stock_data";
     if negb (truthy stock_data) then append_error "No stock data available"
     else
       ticker ← gets ticker;
       match intent with
       | TECHNICAL_ANALYSIS =>
           result ← lift (technical_analyze w (bundle stock_data (PStr ticker)));
           if truthy result then store_result "technical_analysis" "Technical" "score" result
           else append_error "Technical analysis failed"
       | FUNDAMENTAL_ANALYSIS =>
           result ← lift (fundamental_analyze w (bundle stock_data (PStr ticker)));
           if truthy result then store_result "fundamental_analysis" "Fundamental" "score" result
           else append_error "Fundamental analysis failed"
       | SENTIMENT_ANALYSIS =>
           news_data ← or_empty_dict <$> get_slot "news_data";
           market_data ← or_empty_dict <$> get_slot "market_data";
           let ticker := or_empty_dict (PStr ticker) in
           result ← lift (market_intel_analyze w
                            (intel_bundle stock_data news_data market_data ticker));
           if truthy result then store_result "market_intel_analysis" "Market Intel" "score" result
           else append_error "Market Intel analysis failed"
       | _ => mret tt
       end)
    (fun e => append_error ("Analysis error: " +:+ str_exn e)).

Definition agent_names : list string := ["Fundamental"; "Technical"; "Market Intel"].

(** The three calls handed to [asyncio.gather(..., return_exceptions=True)]:
    a raised exception comes back as a value. *)
Definition parallel_tasks (stock_data news_data market_data ticker : pyval)
    : list (result pyval) :=
  [ fundamental_analyze w (bundle stock_data ticker);
    technical_analyze w (bundle stock_data ticker);
    market_intel_analyze w (intel_bundle stock_data news_data market_data ticker) ].

Definition _run_parallel_analysis : M unit :=
  try_except
    (stock_data ← get_slot "stock_data";
     news_data ← or_empty_dict <$> get_slot "news_data";
     market_data ← or_empty_dict <$> get_slot "market_data";
     if negb (truthy stock_data) then append_error "No stock data for analysis"
     else
       ticker ← gets ticker;
       let results := parallel_tasks stock_data news_data market_data (PStr ticker) in
       for_enumerate
         (fun i result =>
            match result with
            | Raise e =>
                append_error (default EmptyString (agent_names !! i) +:+ " agent error: "
                                +:+ str_exn e)
            | Ok r =>
                if (i =? 0)%nat then
                  store_result "fundamental_analysis" "Fundamental" "score" r
                else if (i =? 1)%nat then
                  store_result "technical_analysis" "Technical" "score" r
                else
                  store_result "market_intel_analysis" "Market Intel" "score" r
            end)
         results)
    (fun e => append_error ("Parallel analysis error: " +:+ str_exn e)).

Definition _run_parallel_comparison_analysis : M unit :=
  try_except
    (stock_data_1 ← get_slot "stock_data";
     stock_data_2 ← get_slot "stock_data_2";
     if negb (truthy stock_data_1) || negb (truthy stock_data_2) then
       append_error "Missing stock data for comparison"
     else
       ticker ← gets ticker;
       ticker2 ← gets ticker_2_value;
       let r0 := fundamental_analyze w (bundle stock_data_1 (PStr ticker)) in
       let r1 := technical_analyze w (bundle stock_data_1 (PStr ticker)) in
       let r2 := fundamental_analyze w (bundle stock_data_2 ticker2) in
       let r3 := technical_analyze w (bundle stock_data_2 ticker2) in
       match r0 with
       | Ok r => store_result "fundamental_analysis" (ticker +:+ " Fundamental") "score" r
       | Raise _ => mret tt
       end;;
       match r1 with
       | Ok r => store_result "technical_analysis" (ticker +:+ " Technical") "score" r
       | Raise _ => mret tt
       end;;
       match r2 with
       | Ok r => store_result "fundamental_analysis_2"
                   (py_str ticker2 +:+ " Fundamental") "score" r
       | Raise _ => mret tt
       end;;
       match r3 with
       | Ok r => store_result "technical_analysis_2"
                   (py_str ticker2 +:+ " Technical") "score" r
       | Raise _ => mret tt
       end)
    (fun e => append_error ("Comparison analysis error: " +:+ str_exn e)).

Definition _run_risk_analysis : M unit :=
  try_except
    (stock_data ← get_slot "stock_data";
     fundamental ← get_slot "fundamental_analysis";
     technical ← get_slot "technical_analysis";
     if negb (truthy stock_data) then append_error "No stock data for risk analysis"
     else
       ticker ← gets ticker;
       result ← lift (risk_analyze w
         (PDict (<["stock_data" := stock_data]> (
                 <["fundamental_analysis" := fundamental]> (
                 <["technical_analysis" := technical]> (
                 <["ticker" := PStr ticker]> ∅))))));
       store_result "risk_analysis" "Risk" "risk_score" result)
    (fun e => append_error ("Risk analysis error: " +:+ str_exn e)).

(** The [data] dict that [_run_synthesis] passes to the synthesizer. *)
Definition synthesis_data (stock_data fundamental technical market_intel risk : pyval)
    : pyval :=
  PDict (<["stock_data" := stock_data]> (
         <["fundamental" := fundamental]> (
         <["technical" := technical]> (
         <["market_intel" := market_intel]> (
         <["risk" := risk]> ∅))))).

Definition _run_synthesis : M unit :=
  try_except
    (stock_data ← get_slot "stock_data";
     fundamental ← get_slot "fundamental_analysis";
     technical ← get_slot "technical_analysis";
     market_intel ← get_slot "market_intel_analysis";
     risk ← get_slot "risk_analysis";
     result ← lift (Synthesizer.analyze (synthesizer_render w)
                      (synthesizer_run_llm_analysis w)
                      (synthesis_data stock_data fundamental technical market_intel risk));
     set_slot "synthesized_recommendation" result;;
     append_progress "✅ Recommendation generated")
    (fun e => append_error ("Synthesis error: " +:+ str_exn e)).

(** The keyword arguments of the call in [_run_comparison_synthesis]. *)
Definition comparison_kwargs (st : GraphState) : list (string * pyval) :=
  [ ("ticker1", PStr (ticker st));
    ("ticker2", ticker_2_value st);
    ("stock_data_1", default PNone (slots st !! "stock_data"));
    ("stock_data_2", default PNone (slots st !! "stock_data_2"));
    ("fundamental_1", default PNone (slots st !! "fundamental_analysis"));
    ("fundamental_2", default PNone (slots st !! "fundamental_analysis_2"));
    ("technical_1", default PNone (slots st !! "technical_analysis"));
    ("technical_2", default PNone (slots st !! "technical_analysis_2")) ].

Definition _run_comparison_synthesis : M unit :=
  try_except
    (kwargs ← gets comparison_kwargs;
     result ← lift (
       args ← Call.bind_kwargs "ComparisonSynthesizerAgent.compare"
                Synthesizer.compare_params kwargs;
       match args with
       | [stock1_data; stock2_data] =>
           Synthesizer.compare (comparison_generate_simple w) stock1_data stock2_data
       | _ => Raise (Exn TypeError "wrong number of arguments")
       end);
     set_slot "synthesized_recommendation" result;;
     append_progress "✅ Comparison complete")
    (fun e => append_error ("Comparison error: " +:+ str_exn e)).

(** ** The five compiled graphs: each is a chain of named nodes *)

Definition StateGraph : Type := list (string * M unit).

Definition price_graph : StateGraph :=
  [ ("collect_price", _collect_price_data) ].

Definition single_aspect_graph : StateGraph :=
  [ ("collect_data", _collect_stock_data); ("run_agent", _run_single_agent) ].

Definition full_analysis_graph : StateGraph :=
  [ ("collect_all_data", _collect_all_data);
    ("parallel_analysis", _run_parallel_analysis);
    ("risk_analysis_node", _run_risk_analysis);
    ("synthesize", _run_synthesis) ].

Definition comparison_graph : StateGraph :=
  [ ("collect_comparison_data", _collect_comparison_data);
    ("parallel_comparison_analysis", _run_parallel_comparison_analysis);
    ("synthesize_comparison", _run_comparison_synthesis) ].

Definition deep_dive_graph : StateGraph := full_analysis_graph.

(** [graph.ainvoke(state)]: the nodes run in edge order on the state. *)
Definition ainvoke (graph : StateGraph) : M unit :=
  foldr (fun node rest => snd node ;; rest) (mret tt) graph.

Definition graph_map (t : IntentType) : StateGraph :=
  match t with
  | PRICE_CHECK => price_graph
  | TECHNICAL_ANALYSIS | FUNDAMENTAL_ANALYSIS | SENTIMENT_ANALYSIS => single_aspect_graph
  | FULL_ANALYSIS => full_analysis_graph
  | COMPARISON => comparison_graph
  | DEEP_DIVE => deep_dive_graph
  | HELP | UNKNOWN => full_analysis_graph
  end.

Definition initial_state (intent : Intent) (user_id : option string) : GraphState :=
  {| ticker := default EmptyString (head (tickers intent));
     ticker_2 := tickers intent !! 1%nat;
     intent := type intent;
     user_id := user_id;
     slots := initial_slots;
     errors := [];
     progress := [];
     start_time := now w;
     execution_path := value (type intent) |}.

(** [run(intent, user_id)] without a progress callback. *)
Definition run (intent : Intent) (user_id : option string) : GraphState :=
  let initial_state := initial_state intent user_id in
  if negb (truthy (PStr (ticker initial_state))) then
    with_errors (fun l => (l ++ ["No ticker provided"])%list) initial_state
  else
    let graph := graph_map (type intent) in
    let body : M unit :=
      (if bool_decide (type intent = SENTIMENT_ANALYSIS)
       then _collect_all_data else mret tt);;
      ainvoke graph in
    match body initial_state with
    | (Ok _, final_state) => final_state
    | (Raise e, st) =>
        with_errors (fun l => (l ++ ["Execution error: " +:+ str_exn e])%list) st
    end.

(** [run(intent, user_id, progress_callback)] with a callback: the messages
    that the callback receives, in order.  They are the progress log of the
    final state, handed over after the graph has run; a run that stops for
    want of a ticker, or whose graph raises, hands over nothing. *)
Definition run_callbacks (intent : Intent) (user_id : option string)
    : list string :=
  let initial_state := initial_state intent user_id in
  if negb (truthy (PStr (ticker initial_state))) then []
  else
    let graph := graph_map (type intent) in
    let body : M unit :=
      (if bool_decide (type intent = SENTIMENT_ANALYSIS)
       then _collect_all_data else mret tt);;
      ainvoke graph in
    match body initial_state with
    | (Ok _, final_state) => progress final_state
    | (Raise e, st) => []
    end.

End Stages.

End Flow.


(* ===================================================================== *)
(** * orchestrator/routing.py: the progress message                       *)
(* ===================================================================== *)

Module Router.
Import Routing.

(** [l[i]] on a list: an index past the end raises [IndexError], whose
    [str] is the message below. *)
Definition py_index {A} (l : list A) (i : nat) : result A :=
  match l !! i with
  | Some x => Ok x
  | None => Raise (Exn OtherError "list index out of range")
  end.

Definition newline : string := String (ascii_of_nat 10) EmptyString.

(** [get_progress_message].  The dict literal [messages] evaluates its five
    f-strings before the lookup; the COMPARISON entry indexes
    [intent.tickers[0]] without a guard. *)
Definition get_progress_message (intent : Intent) : result string :=
  let route := get_route intent in
  let ticker := match tickers intent with t :: _ => t | [] => "stock" end in
  let fast := "⚡ Fetching price for " +:+ ticker +:+ "..." in
  let single := "⏳ Analyzing " +:+ ticker +:+ "..." in
  let standard :=
    "⏳ Running full analysis on " +:+ ticker +:+ "..." +:+ newline
    +:+ "Expected time: " +:+ pretty (fst (expected_time_seconds route))
    +:+ "-" +:+ pretty (snd (expected_time_seconds route)) +:+ "s" in
  first ← py_index (tickers intent) 0;
  second ← (if (1 <? length (tickers intent))%nat
            then py_index (tickers intent) 1 else Ok "?");
  let comparison := "⏳ Comparing " +:+ first +:+ " vs " +:+ second +:+ "..." in
  let deep_dive :=
    "🔍 Starting deep dive on " +:+ ticker +:+ "..." +:+ newline
    +:+ "This may take up to 45 seconds." in
  Ok (match path route with
      | FAST => fast
      | SINGLE => single
      | STANDARD => standard
      | COMPARISON_PATH => comparison
      | DEEP_DIVE_PATH => deep_dive
      end).

End Router.

(* ===================================================================== *)
(** * orchestrator/intent_classifier.py                                   *)
(* ===================================================================== *)

(** The white space of [str.split] and [str.strip] is the ASCII white
    space, as [upper] and [lower] change ASCII letters only: the functions
    below are those of Python on ASCII text ([Py.isascii]). *)

Module Text.

(** [c.isspace()] *)
Definition is_space (c : ascii) : bool :=
  let n := N_of_ascii c in
  (((9 <=? n) && (n <=? 13)) || ((28 <=? n) && (n <=? 32)))%N.

(** [s.split()]: the maximal runs of characters that are not white space. *)
Fixpoint split_from (word : string) (s : string) : list string :=
  match s with
  | EmptyString => if String.eqb word EmptyString then [] else [word]
  | String c s' =>
      if is_space c then
        if String.eqb word EmptyString then split_from EmptyString s'
        else word :: split_from EmptyString s'
      else split_from (word +:+ String c EmptyString) s'
  end.

Definition split (s : string) : list string := split_from EmptyString s.

Fixpoint lstrip (chars : ascii -> bool) (s : string) : string :=
  match s with
  | EmptyString => EmptyString
  | String c s' => if chars c then lstrip chars s' else s
  end.

Definition rstrip (chars : ascii -> bool) (s : string) : string :=
  String.rev (lstrip chars (String.rev s)).

(** [s.strip(chars)] and [s.strip()] *)
Definition strip_chars (chars : string) (s : string) : string :=
  let among c := existsb (Ascii.eqb c) (list_ascii_of_string chars) in
  rstrip among (lstrip among s).

Definition strip (s : string) : string := rstrip is_space (lstrip is_space s).

(** [s.startswith(p)] *)
Definition startswith (s p : string) : bool := String.prefix p s.

(** [s.split(sep)] for a separator of one character: the pieces between
    the occurrences of [sep], empty pieces included. *)
Fixpoint split_on_from (sep : ascii) (piece s : string) : list string :=
  match s with
  | EmptyString => [piece]
  | String c s' =>
      if Ascii.eqb c sep then piece :: split_on_from sep EmptyString s'
      else split_on_from sep (piece +:+ String c EmptyString) s'
  end.

Definition split_on (sep : ascii) (s : string) : list string :=
  split_on_from sep EmptyString s.

End Text.

Module Classifier.
Import Routing Text.

(** [COMMAND_SHORTCUTS], in the order of the dict literal. *)
Definition COMMAND_SHORTCUTS : list (string * IntentType) :=
  [ ("/p", PRICE_CHECK);
    ("/t", TECHNICAL_ANALYSIS);
    ("/f", FUNDAMENTAL_ANALYSIS);
    ("/n", SENTIMENT_ANALYSIS);
    ("/a", FULL_ANALYSIS);
    ("/c", COMPARISON);
    ("/dd", DEEP_DIVE);
    ("/help", HELP);
    ("/start", HELP) ].

(** [_check_command]: the first shortcut, in dict order, that the
    lower-cased query starts with. *)
Definition _check_command (query : string) : IntentType * Qc :=
  let query_lower := lower query in
  match List.find (fun item => startswith query_lower (fst item))
          COMMAND_SHORTCUTS with
  | Some (_, intent) => (intent, Q2Qc 1.0)
  | None => (UNKNOWN, Q2Qc 0.0)
  end.

(** The keys of [PATTERNS], in the order of the dict literal. *)
Definition PATTERNS_keys : list IntentType :=
  [ PRICE_CHECK; TECHNICAL_ANALYSIS; FUNDAMENTAL_ANALYSIS; SENTIMENT_ANALYSIS;
    FULL_ANALYSIS; COMPARISON; DEEP_DIVE; HELP ].

Definition priority_order : list IntentType :=
  [ DEEP_DIVE; COMPARISON; FULL_ANALYSIS; TECHNICAL_ANALYSIS;
    FUNDAMENTAL_ANALYSIS; SENTIMENT_ANALYSIS; PRICE_CHECK; HELP ].

(** [_determine_aspect] *)
Definition _determine_aspect (intent_type : IntentType) : option string :=
  match intent_type with
  | TECHNICAL_ANALYSIS => Some "technical"
  | FUNDAMENTAL_ANALYSIS => Some "fundamental"
  | SENTIMENT_ANALYSIS => Some "sentiment"
  | _ => None
  end.

(** Truth value of the triple that [validate_ticker] returns: a tuple with
    three components is not empty. *)
Definition truthy_triple {A B C} (t : A * B * C) : bool := true.

Section Matching.

(** The regular expressions are taken as given: [search intent query]
    tells whether one of the compiled patterns of [intent] is found in
    [query]; [validate_ticker] and [extract_tickers_from_text] are the two
    functions of [utils/validators.py], which return on every string. *)
Context (search : IntentType -> string -> bool)
        (validate_ticker : string -> bool * option string * option string)
        (extract_tickers_from_text : string -> list string).

Definition _match_patterns (query : string) : IntentType * Qc :=
  let matches := List.filter (fun intent => search intent query) PATTERNS_keys in
  match matches with
  | [] => (UNKNOWN, Q2Qc 0.0)
  | first :: _ =>
      match List.find (fun p => bool_decide (p ∈ matches)) priority_order with
      | Some priority_intent =>
          let confidence :=
            if (length matches =? 1)%nat then Q2Qc 0.9 else Q2Qc 0.7 in
          (priority_intent, confidence)
      | None => (first, Q2Qc 0.7)
      end
  end.

Definition _extract_tickers (query : string) : list string :=
  let parts := split query in
  let tickers :=
    foldl (fun tickers part =>
             let cleaned := strip_chars ",.!?" (upper part) in
             if truthy_triple (validate_ticker cleaned)
             then (tickers ++ [cleaned])%list else tickers)
          [] (drop 1 parts) in
  let extracted := extract_tickers_from_text query in
  let tickers :=
    foldl (fun tickers ticker =>
             if bool_decide (ticker ∈ tickers) then tickers
             else (tickers ++ [ticker])%list)
          tickers extracted in
  take 2 tickers.

Definition classify (query : string) : Intent :=
  let query := strip query in
  let '(intent_type, confidence) := _check_command query in
  let '(intent_type, confidence) :=
    if bool_decide (intent_type = UNKNOWN) then _match_patterns query
    else (intent_type, confidence) in
  let tickers := _extract_tickers query in
  let aspect := _determine_aspect intent_type in
  let '(intent_type, confidence) :=
    if bool_decide (intent_type = UNKNOWN) && negb (length tickers =? 0)%nat
    then (FULL_ANALYSIS, Q2Qc 0.6)
    else (intent_type, confidence) in
  {| type := intent_type; tickers := tickers; raw_query := query;
     confidence := confidence; aspect := aspect |}.

End Matching.

End Classifier.

(* ===================================================================== *)
(** * orchestrator/portfolio_workflow.py: the portfolio report            *)
(* ===================================================================== *)

Module Workflow.
Import Portfolio.

#[global] Instance PortfolioAction_eq_dec : EqDecision PortfolioAction.
Proof. solve_decision. Defined.

#[global] Instance Priority_eq_dec : EqDecision Priority.
Proof. solve_decision. Defined.

(** The string constants of the class [PortfolioAction]. *)
Definition action_value (a : PortfolioAction) : string :=
  match a with
  | HOLD => "HOLD"
  | ADD_MORE => "ADD_MORE"
  | BOOK_PARTIAL_25 => "BOOK_PARTIAL_25"
  | BOOK_PARTIAL_50 => "BOOK_PARTIAL_50"
  | BOOK_ALL => "BOOK_ALL"
  | STOP_LOSS_HIT => "STOP_LOSS_HIT"
  | REBALANCE => "REBALANCE"
  | TRAILING_STOP => "TRAILING_STOP"
  end.

(** The dict that [_analyze_single_holding] returns for a holding it could
    analyse: field [a_k] is the entry under key [k]. *)
Record Analysis : Type := {
  a_ticker : string;
  a_name : string;
  a_quantity : Z;
  a_avg_buy_price : Qc;
  a_current_price : Qc;
  a_current_value : Qc;
  a_cost_basis : Qc;
  a_pnl : Qc;
  a_pnl_percent : Qc;
  a_days_held : Z;
  a_action : PortfolioAction;
  a_action_reason : string;
  a_priority : Priority;
  a_fundamental_score : pyval;
  a_technical_score : pyval;
  a_notes : list string;
}.

(** An entry of [stock_analyses]: the dict above, or the dict
    [{"ticker": ..., "error": ..., "action": HOLD}]. *)
Inductive StockAnalysis : Type :=
  | Analysed (a : Analysis)
  | Failed (ticker : string) (error : string).

(** [analysis.get(k)] for the keys that the report reads. *)
Definition get_ticker (analysis : StockAnalysis) : string :=
  match analysis with
  | Analysed a => a_ticker a
  | Failed ticker _ => ticker
  end.

Definition get_action (analysis : StockAnalysis) : PortfolioAction :=
  match analysis with
  | Analysed a => a_action a
  | Failed _ _ => HOLD
  end.

Definition get_priority (analysis : StockAnalysis) : option Priority :=
  match analysis with
  | Analysed a => Some (a_priority a)
  | Failed _ _ => None
  end.

Definition get_pnl_percent (analysis : StockAnalysis) : option Qc :=
  match analysis with
  | Analysed a => Some (a_pnl_percent a)
  | Failed _ _ => None
  end.

Definition get_current_value (analysis : StockAnalysis) : option Qc :=
  match analysis with
  | Analysed a => Some (a_current_value a)
  | Failed _ _ => None
  end.

Definition get_pnl (analysis : StockAnalysis) : option Qc :=
  match analysis with
  | Analysed a => Some (a_pnl a)
  | Failed _ _ => None
  end.

(** [_categorize_actions]: the dict has seven keys; REBALANCE is not one
    of them. *)
Definition category_keys : list PortfolioAction :=
  [HOLD; ADD_MORE; BOOK_PARTIAL_25; BOOK_PARTIAL_50; BOOK_ALL; STOP_LOSS_HIT;
   TRAILING_STOP].

Definition _categorize_actions (analyses : list StockAnalysis)
    : gmap string (list string) :=
  let categories : gmap string (list string) :=
    list_to_map (map (fun k => (action_value k, [])) category_keys) in
  foldl (fun categories analysis =>
           let action := get_action analysis in
           let ticker := get_ticker analysis in
           match categories !! action_value action with
           | Some l => <[action_value action := (l ++ [ticker])%list]> categories
           | None => categories
           end)
        categories analyses.

(** [sorted(l, key=..., reverse=True)]: a stable sort in descending
    order of the key. *)
Fixpoint insert_desc {A} (key : A -> Qc) (x : A) (l : list A) : list A :=
  match l with
  | [] => [x]
  | y :: l' =>
      if Qcleb (key x) (key y) then y :: insert_desc key x l'
      else x :: y :: l'
  end.

Definition sorted_desc {A} (key : A -> Qc) (l : list A) : list A :=
  foldl (fun acc x => insert_desc key x acc) [] l.

Record Insights : Type := {
  overall_health : string;
  health_emoji : string;
  urgent_actions : nat;
  high_priority_actions : nat;
  best_performers : list (string * Qc);
  worst_performers : list (string * Qc);
  action_required_count : nat;
}.

(** [_generate_portfolio_insights].  The health emoji are the string
    literals of the source file, which stores them with their bytes encoded
    twice. *)
Definition _generate_portfolio_insights (analyses : list StockAnalysis)
    (total_value total_pnl_percent : Qc)
    (actions_summary : gmap string (list string)) : Insights :=
  let urgent :=
    length (List.filter
              (fun a => bool_decide (get_priority a = Some URGENT)) analyses) in
  let high :=
    length (List.filter
              (fun a => bool_decide (get_priority a = Some HIGH)) analyses) in
  let sorted_by_pnl :=
    sorted_desc (fun x => default (Q2Qc 0) (get_pnl_percent x))
      (List.filter (fun a => bool_decide (is_Some (get_pnl_percent a))) analyses) in
  let best_performers :=
    if (3 <=? length sorted_by_pnl)%nat then take 3 sorted_by_pnl
    else sorted_by_pnl in
  let worst_performers :=
    if (3 <=? length sorted_by_pnl)%nat
    then drop (length sorted_by_pnl - 3) sorted_by_pnl
    else sorted_by_pnl in
  let '(health, emoji) :=
    if Qcleb (Qc_of_Z 15) total_pnl_percent then ("EXCELLENT", "ðŸŸ¢")
    else if Qcleb (Qc_of_Z 5) total_pnl_percent then ("GOOD", "ðŸŸ¢")
    else if Qcleb (Qc_of_Z (-5)) total_pnl_percent then ("NEUTRAL", "ðŸŸ¡")
    else if Qcleb (Qc_of_Z (-15)) total_pnl_percent then ("CONCERNING", "ðŸŸ ")
    else ("POOR", "ðŸ”´") in
  let entry p := (get_ticker p, default (Q2Qc 0) (get_pnl_percent p)) in
  {| overall_health := health;
     health_emoji := emoji;
     urgent_actions := urgent;
     high_priority_actions := high;
     best_performers := map entry best_performers;
     worst_performers := map entry worst_performers;
     action_required_count :=
       length (default [] (actions_summary !! action_value BOOK_ALL))
       + length (default [] (actions_summary !! action_value STOP_LOSS_HIT))
       + length (default [] (actions_summary !! action_value BOOK_PARTIAL_50)) |}.

(** A [StockData] object as the workflow reads it: [name],
    [price_data.current_price] and [model_dump()]. *)
Record Quote : Type := {
  name : string;
  current_price : Qc;
  model_dump : pyval;
}.

(** The dict that [analyze_portfolio] returns. *)
Record Report : Type := {
  user_id : Z;
  analysis_date : string;
  total_holdings : nat;
  total_invested : Qc;
  total_value : Qc;
  total_pnl : Qc;
  total_pnl_percent : Qc;
  stock_analyses : list StockAnalysis;
  actions_summary : gmap string (list string);
  portfolio_insights : Insights;
}.

Inductive PortfolioResult : Type :=
  | ReportError (error : string)     (* [{"error": ...}] *)
  | ReportOk (report : Report).

(** The collaborators of [PortfolioAnalysisWorkflow].  Every call either
    returns or raises; the two producers return dicts; [days_held] is the
    date arithmetic on [holding.buy_date] (0 without a buy date). *)
Record World : Type := {
  now : string;
  get_user : Z -> result pyval;
  get_portfolio : Z -> result (list Holding);
  get_stock_data : string -> bool -> result (option Quote);
  days_held : Holding -> result Z;
  fundamental_analyze : pyval -> result (gmap string pyval);
  technical_analyze : pyval -> result (gmap string pyval);
  save_analysis : Report -> result unit;
}.

Section Workflow.
Context {fmt : PyFormat} (w : World).

(** [d.get("score") if d else None] *)
Definition score_or_none (analysis : option (gmap string pyval)) : pyval :=
  match analysis with
  | Some d => if truthy (PDict d) then default PNone (d !! "score") else PNone
  | None => PNone
  end.

(** A result of [asyncio.gather(..., return_exceptions=True)] that is an
    exception is replaced by [None]. *)
Definition or_none {A} (r : result A) : option A :=
  match r with
  | Ok a => Some a
  | Raise _ => None
  end.

Definition _analyze_single_holding (holding : Holding) (user : pyval)
    : result StockAnalysis :=
  let ticker := Portfolio.ticker holding in
  stock_data ← get_stock_data w ticker true;
  match stock_data with
  | None => Ok (Failed ticker "Could not fetch data")
  | Some stock_data =>
      let current_price := current_price stock_data in
      let current_value := (Qc_of_Z (quantity holding) * current_price)%Qc in
      let cost_basis := (Qc_of_Z (quantity holding) * avg_price holding)%Qc in
      let pnl := (current_value - cost_basis)%Qc in
      let pnl_percent :=
        if Qcltb (Q2Qc 0) cost_basis
        then (pnl / cost_basis * Qc_of_Z 100)%Qc else Q2Qc 0 in
      days_held ← days_held w holding;
      let input := Flow.bundle (model_dump stock_data) (PStr ticker) in
      let fundamental := or_none (fundamental_analyze w input) in
      let technical := or_none (technical_analyze w input) in
      action_result ← _determine_action holding current_price pnl_percent
                         days_held fundamental technical user;
      Ok (Analysed
            {| a_ticker := ticker;
               a_name := name stock_data;
               a_quantity := quantity holding;
               a_avg_buy_price := avg_price holding;
               a_current_price := current_price;
               a_current_value := current_value;
               a_cost_basis := cost_basis;
               a_pnl := pnl;
               a_pnl_percent := py_round2 pnl_percent;
               a_days_held := days_held;
               a_action := action action_result;
               a_action_reason := reason action_result;
               a_priority := priority action_result;
               a_fundamental_score := score_or_none fundamental;
               a_technical_score := score_or_none technical;
               a_notes := notes action_result |})
  end.

(** One round of the loop over the holdings: the analyses so far, the
    total value and the total profit. *)
Definition analyze_step (user : pyval)
    (acc : list StockAnalysis * Qc * Qc) (holding : Holding)
    : list StockAnalysis * Qc * Qc :=
  let '(stock_analyses, total_value, total_pnl) := acc in
  match _analyze_single_holding holding user with
  | Ok analysis =>
      let total_value :=
        if truthy_float (get_current_value analysis)
        then (total_value + default (Q2Qc 0) (get_current_value analysis))%Qc
        else total_value in
      let total_pnl :=
        if truthy_float (get_pnl analysis)
        then (total_pnl + default (Q2Qc 0) (get_pnl analysis))%Qc
        else total_pnl in
      ((stock_analyses ++ [analysis])%list, total_value, total_pnl)
  | Raise e =>
      ((stock_analyses ++ [Failed (Portfolio.ticker holding) (str_exn e)])%list,
       total_value, total_pnl)
  end.

(** [analyze_portfolio(telegram_id)] without a progress callback. *)
Definition analyze_portfolio (telegram_id : Z) : result PortfolioResult :=
  user ← get_user w telegram_id;
  if negb (truthy user) then Ok (ReportError "User not found")
  else
    holdings ← get_portfolio w telegram_id;
    if (length holdings =? 0)%nat then Ok (ReportError "Portfolio is empty")
    else
      let '(stock_analyses, total_value, total_pnl) :=
        foldl (analyze_step user) ([], Q2Qc 0, Q2Qc 0) holdings in
      let total_invested :=
        foldl (fun s h => (s + Qc_of_Z (quantity h) * avg_price h)%Qc)
          (Q2Qc 0) holdings in
      let total_pnl_percent :=
        if Qcltb (Q2Qc 0) total_invested
        then (total_pnl / total_invested * Qc_of_Z 100)%Qc else Q2Qc 0 in
      let actions_summary := _categorize_actions stock_analyses in
      let portfolio_insights :=
        _generate_portfolio_insights stock_analyses total_value
          total_pnl_percent actions_summary in
      let result :=
        {| user_id := telegram_id;
           analysis_date := now w;
           total_holdings := length holdings;
           total_invested := total_invested;
           total_value := total_value;
           total_pnl := total_pnl;
           total_pnl_percent := py_round2 total_pnl_percent;
           stock_analyses := stock_analyses;
           actions_summary := actions_summary;
           portfolio_insights := portfolio_insights |} in
      match save_analysis w result with
      | Ok _ | Raise _ => Ok (ReportOk result)
      end.

End Workflow.

End Workflow.

(* ===================================================================== *)
(** * telegram_bot/bot.py: the handlers that start an analysis            *)
(* ===================================================================== *)

Module Bot.
Import Routing Router Text Flow.

(** The keyboard sent with a message ([reply_markup]). *)
Inductive Markup : Type :=
  | no_markup
  | get_error_keyboard
  | get_help_keyboard
  | result_keyboard (name : string).

(** What a handler does to the outside, in the order in which it does it:
    it answers a button press, sends a message, edits the message it has
    sent, hands the update over to the portfolio handlers, or runs the
    analysis graph; [raised e] ends the list of a handler that raises [e].
    The collectors, the producers and the text generation service of the
    graph are reached through [graph_run] only.  Failures of the Telegram
    calls are outside the model. *)
Inductive Effect : Type :=
  | answer_callback
  | reply_text (text : string) (reply_markup : Markup)
  | edit_text (text : string) (reply_markup : Markup)
  | portfolio_callback (data : string)
  | graph_run (intent : Intent) (user_id : option string)
  | raised (e : exn).

(** An entry of [self.conversation_contexts]: the two keys that the
    handlers read. *)
Record Context : Type := {
  enabled : bool;
  last_ticker : option string;
}.

(** The bot: the collaborators of its graph, its classifier ([classify],
    of which [Classifier] models the ASCII case), the conversation
    contexts by user id, the help text, the text that Telegram reports for
    a message that was sent, and the formatting of a final state
    ([_format_result], which returns on every state). *)
Record Env : Type := {
  world : World;
  classify : string -> Intent;
  conversation_contexts : gmap Z Context;
  get_help_text : string;
  message_text : string -> string;
  _format_result : Intent -> GraphState -> string * Markup;
}.

(** [ResponseFormatter.format_error] *)
Definition format_error (message : string) : string :=
  "❌ <b>Error</b>" +:+ newline +:+ newline +:+ message +:+ newline +:+ newline
  +:+ "Try <code>/help</code> for available commands.".

(** [f"{error_msg}"] for the second component of [validate_intent]. *)
Definition str_option (o : option string) : string := default "None" o.

Section Handlers.
Context {fmt : PyFormat} (env : Env).

(** "Check context for missing ticker": without tickers, the last ticker of
    an enabled conversation context of the user is taken. *)
Definition tickers_or_context (user_id : Z) (tickers : list string)
    : list string :=
  match tickers with
  | [] =>
      match conversation_contexts env !! user_id with
      | Some ctx =>
          match last_ticker ctx with
          | Some t => if enabled ctx && truthy (PStr t) then [t] else tickers
          | None => tickers
          end
      | None => tickers
      end
  | _ => tickers
  end.

(** [_run_analysis_with_message]: the graph runs, its progress lines are
    appended to the text of [message] one edit at a time when the route
    shows progress, and the formatted result replaces the message.  The
    update of the conversation context after the run sends nothing. *)
Definition _run_analysis_with_message (message : string) (intent : Intent)
    (user_id : Z) : list Effect :=
  let uid := Some (pretty user_id) in
  let result := run (world env) intent uid in
  let callbacks :=
    if should_show_progress intent
    then run_callbacks (world env) intent uid else [] in
  let '(response, keyboard) := _format_result env intent result in
  (graph_run intent uid
   :: map (fun msg => edit_text (message +:+ newline +:+ msg) no_markup)
        callbacks
   ++ [edit_text response keyboard])%list.

(** [_run_analysis]: the progress message is sent and the analysis is run
    on the message that was sent; building the progress message may raise,
    before anything is sent. *)
Definition _run_analysis (intent : Intent) (user_id : Z) : list Effect :=
  match get_progress_message intent with
  | Ok progress_msg =>
      reply_text progress_msg no_markup
      :: _run_analysis_with_message (message_text env progress_msg)
           intent user_id
  | Raise e => [raised e]
  end.

(** The intent that [_handle_analysis] builds from the arguments of a
    command. *)
Definition command_intent (user_id : Z) (intent_type : IntentType)
    (args : list string) : Intent :=
  let tickers :=
    map upper (List.filter (fun arg => negb (String.eqb arg EmptyString)) args) in
  let tickers := tickers_or_context user_id tickers in
  {| type := intent_type; tickers := tickers;
     raw_query := String.concat " " args;
     confidence := Q2Qc 1.0; aspect := None |}.

(** [_handle_analysis] *)
Definition _handle_analysis (user_id : Z) (intent_type : IntentType)
    (args : list string) : list Effect :=
  let intent := command_intent user_id intent_type args in
  let '(is_valid, error_msg) := validate_intent intent in
  if negb is_valid then
    [reply_text (format_error (str_option error_msg)) get_error_keyboard]
  else _run_analysis intent user_id.

(** The commands [/p], [/a], [/t], [/f], [/n], [/c] and [/dd]. *)
Definition cmd_price (user_id : Z) := _handle_analysis user_id PRICE_CHECK.
Definition cmd_analyze (user_id : Z) := _handle_analysis user_id FULL_ANALYSIS.
Definition cmd_technical (user_id : Z) :=
  _handle_analysis user_id TECHNICAL_ANALYSIS.
Definition cmd_fundamental (user_id : Z) :=
  _handle_analysis user_id FUNDAMENTAL_ANALYSIS.
Definition cmd_news (user_id : Z) := _handle_analysis user_id SENTIMENT_ANALYSIS.
Definition cmd_compare (user_id : Z) := _handle_analysis user_id COMPARISON.
Definition cmd_deepdive (user_id : Z) := _handle_analysis user_id DEEP_DIVE.

(** [cmd_help] *)
Definition cmd_help : list Effect :=
  [reply_text (get_help_text env) get_help_keyboard].

(** The intent that [handle_message] obtains from a text. *)
Definition message_intent (user_id : Z) (text : string) : Intent :=
  let intent := classify env text in
  {| type := type intent;
     tickers := tickers_or_context user_id (tickers intent);
     raw_query := raw_query intent;
     confidence := confidence intent; aspect := aspect intent |}.

(** [handle_message] *)
Definition handle_message (user_id : Z) (text : string) : list Effect :=
  let intent := message_intent user_id text in
  let '(is_valid, error_msg) := validate_intent intent in
  if negb is_valid then
    [reply_text (format_error (str_option error_msg)) get_error_keyboard]
  else if bool_decide (type intent = HELP) then cmd_help
  else _run_analysis intent user_id.

(** [_handle_example] *)
Definition _handle_example (data : string) : list Effect :=
  let examples :=
    [ ("example_price", "/p RELIANCE");
      ("example_analysis", "/a TCS");
      ("example_compare", "/c INFY TCS") ] in
  match List.find (fun item => String.eqb (fst item) data) examples with
  | Some (_, example) =>
      if truthy (PStr example)
      then [reply_text ("Try typing: `" +:+ example +:+ "`") no_markup]
      else []
  | None => []
  end.

(** [action_map] of [handle_callback] *)
Definition action_map (action : string) : option IntentType :=
  if String.eqb action "price" then Some PRICE_CHECK
  else if String.eqb action "analyze" then Some FULL_ANALYSIS
  else if String.eqb action "technical" then Some TECHNICAL_ANALYSIS
  else if String.eqb action "fundamental" then Some FUNDAMENTAL_ANALYSIS
  else if String.eqb action "news" then Some SENTIMENT_ANALYSIS
  else if String.eqb action "deepdive" then Some DEEP_DIVE
  else None.

(** The intent that [handle_callback] builds from button data of the form
    [action_ticker] or [compare_ticker_ticker2]; [None] when the handler
    returns without one. *)
Definition callback_intent (data : string) : option Intent :=
  let parts := split_on "_" data in
  match parts with
  | action :: part1 :: rest =>
      let ticker := upper part1 in
      match rest with
      | part2 :: _ =>
          if String.eqb action "compare" then
            let ticker2 := upper part2 in
            Some {| type := COMPARISON; tickers := [ticker; ticker2];
                    raw_query := "compare " +:+ ticker +:+ " " +:+ ticker2;
                    confidence := Q2Qc 1.0; aspect := None |}
          else
            intent_type ← action_map action;
            Some {| type := intent_type; tickers := [ticker];
                    raw_query := action +:+ " " +:+ ticker;
                    confidence := Q2Qc 1.0; aspect := None |}
      | [] =>
          intent_type ← action_map action;
          Some {| type := intent_type; tickers := [ticker];
                  raw_query := action +:+ " " +:+ ticker;
                  confidence := Q2Qc 1.0; aspect := None |}
      end
  | _ => None
  end.

(** [handle_callback]: the press of an inline button.  It does not call
    [validate_intent]. *)
Definition handle_callback (user_id : Z) (data : string) : list Effect :=
  answer_callback ::
  (if String.eqb data "help" then [reply_text (get_help_text env) no_markup]
   else if startswith data "example_" then _handle_example data
   else if startswith data "portfolio_" then [portfolio_callback data]
   else
     match callback_intent data with
     | Some intent =>
         match get_progress_message intent with
         | Ok progress_msg =>
             reply_text progress_msg no_markup
             :: _run_analysis_with_message (message_text env progress_msg)
                  intent user_id
         | Raise e => [raised e]
         end
     | None => []
     end).

End Handlers.

End Bot.
(* ===================================================================== *)
(** * Vocabulary of the statements                                        *)
(* ===================================================================== *)

(** Notions that the statements below use and that are not functions of the
    program: typed views of dicts, named sub-expressions of the code, and
    concrete inputs. *)

Module SynthesizerSpec.
Import Synthesizer.

Local Open Scope Qc_scope.

(** A quantity that is a whole number of hundredths. *)
Definition is_hundredths (x : Qc) : Prop :=
  exists k : Z, x = Qc_of_Z k / Qc_of_Z 100.

Definition weights_sum (w : Weights) : Qc :=
  w_fundamental w + w_technical w + w_market_intel w + w_risk w.

(** The weighted sum of four integer scores, as computed on lines 125-130
    from the already inverted risk component. *)
Definition weighted_sum (w : Weights) (fund tech intel inv_risk : Z) : Qc :=
  Qc_of_Z fund * w_fundamental w + Qc_of_Z tech * w_technical w +
  Qc_of_Z intel * w_market_intel w + Qc_of_Z inv_risk * w_risk w.

(** Lines 110-116: the weights chosen for a time horizon. *)
Definition select_weights (horizon : string) : Weights :=
  if contains "long" (lower horizon) then weights_long
  else if contains "short" (lower horizon) then weights_short
  else weights_swing.

(** The entry under [k] is absent or an integer; [z] is what
    [d.get(k, dflt)] returns. *)
Definition int_field (d : gmap string pyval) (k : string) (dflt z : Z) : Prop :=
  default (PInt dflt) (d !! k) = PInt z.

Definition str_field (d : gmap string pyval) (k dflt s : string) : Prop :=
  default (PStr dflt) (d !! k) = PStr s.

(** [_normalize_signal] on a string; it never raises there. *)
Definition normalize (s : string) : string :=
  match _normalize_signal (PStr s) with
  | Ok x => x
  | Raise _ => "NEUTRAL"
  end.

(** Both directions occur among the normalized signals. *)
Definition mixed (signals : list string) : bool :=
  bool_decide ("BULLISH" ∈ signals) && bool_decide ("BEARISH" ∈ signals).

(** Lines 139-146: the adjustment computed from the signals. *)
Definition adjustment (signals : list string) : Z :=
  let conflicts := _detect_conflicts signals in
  if (length conflicts =? 0)%nat then 10%Z
  else if (2 <=? length conflicts)%nat then (-20)%Z
  else 0%Z.

(** Each of the entries read by [_calculate_weighted_scores] is absent
    ([None]) or present with the type the producers' schemas give it. *)
Record well_typed (f t m r u : gmap string pyval)
    (sf st sm sr : option Z) (rating signal sentiment horizon : option string)
    : Prop := {
  wt_fund_score : f !! "score" = PInt <$> sf;
  wt_tech_score : t !! "score" = PInt <$> st;
  wt_intel_score : m !! "score" = PInt <$> sm;
  wt_risk_score : r !! "risk_score" = PInt <$> sr;
  wt_rating : f !! "rating" = PStr <$> rating;
  wt_signal : t !! "signal" = PStr <$> signal;
  wt_sentiment : m !! "overall_sentiment" = PStr <$> sentiment;
  wt_horizon : u !! "time_horizon" = PStr <$> horizon;
}.

(** The normalized signals of a well-typed input. *)
Definition signals_of (rating signal sentiment : option string) : list string :=
  [normalize (default "HOLD" rating);
   normalize (default "NEUTRAL" signal);
   normalize (default "NEUTRAL" sentiment)].

(** Concrete inputs. *)
Definition sample_fundamental : gmap string pyval :=
  <["score" := PInt 80]> (<["rating" := PStr "BUY"]> ∅).
Definition sample_technical : gmap string pyval :=
  <["score" := PInt 40]> (<["signal" := PStr "SELL"]> ∅).
Definition sample_market_intel : gmap string pyval :=
  <["score" := PInt 60]> (<["overall_sentiment" := PStr "NEUTRAL"]> ∅).
Definition sample_risk : gmap string pyval := <["risk_score" := PInt 30]> ∅.
Definition sample_context : gmap string pyval :=
  <["time_horizon" := PStr "Long-term"]> ∅.

Definition top_fundamental : gmap string pyval :=
  <["score" := PInt 100]> (<["rating" := PStr "BUY"]> ∅).
Definition top_technical : gmap string pyval :=
  <["score" := PInt 100]> (<["signal" := PStr "BUY"]> ∅).
Definition top_market_intel : gmap string pyval :=
  <["score" := PInt 100]> (<["overall_sentiment" := PStr "POSITIVE"]> ∅).
Definition top_risk : gmap string pyval := <["risk_score" := PInt 0]> ∅.

(** The scores that [_calculate_weighted_scores] returns on five empty
    dicts. *)
Definition neutral_scores : WeightedScores :=
  {| fundamental_score := PInt 50;
     technical_score := PInt 50;
     market_intel_score := PInt 50;
     risk_score := PInt 50;
     weighted_average := Qc_of_Z 50;
     confidence_adjustment := 10;
     final_score := Qc_of_Z 60;
     weights_used := weights_swing;
     conflicts := [] |}.

Definition neutral_inputs (stock_data : pyval) : PromptInputs :=
  {| p_stock_data := stock_data;
     p_fundamental := PDict ∅;
     p_technical := PDict ∅;
     p_market_intel := PDict ∅;
     p_risk := PDict ∅;
     p_user_context := PDict ∅;
     p_scores := neutral_scores |}.

End SynthesizerSpec.

Module RoutingSpec.
Import Routing.

(** Exactly two tickers, different from each other. *)
Definition two_distinct (l : list string) : Prop :=
  exists a b, l = [a; b] /\ a <> b.

Definition intent_of (t : IntentType) (l : list string) : Intent :=
  {| type := t; tickers := l; raw_query := EmptyString;
     confidence := Q2Qc 1; aspect := None |}.

End RoutingSpec.

Module PortfolioSpec.
Import Portfolio.

Local Open Scope Qc_scope.

(** The first rule of [_determine_action] applies: a stop loss is set (and
    is not zero) and the price is at most 2% above it. *)
Definition stop_rule_fires (h : Holding) (current_price : Qc) : Prop :=
  exists sl, stop_loss h = Some sl /\ sl <> Q2Qc 0 /\
             (current_price - sl) / sl * Qc_of_Z 100 ≤ Qc_of_Z 2.

(** A fixed-point rendering of numbers, for the concrete instances. *)
Definition render_fixed (digits : nat) (x : Qc) : string :=
  let scale := (10 ^ Z.of_nat digits)%Z in
  let neg := bool_decide (x < Q2Qc 0) in
  let n := round_half_even ((if neg then - x else x) * Qc_of_Z scale) in
  (if neg then "-" else EmptyString) +:+ pretty (n / scale)%Z +:+ "." +:+
  String.substring 1 digits (pretty (scale + n mod scale)%Z).

Definition sample_format : PyFormat :=
  {| str_float := render_fixed 1;
     format_f := render_fixed;
     repr_dict := fun _ => "{...}" |}.

Definition holding_near_stop : Holding :=
  {| ticker := "TCS.NS"; quantity := 1; avg_price := Qc_of_Z 100;
     target_price := None; stop_loss := Some (Qc_of_Z 100) |}.

Definition holding_in_loss : Holding :=
  {| ticker := "TCS.NS"; quantity := 1; avg_price := Qc_of_Z 100;
     target_price := None; stop_loss := None |}.

End PortfolioSpec.

Module FlowSpec.
Import Routing Flow.

(** The slot written for each of the three fan-out producers, in the order
    fundamental, technical, market-intel, and the name under which each is
    reported. *)
Definition parallel_slots : list string :=
  ["fundamental_analysis"; "technical_analysis"; "market_intel_analysis"].

Definition producer_names : list string :=
  ["Fundamental"; "Technical"; "Market Intel"].

(** The value of a slot, with an empty dict in the place of a value that
    counts as false. *)
Definition slot_or_empty (st : GraphState) (k : string) : pyval :=
  match slots st !! k with
  | Some v => if truthy v then v else PDict ∅
  | None => PDict ∅
  end.

(** What the three producers of the world answer in state [st], in the
    order fundamental, technical, market-intel: the first two are asked
    about the stock data and the ticker, the third about the stock data,
    the news, the market data and the ticker. *)
Definition fan_out_results (w : World) (st : GraphState) : list (result pyval) :=
  let stock_data := default PNone (slots st !! "stock_data") in
  let ticker := PStr (ticker st) in
  [ fundamental_analyze w
      (PDict (<["stock_data" := stock_data]> (<["ticker" := ticker]> ∅)));
    technical_analyze w
      (PDict (<["stock_data" := stock_data]> (<["ticker" := ticker]> ∅)));
    market_intel_analyze w
      (PDict (<["stock_data" := stock_data]> (
              <["news_data" := slot_or_empty st "news_data"]> (
              <["market_data" := slot_or_empty st "market_data"]> (
              <["ticker" := ticker]> ∅))))) ].

(** A slot holds a value other than [None]. *)
Definition populated (st : GraphState) (k : string) : Prop :=
  exists v, slots st !! k = Some v /\ v <> PNone.

(** The error entry left by [_run_comparison_synthesis]. *)
Definition comparison_error : string :=
  "Comparison error: ComparisonSynthesizerAgent.compare() got an unexpected keyword argument 'ticker1'".

(** A computation leaves the [synthesized_recommendation] slot as it is. *)
Definition keeps_recommendation {A} (m : M A) : Prop :=
  forall st, slots (snd (m st)) !! "synthesized_recommendation"
             = slots st !! "synthesized_recommendation".

(** The price collector has data for ticker [t] over [days] days, with a
    dump that is not empty. *)
Definition stock_fetched (w : World) (t : string) (days : Z) (sd : StockData)
    : Prop :=
  get_stock_data w t true days = Ok (Some sd) /\
  truthy (model_dump sd) = true.

(** The data come with a price history. *)
Definition has_history (sd : StockData) : Prop := (0 < hist_count sd)%nat.

(** The news and the market data for ticker [t]. *)
Definition context_fetched (w : World) (t : string) (news market : pyval)
    : Prop :=
  get_news w t = Ok (Some news) /\ get_market_data w = Ok (Some market) /\
  news <> PNone /\ market <> PNone.

(** The question put to the market-intel producer. *)
Definition intel_question (stock news market : pyval) (t : string) : pyval :=
  PDict (<["stock_data" := stock]> (
         <["news_data" := if truthy news then news else PDict ∅]> (
         <["market_data" := if truthy market then market else PDict ∅]> (
         <["ticker" := PStr t]> ∅)))).

(** The question put to the fundamental and to the technical producer. *)
Definition stock_question (stock : pyval) (t : string) : pyval :=
  PDict (<["stock_data" := stock]> (<["ticker" := PStr t]> ∅)).

(** The question put to the risk producer. *)
Definition risk_question (stock fundamental technical : pyval) (t : string)
    : pyval :=
  PDict (<["stock_data" := stock]> (
         <["fundamental_analysis" := fundamental]> (
         <["technical_analysis" := technical]> (
         <["ticker" := PStr t]> ∅)))).

(** Every call that a run of type [ty] for ticker [t] makes is answered,
    with a result that is not empty; for a full analysis the stock data
    are a dict whose price data are a dict, so that the synthesizer can
    read them, and the prompt is rendered.  Only the calls of the run are
    constrained: the world may fail on any other argument. *)
Definition calls_succeed (w : World) (ty : IntentType) (t : string) : Prop :=
  match ty with
  | PRICE_CHECK =>
      exists cached, cache_get_price w t = Ok cached /\
        (truthy cached = true \/
         exists price, get_quick_price w t = Ok price /\ truthy price = true)
  | TECHNICAL_ANALYSIS =>
      exists sd d, stock_fetched w t 365 sd /\
        technical_analyze w (stock_question (model_dump sd) t) = Ok (PDict d) /\
        truthy (PDict d) = true
  | FUNDAMENTAL_ANALYSIS =>
      exists sd d, stock_fetched w t 365 sd /\
        fundamental_analyze w (stock_question (model_dump sd) t) = Ok (PDict d) /\
        truthy (PDict d) = true
  | SENTIMENT_ANALYSIS =>
      exists sd0 sd news market d,
        get_stock_data w t true 180 = Ok (Some sd0) /\ has_history sd0 /\
        context_fetched w t news market /\
        stock_fetched w t 365 sd /\
        market_intel_analyze w (intel_question (model_dump sd) news market t)
          = Ok (PDict d) /\
        truthy (PDict d) = true
  | COMPARISON => False
  | FULL_ANALYSIS | DEEP_DIVE | HELP | UNKNOWN =>
      exists sd news market f tc mi r prompt,
        stock_fetched w t 180 sd /\ has_history sd /\
        context_fetched w t news market /\
        fundamental_analyze w (stock_question (model_dump sd) t) = Ok (PDict f) /\
        technical_analyze w (stock_question (model_dump sd) t) = Ok (PDict tc) /\
        market_intel_analyze w (intel_question (model_dump sd) news market t)
          = Ok (PDict mi) /\
        risk_analyze w (risk_question (model_dump sd) (PDict f) (PDict tc) t)
          = Ok (PDict r) /\
        (exists stock price,
           model_dump sd = PDict stock /\
           default (PDict ∅) (stock !! "price_data") = PDict price) /\
        synthesizer_render w (SynthesizerSpec.neutral_inputs (model_dump sd))
          = Ok prompt
  end.

(** The slots each intent type is expected to fill. *)
Definition expected_slots (t : IntentType) : list string :=
  match t with
  | PRICE_CHECK => ["stock_data"]
  | TECHNICAL_ANALYSIS => ["stock_data"; "technical_analysis"]
  | FUNDAMENTAL_ANALYSIS => ["stock_data"; "fundamental_analysis"]
  | SENTIMENT_ANALYSIS =>
      ["stock_data"; "news_data"; "market_data"; "market_intel_analysis"]
  | FULL_ANALYSIS | DEEP_DIVE | HELP | UNKNOWN =>
      ["stock_data"; "news_data"; "market_data"; "fundamental_analysis";
       "technical_analysis"; "market_intel_analysis"; "risk_analysis";
       "synthesized_recommendation"]
  | COMPARISON =>
      ["stock_data"; "stock_data_2"; "fundamental_analysis";
       "technical_analysis"; "fundamental_analysis_2"; "technical_analysis_2";
       "synthesized_recommendation"]
  end.

(** ** A concrete world *)

Definition sample_price : pyval := PDict (<["current_price" := PInt 3500]> ∅).

Definition sample_stock (t : string) : StockData :=
  {| model_dump := PDict (<["ticker" := PStr t]> (<["price_data" := sample_price]> ∅));
     hist_count := 120 |}.

(** A world in which every collector and every producer succeeds. *)
Definition all_ok_world : World :=
  {| now := "2024-01-01T00:00:00+00:00";
     cache_get_price := fun _ => Ok PNone;
     get_quick_price := fun _ => Ok sample_price;
     get_stock_data := fun t _ _ => Ok (Some (sample_stock t));
     get_news := fun _ => Ok (Some (PDict (<["total_articles" := PInt 3]> ∅)));
     get_market_data := Ok (Some (PDict (<["market_trend" := PStr "bullish"]> ∅)));
     fundamental_analyze := fun _ =>
       Ok (PDict (<["score" := PInt 72]> (<["rating" := PStr "BUY"]> ∅)));
     technical_analyze := fun _ =>
       Ok (PDict (<["score" := PInt 64]> (<["signal" := PStr "BULLISH"]> ∅)));
     market_intel_analyze := fun _ =>
       Ok (PDict (<["score" := PInt 58]> (<["overall_sentiment" := PStr "POSITIVE"]> ∅)));
     risk_analyze := fun _ => Ok (PDict (<["risk_score" := PInt 35]> ∅));
     synthesizer_render := fun _ => Ok "Synthesize a final recommendation";
     synthesizer_run_llm_analysis := fun _ => <["recommendation" := PStr "BUY"]> ∅;
     comparison_generate_simple := fun _ _ => Ok (PStr "TCS is preferred") |}.

(** The same world with a technical producer that raises. *)
Definition technical_down_world : World :=
  {| now := now all_ok_world;
     cache_get_price := cache_get_price all_ok_world;
     get_quick_price := get_quick_price all_ok_world;
     get_stock_data := get_stock_data all_ok_world;
     get_news := get_news all_ok_world;
     get_market_data := get_market_data all_ok_world;
     fundamental_analyze := fundamental_analyze all_ok_world;
     technical_analyze := fun _ => Raise (Exn OtherError "timed out");
     market_intel_analyze := market_intel_analyze all_ok_world;
     risk_analyze := risk_analyze all_ok_world;
     synthesizer_render := synthesizer_render all_ok_world;
     synthesizer_run_llm_analysis := synthesizer_run_llm_analysis all_ok_world;
     comparison_generate_simple := comparison_generate_simple all_ok_world |}.

(** The same world with a price collector that returns no history. *)
Definition no_history_world : World :=
  {| now := now all_ok_world;
     cache_get_price := cache_get_price all_ok_world;
     get_quick_price := get_quick_price all_ok_world;
     get_stock_data := fun t _ _ =>
       Ok (Some {| model_dump := model_dump (sample_stock t); hist_count := 0 |});
     get_news := get_news all_ok_world;
     get_market_data := get_market_data all_ok_world;
     fundamental_analyze := fundamental_analyze all_ok_world;
     technical_analyze := technical_analyze all_ok_world;
     market_intel_analyze := market_intel_analyze all_ok_world;
     risk_analyze := risk_analyze all_ok_world;
     synthesizer_render := synthesizer_render all_ok_world;
     synthesizer_run_llm_analysis := synthesizer_run_llm_analysis all_ok_world;
     comparison_generate_simple := comparison_generate_simple all_ok_world |}.

(** The state of a full analysis of TCS.NS after data collection. *)
Definition collected_state : GraphState :=
  snd (_collect_all_data all_ok_world
         (initial_state all_ok_world
            (RoutingSpec.intent_of FULL_ANALYSIS ["TCS.NS"]) None)).

End FlowSpec.

Module StageLogic.
Import Routing Flow.

(** [m] relates every state to the state it leaves. *)
Definition preserves {A} (R : relation GraphState) (m : M A) : Prop :=
  forall st, R st (snd (m st)).

(** [m] returns normally from every state. *)
Definition returns (m : M unit) : Prop :=
  forall st, fst (m st) = Ok tt.

(** The later state has the error list and the progress log of the earlier
    one as prefixes, and the same request fields. *)
Definition extends (st st' : GraphState) : Prop :=
  errors st `prefix_of` errors st' /\
  progress st `prefix_of` progress st' /\
  ticker st' = ticker st /\
  ticker_2 st' = ticker_2 st /\
  intent st' = intent st /\
  user_id st' = user_id st /\
  start_time st' = start_time st /\
  execution_path st' = execution_path st.

(** The two states agree on every slot whose key is not in [keys]. *)
Definition same_outside (keys : list string) (st st' : GraphState) : Prop :=
  forall k, k ∉ keys -> slots st' !! k = slots st !! k.

#[global] Instance extends_preorder : PreOrder extends.
Proof.
  split.
  - intros st. by repeat split.
  - intros x y z (E1 & P1 & T1 & U1 & I1 & V1 & S1 & X1)
      (E2 & P2 & T2 & U2 & I2 & V2 & S2 & X2).
    repeat split; try congruence; by etrans.
Qed.

#[global] Instance same_outside_preorder (keys : list string) :
  PreOrder (same_outside keys).
Proof.
  split.
  - by intros st k Hk.
  - intros x y z Hxy Hyz k Hk. by rewrite Hyz, Hxy.
Qed.

(** The slots a run for an intent type may write. *)
Definition writable (t : IntentType) : list string :=
  match t with
  | PRICE_CHECK => ["stock_data"]
  | TECHNICAL_ANALYSIS => ["stock_data"; "technical_analysis"]
  | FUNDAMENTAL_ANALYSIS => ["stock_data"; "fundamental_analysis"]
  | SENTIMENT_ANALYSIS =>
      ["stock_data"; "news_data"; "market_data"; "market_intel_analysis"]
  | COMPARISON =>
      ["stock_data"; "stock_data_2"; "fundamental_analysis";
       "technical_analysis"; "fundamental_analysis_2"; "technical_analysis_2"]
  | FULL_ANALYSIS | DEEP_DIVE | HELP | UNKNOWN =>
      ["stock_data"; "news_data"; "market_data"; "fundamental_analysis";
       "technical_analysis"; "market_intel_analysis"; "risk_analysis";
       "synthesized_recommendation"]
  end.

(** The slot the single-aspect stage writes depends on the intent. *)
Definition single_slot (t : IntentType) : list string :=
  match t with
  | TECHNICAL_ANALYSIS => ["technical_analysis"]
  | FUNDAMENTAL_ANALYSIS => ["fundamental_analysis"]
  | SENTIMENT_ANALYSIS => ["market_intel_analysis"]
  | _ => []
  end.

(** The state with other [intent] and [execution_path] fields. *)
Definition retag (i : IntentType) (p : string) (st : GraphState) : GraphState :=
  {| ticker := ticker st; ticker_2 := ticker_2 st; intent := i;
     user_id := user_id st; slots := slots st; errors := errors st;
     progress := progress st; start_time := start_time st;
     execution_path := p |}.

(** Running [m] and changing the two fields can be done in either order. *)
Definition ignores_intent {A} (m : M A) : Prop :=
  forall i p st, m (retag i p st) = (fst (m st), retag i p (snd (m st))).

(** The slot written for each of the four producers of the comparison
    fan-out, in the order of its task list. *)
Definition comparison_slots : list string :=
  ["fundamental_analysis"; "technical_analysis";
   "fundamental_analysis_2"; "technical_analysis_2"].

(** The four results that the comparison fan-out gathers in state [st]. *)
Definition comparison_results (w : World) (st : GraphState)
    : list (result pyval) :=
  let stock_data_1 := default PNone (slots st !! "stock_data") in
  let stock_data_2 := default PNone (slots st !! "stock_data_2") in
  [ fundamental_analyze w (bundle stock_data_1 (PStr (ticker st)));
    technical_analyze w (bundle stock_data_1 (PStr (ticker st)));
    fundamental_analyze w (bundle stock_data_2 (ticker_2_value st));
    technical_analyze w (bundle stock_data_2 (ticker_2_value st)) ].

(** The intent types whose runs go through the full-analysis chain. *)
Definition runs_full_chain (t : IntentType) : Prop :=
  t = FULL_ANALYSIS \/ t = DEEP_DIVE \/ t = HELP \/ t = UNKNOWN.

(** The producer, the slot and the label of a TECHNICAL_ANALYSIS or
    FUNDAMENTAL_ANALYSIS request. *)
Definition aspect_agent (w : World) (t : IntentType) : pyval -> result pyval :=
  match t with
  | FUNDAMENTAL_ANALYSIS => fundamental_analyze w
  | _ => technical_analyze w
  end.

Definition aspect_slot (t : IntentType) : string :=
  match t with
  | FUNDAMENTAL_ANALYSIS => "fundamental_analysis"
  | _ => "technical_analysis"
  end.

Definition aspect_label (t : IntentType) : string :=
  match t with
  | FUNDAMENTAL_ANALYSIS => "Fundamental"
  | _ => "Technical"
  end.

(** A world whose price collector knows no ticker. *)
Definition no_stock_world : World :=
  {| now := now FlowSpec.all_ok_world;
     cache_get_price := cache_get_price FlowSpec.all_ok_world;
     get_quick_price := get_quick_price FlowSpec.all_ok_world;
     get_stock_data := fun _ _ _ => Ok None;
     get_news := get_news FlowSpec.all_ok_world;
     get_market_data := get_market_data FlowSpec.all_ok_world;
     fundamental_analyze := fundamental_analyze FlowSpec.all_ok_world;
     technical_analyze := technical_analyze FlowSpec.all_ok_world;
     market_intel_analyze := market_intel_analyze FlowSpec.all_ok_world;
     risk_analyze := risk_analyze FlowSpec.all_ok_world;
     synthesizer_render := synthesizer_render FlowSpec.all_ok_world;
     synthesizer_run_llm_analysis :=
       synthesizer_run_llm_analysis FlowSpec.all_ok_world;
     comparison_generate_simple :=
       comparison_generate_simple FlowSpec.all_ok_world |}.

(** The state of a comparison of TCS.NS and INFY.NS after data
    collection. *)
Definition compared_state : GraphState :=
  snd (_collect_comparison_data FlowSpec.all_ok_world
         (initial_state FlowSpec.all_ok_world
            (RoutingSpec.intent_of COMPARISON ["TCS.NS"; "INFY.NS"]) None)).

End StageLogic.

Module DecisionSpec.
Import Portfolio PortfolioSpec.

Local Open Scope Qc_scope.

(** The third rule of [_determine_action] applies: a target price is set
    (and is not zero) and the price has reached it. *)
Definition target_reached (h : Holding) (current_price : Qc) : Prop :=
  exists tp, target_price h = Some tp /\ tp <> Q2Qc 0 /\ tp ≤ current_price.

(** The stop-loss test of [_determine_action]: the stop loss that the
    price is within 2% of, if any. *)
Definition stop_hit (h : Holding) (current_price : Qc) : option Qc :=
  match stop_loss h with
  | Some sl =>
      if truthy_float (Some sl) then
        if Qcleb ((current_price - sl) / sl * Qc_of_Z 100) (Qc_of_Z 2)
        then Some sl else None
      else None
  | None => None
  end.

(** The target test of [_determine_action]. *)
Definition target_hit (h : Holding) (current_price : Qc) : bool :=
  match target_price h with
  | Some tp => truthy_float (Some tp) && Qcleb tp current_price
  | None => false
  end.

Definition holding_with_target : Holding :=
  {| ticker := "INFY.NS"; quantity := 10; avg_price := Qc_of_Z 100;
     target_price := Some (Qc_of_Z 120); stop_loss := Some (Qc_of_Z 80) |}.

End DecisionSpec.

Module ScoreSpec.
Import Synthesizer SynthesizerSpec.

(** A score that is absent, or present between 0 and 100. *)
Definition in_range (score : option Z) : Prop :=
  (0 <= default 50 score <= 100)%Z.

End ScoreSpec.

Module ClassifierSpec.
Import Routing Text Classifier.

(** What [_extract_tickers] makes of a word of the query. *)
Definition cleaned (part : string) : string := strip_chars ",.!?" (upper part).

(** A search that finds nothing, and a validator that rejects everything. *)
Definition no_match : IntentType -> string -> bool := fun _ _ => false.
Definition reject_all : string -> bool * option string * option string :=
  fun _ => (false, None, Some "Invalid ticker format").
Definition extract_none : string -> list string := fun _ => [].

End ClassifierSpec.

Module WorkflowSpec.
Import Portfolio PortfolioSpec Workflow.

Local Open Scope Qc_scope.

(** The entry that [analyze_portfolio] records for one holding. *)
Definition entry_of {fmt : PyFormat} (w : World) (user : pyval)
    (holding : Holding) : StockAnalysis :=
  match _analyze_single_holding w holding user with
  | Ok analysis => analysis
  | Raise e => Failed (Portfolio.ticker holding) (str_exn e)
  end.

(** The tickers of the analyses with a given action, in order. *)
Definition tickers_with (k : PortfolioAction) (analyses : list StockAnalysis)
    : list string :=
  map get_ticker (List.filter (fun a => bool_decide (get_action a = k)) analyses).

(** The money put into a list of holdings. *)
Definition invested (holdings : list Holding) : Qc :=
  foldr (fun h s => Qc_of_Z (quantity h) * avg_price h + s) (Q2Qc 0) holdings.

(** The value and the profit that an entry adds to the totals. *)
Definition value_of (analysis : StockAnalysis) : Qc :=
  default (Q2Qc 0) (get_current_value analysis).

Definition pnl_of (analysis : StockAnalysis) : Qc :=
  default (Q2Qc 0) (get_pnl analysis).

Definition total (f : StockAnalysis -> Qc) (analyses : list StockAnalysis) : Qc :=
  foldr (fun a s => f a + s) (Q2Qc 0) analyses.

(** The number of tickers filed under the seven categories. *)
Definition filed (summary : gmap string (list string)) : nat :=
  foldr (fun k n => (length (default [] (summary !! action_value k)) + n)%nat)
    0%nat category_keys.

(** The profit percentage under which an analysis is sorted. *)
Definition pnl_key (x : StockAnalysis) : Qc :=
  default (Q2Qc 0) (get_pnl_percent x).

(** The analyses that carry a profit percentage, best first. *)
Definition ranked (analyses : list StockAnalysis) : list StockAnalysis :=
  sorted_desc pnl_key
    (List.filter (fun a => bool_decide (is_Some (get_pnl_percent a))) analyses).

(** The entry of a performers list. *)
Definition performer (p : StockAnalysis) : string * Qc :=
  (get_ticker p, pnl_key p).

(** The profit percentages of a list of performers are in descending
    order. *)
Definition descending (l : list (string * Qc)) : Prop :=
  StronglySorted (fun a b => snd b ≤ snd a) l.

(** Two holdings, the second of which cannot be priced. *)
Definition sample_holdings : list Holding :=
  [ {| ticker := "TCS.NS"; quantity := 10; avg_price := Qc_of_Z 100;
       target_price := None; stop_loss := None |};
    {| ticker := "XYZ.NS"; quantity := 5; avg_price := Qc_of_Z 200;
       target_price := None; stop_loss := None |} ].

Definition sample_world : World :=
  {| now := "2024-01-01T00:00:00+00:00";
     get_user := fun _ => Ok (PStr "user");
     get_portfolio := fun _ => Ok sample_holdings;
     get_stock_data := fun t _ =>
       if String.eqb t "TCS.NS"
       then Ok (Some {| name := "Tata Consultancy"; current_price := Qc_of_Z 130;
                        model_dump := PDict ∅ |})
       else Raise (Exn OtherError "no quote");
     days_held := fun _ => Ok 30%Z;
     fundamental_analyze := fun _ => Ok (<["score" := PInt 70]> ∅);
     technical_analyze := fun _ => Raise (Exn OtherError "timed out");
     save_analysis := fun _ => Raise (Exn OtherError "database is locked") |}.

End WorkflowSpec.

Module BotSpec.
Import Routing Flow Bot.

(** The intents on which a list of effects runs the graph are all accepted
    by the validation, and the graph is run for the given user. *)
Definition runs_accepted (user_id : Z) (effects : list Effect) : Prop :=
  forall intent uid,
    graph_run intent uid ∈ effects ->
    validate_intent intent = (true, None) /\ uid = Some (pretty user_id).

(** A bot without conversation contexts, over the world in which every
    collaborator answers; its classifier takes every text for a request
    for help. *)
Definition sample_env : Env :=
  {| world := FlowSpec.all_ok_world;
     classify := fun text =>
       {| type := HELP; tickers := []; raw_query := text;
          confidence := Q2Qc 1.0; aspect := None |};
     conversation_contexts := ∅;
     get_help_text := "Stock Analysis Bot Commands";
     message_text := fun text => text;
     _format_result := fun _ _ => ("Analysis complete", result_keyboard "analysis") |}.

End BotSpec.

(* ===================================================================== *)
(** * Properties of the synthesizer                                       *)
(* ===================================================================== *)

Module SynthesizerFacts.
Import Synthesizer SynthesizerSpec.

Local Open Scope Qc_scope.

(** ** Arithmetic of decimal quantities *)

Lemma Qc_of_Z_this (z : Z) : this (Qc_of_Z z) = inject_Z z.
Proof. reflexivity. Qed.

Lemma Qc_of_Z_100_neq_0 : Qc_of_Z 100 <> 0.
Proof. rewrite <- Z2Qc_inj_0. intros H. apply Z2Qc_inj in H. lia. Qed.

Lemma Qfloor_Qc_of_Z (z : Z) : Qfloor (Qc_of_Z z) = z.
Proof. rewrite Qc_of_Z_this. apply Qfloor_Z. Qed.

Lemma round_half_even_Z (z : Z) : round_half_even (Qc_of_Z z) = z.
Proof.
  unfold round_half_even. rewrite Qfloor_Qc_of_Z.
  replace (Qc_of_Z z - Qc_of_Z z) with (Q2Qc 0) by ring.
  rewrite bool_decide_eq_true_2; [reflexivity|].
  reflexivity.
Qed.

(** [round(x, 2)] leaves a whole number of hundredths unchanged. *)
Lemma py_round2_hundredths (k : Z) :
  py_round2 (Qc_of_Z k / Qc_of_Z 100) = Qc_of_Z k / Qc_of_Z 100.
Proof.
  unfold py_round2.
  replace (Qc_of_Z k / Qc_of_Z 100 * Qc_of_Z 100) with (Qc_of_Z k).
  - by rewrite round_half_even_Z.
  - field. apply Qc_of_Z_100_neq_0.
Qed.

Lemma py_round2_is_hundredths (x : Qc) : is_hundredths x -> py_round2 x = x.
Proof. intros [k ->]. apply py_round2_hundredths. Qed.

Lemma is_hundredths_add_int (x : Qc) (n : Z) :
  is_hundredths x -> is_hundredths (x + Qc_of_Z n).
Proof.
  intros [k ->]. exists (k + 100 * n)%Z.
  rewrite Z2Qc_inj_add, Z2Qc_inj_mul. field. apply Qc_of_Z_100_neq_0.
Qed.

Ltac qc_const := apply Qc_is_canon; vm_compute; reflexivity.

Lemma dec_10 : Q2Qc 0.10 = Qc_of_Z 10 / Qc_of_Z 100.
Proof. qc_const. Qed.
Lemma dec_15 : Q2Qc 0.15 = Qc_of_Z 15 / Qc_of_Z 100.
Proof. qc_const. Qed.
Lemma dec_20 : Q2Qc 0.20 = Qc_of_Z 20 / Qc_of_Z 100.
Proof. qc_const. Qed.
Lemma dec_25 : Q2Qc 0.25 = Qc_of_Z 25 / Qc_of_Z 100.
Proof. qc_const. Qed.
Lemma dec_30 : Q2Qc 0.30 = Qc_of_Z 30 / Qc_of_Z 100.
Proof. qc_const. Qed.
Lemma dec_40 : Q2Qc 0.40 = Qc_of_Z 40 / Qc_of_Z 100.
Proof. qc_const. Qed.
Lemma dec_50 : Q2Qc 0.50 = Qc_of_Z 50 / Qc_of_Z 100.
Proof. qc_const. Qed.

(** ** The three weight sets *)

Lemma select_weights_cases (horizon : string) :
  select_weights horizon = weights_long \/
  select_weights horizon = weights_short \/
  select_weights horizon = weights_swing.
Proof. unfold select_weights. repeat case_match; auto. Qed.

Lemma weights_sum_one (w : Weights) :
  w = weights_long \/ w = weights_short \/ w = weights_swing ->
  weights_sum w = 1.
Proof. intros [-> | [-> | ->]]; qc_const. Qed.

Lemma weighted_sum_is_hundredths (w : Weights) (a b c d : Z) :
  w = weights_long \/ w = weights_short \/ w = weights_swing ->
  is_hundredths (weighted_sum w a b c d).
Proof.
  unfold weighted_sum.
  intros [-> | [-> | ->]]; simpl.
  - exists (a * 50 + b * 20 + c * 20 + d * 10)%Z.
    rewrite !Z2Qc_inj_add, !Z2Qc_inj_mul, dec_50, dec_20, dec_10.
    field. apply Qc_of_Z_100_neq_0.
  - exists (a * 15 + b * 50 + c * 25 + d * 10)%Z.
    rewrite !Z2Qc_inj_add, !Z2Qc_inj_mul, dec_15, dec_50, dec_25, dec_10.
    field. apply Qc_of_Z_100_neq_0.
  - exists (a * 30 + b * 40 + c * 20 + d * 10)%Z.
    rewrite !Z2Qc_inj_add, !Z2Qc_inj_mul, dec_30, dec_40, dec_20, dec_10.
    field. apply Qc_of_Z_100_neq_0.
Qed.

Lemma _normalize_signal_str (s : string) :
  _normalize_signal (PStr s) = Ok (normalize s).
Proof.
  unfold normalize, _normalize_signal; simpl.
  repeat case_match; congruence.
Qed.

Lemma normalize_cases (s : string) :
  normalize s = "BULLISH" \/ normalize s = "BEARISH" \/ normalize s = "NEUTRAL".
Proof.
  unfold normalize, _normalize_signal; simpl.
  repeat case_match; simplify_eq; auto.
Qed.

Lemma count_pos (x : string) (l : list string) :
  (0 <? count x l)%nat = bool_decide (x ∈ l).
Proof.
  unfold count. induction l as [|y l IH]; [done|].
  rewrite filter_cons. destruct (decide (y = x)) as [->|Hne]; simpl.
  - symmetry. apply bool_decide_eq_true_2. left.
  - rewrite IH. apply bool_decide_ext. rewrite elem_of_cons.
    split; [by right | intros [Heq | Hin]; [congruence | done]].
Qed.

Lemma _detect_conflicts_length (signals : list string) :
  length (_detect_conflicts signals) = if mixed signals then 1%nat else 0%nat.
Proof.
  unfold _detect_conflicts, mixed. rewrite !count_pos.
  by destruct (bool_decide _ && bool_decide _).
Qed.

Lemma adjustment_mixed (signals : list string) :
  adjustment signals = if mixed signals then 0%Z else 10%Z.
Proof.
  unfold adjustment. rewrite _detect_conflicts_length.
  by destruct (mixed signals).
Qed.

(** ** The functions on small inputs *)

Example normalize_strong_buy :
  _normalize_signal (PStr "Strong_Buy") = Ok "BULLISH".
Proof. reflexivity. Qed.

Example normalize_overvalued :
  _normalize_signal (PStr "overvalued") = Ok "BEARISH".
Proof. reflexivity. Qed.

(** BULLISH is tested first: a label with both vocabularies is BULLISH. *)
Example normalize_buy_wins_over_sell :
  _normalize_signal (PStr "BUY now, SELL later") = Ok "BULLISH".
Proof. reflexivity. Qed.

Example normalize_hold : _normalize_signal (PStr "HOLD") = Ok "NEUTRAL".
Proof. reflexivity. Qed.

Example normalize_none_raises :
  _normalize_signal PNone
  = Raise (Exn AttributeError "'NoneType' object has no attribute 'upper'").
Proof. reflexivity. Qed.

Example detect_conflicts_mixed :
  _detect_conflicts ["BULLISH"; "BEARISH"; "BULLISH"]
  = ["Mixed signals: 2 bullish, 1 bearish"].
Proof. reflexivity. Qed.

Example detect_conflicts_aligned :
  _detect_conflicts ["BULLISH"; "NEUTRAL"; "BULLISH"] = [].
Proof. reflexivity. Qed.

(** A score that is not a number makes the weighted sum raise. *)
Example calc_raises_on_text_score :
  _calculate_weighted_scores (PDict (<["score" := PStr "high"]> ∅))
    (PDict ∅) (PDict ∅) (PDict ∅) (PDict ∅)
  = Raise (Exn TypeError "unsupported operand type(s)").
Proof. reflexivity. Qed.

Example round2_half_even :
  py_round2 (Q2Qc 0.125) = Q2Qc 0.12 /\ py_round2 (Q2Qc 0.135) = Q2Qc 0.14.
Proof. split; apply Qc_is_canon; vm_compute; reflexivity. Qed.

(** ** What [_calculate_weighted_scores] returns on well-typed input *)

Lemma calc_spec (f t m r u : gmap string pyval)
    (sf st sm sr : Z) (rating signal sentiment horizon : string) :
  int_field f "score" 50 sf ->
  int_field t "score" 50 st ->
  int_field m "score" 50 sm ->
  int_field r "risk_score" 50 sr ->
  str_field f "rating" "HOLD" rating ->
  str_field t "signal" "NEUTRAL" signal ->
  str_field m "overall_sentiment" "NEUTRAL" sentiment ->
  str_field u "time_horizon" "medium" horizon ->
  let w := select_weights horizon in
  let signals := [normalize rating; normalize signal; normalize sentiment] in
  let x := weighted_sum w sf st sm (100 - sr) in
  _calculate_weighted_scores (PDict f) (PDict t) (PDict m) (PDict r) (PDict u) =
  Ok {| fundamental_score := PInt sf;
        technical_score := PInt st;
        market_intel_score := PInt sm;
        risk_score := PInt sr;
        weighted_average := py_round2 x;
        confidence_adjustment := adjustment signals;
        final_score := py_round2 (x + Qc_of_Z (adjustment signals));
        weights_used := w;
        conflicts := _detect_conflicts signals |}.
Proof.
  unfold int_field, str_field.
  intros Hf Ht Hm Hr Hrat Hsig Hsen Hhor.
  unfold _calculate_weighted_scores; simpl.
  rewrite Hf, Ht, Hm, Hr, Hrat, Hsig, Hsen, Hhor; simpl.
  rewrite !_normalize_signal_str; simpl.
  reflexivity.
Qed.

Lemma int_field_of_lookup (d : gmap string pyval) (k : string) (dflt : Z)
    (o : option Z) :
  d !! k = PInt <$> o -> int_field d k dflt (default dflt o).
Proof. unfold int_field. intros ->. by destruct o. Qed.

Lemma str_field_of_lookup (d : gmap string pyval) (k dflt : string)
    (o : option string) :
  d !! k = PStr <$> o -> str_field d k dflt (default dflt o).
Proof. unfold str_field. intros ->. by destruct o. Qed.

Lemma calc_well_typed f t m r u sf st sm sr rating signal sentiment horizon :
  well_typed f t m r u sf st sm sr rating signal sentiment horizon ->
  let w := select_weights (default "medium" horizon) in
  let signals := signals_of rating signal sentiment in
  let x := weighted_sum w (default 50 sf) (default 50 st) (default 50 sm)
             (100 - default 50 sr) in
  _calculate_weighted_scores (PDict f) (PDict t) (PDict m) (PDict r) (PDict u) =
  Ok {| fundamental_score := PInt (default 50 sf);
        technical_score := PInt (default 50 st);
        market_intel_score := PInt (default 50 sm);
        risk_score := PInt (default 50 sr);
        weighted_average := x;
        confidence_adjustment := adjustment signals;
        final_score := x + Qc_of_Z (adjustment signals);
        weights_used := w;
        conflicts := _detect_conflicts signals |}.
Proof.
  intros [Hf Ht Hm Hr Hrat Hsig Hsen Hhor]; simpl.
  rewrite (calc_spec f t m r u (default 50 sf) (default 50 st) (default 50 sm)
             (default 50 sr) (default "HOLD" rating) (default "NEUTRAL" signal)
             (default "NEUTRAL" sentiment) (default "medium" horizon));
    auto using int_field_of_lookup, str_field_of_lookup.
  pose proof (weighted_sum_is_hundredths
                (select_weights (default "medium" horizon))
                (default 50 sf) (default 50 st) (default 50 sm)
                (100 - default 50 sr)
                (select_weights_cases _)) as Hx.
  rewrite (py_round2_is_hundredths _ Hx).
  rewrite (py_round2_is_hundredths _ (is_hundredths_add_int _ _ Hx)).
  reflexivity.
Qed.

Lemma sample_well_typed :
  well_typed sample_fundamental sample_technical sample_market_intel
    sample_risk sample_context
    (Some 80%Z) (Some 40%Z) (Some 60%Z) (Some 30%Z)
    (Some "BUY") (Some "SELL") (Some "NEUTRAL") (Some "Long-term").
Proof. split; reflexivity. Qed.

(** ** Confidence adjustment (C1) *)

(** C1, as amended.  For every rating, signal and sentiment string (present
    or defaulted), the confidence adjustment returned by
    [_calculate_weighted_scores] is 0 when the three normalized signals
    contain both BULLISH and BEARISH, and +10 otherwise; it is never -20. *)
Theorem confidence_adjustment_zero_or_ten
    f t m r u sf st sm sr rating signal sentiment horizon :
  well_typed f t m r u sf st sm sr rating signal sentiment horizon ->
  exists res,
    _calculate_weighted_scores (PDict f) (PDict t) (PDict m) (PDict r) (PDict u)
      = Ok res /\
    let signals := signals_of rating signal sentiment in
    ("BULLISH" ∈ signals /\ "BEARISH" ∈ signals ->
       confidence_adjustment res = 0%Z) /\
    (~ ("BULLISH" ∈ signals /\ "BEARISH" ∈ signals) ->
       confidence_adjustment res = 10%Z) /\
    confidence_adjustment res <> (-20)%Z.
Proof.
  intros Hwt. eexists. split; [apply (calc_well_typed _ _ _ _ _ _ _ _ _ _ _ _ _ Hwt)|].
  simpl. rewrite adjustment_mixed. unfold mixed.
  set (signals := signals_of rating signal sentiment).
  destruct (decide ("BULLISH" ∈ signals)) as [Hb|Hb];
    destruct (decide ("BEARISH" ∈ signals)) as [Hs|Hs];
    rewrite ?(bool_decide_eq_true_2 _ Hb), ?(bool_decide_eq_false_2 _ Hb),
            ?(bool_decide_eq_true_2 _ Hs), ?(bool_decide_eq_false_2 _ Hs);
    simpl; repeat split; intros; try done; tauto.
Qed.

Lemma confidence_adjustment_zero_or_ten_witness :
  well_typed sample_fundamental sample_technical sample_market_intel
    sample_risk sample_context
    (Some 80%Z) (Some 40%Z) (Some 60%Z) (Some 30%Z)
    (Some "BUY") (Some "SELL") (Some "NEUTRAL") (Some "Long-term") /\
  exists res,
    _calculate_weighted_scores (PDict sample_fundamental) (PDict sample_technical)
      (PDict sample_market_intel) (PDict sample_risk) (PDict sample_context)
      = Ok res /\
    let signals := signals_of (Some "BUY") (Some "SELL") (Some "NEUTRAL") in
    ("BULLISH" ∈ signals /\ "BEARISH" ∈ signals ->
       confidence_adjustment res = 0%Z) /\
    (~ ("BULLISH" ∈ signals /\ "BEARISH" ∈ signals) ->
       confidence_adjustment res = 10%Z) /\
    confidence_adjustment res <> (-20)%Z.
Proof.
  split; [split; reflexivity|].
  apply (confidence_adjustment_zero_or_ten
           sample_fundamental sample_technical sample_market_intel
           sample_risk sample_context
           (Some 80%Z) (Some 40%Z) (Some 60%Z) (Some 30%Z)
           (Some "BUY") (Some "SELL") (Some "NEUTRAL") (Some "Long-term")).
  split; reflexivity.
Defined.

(** C1, as stated, fails: a BUY rating with a SELL signal normalizes to one
    BULLISH and one BEARISH signal, one conflict is recorded, and the
    adjustment is 0, not -20. *)
Lemma confidence_adjustment_not_minus_twenty :
  exists res,
    _calculate_weighted_scores (PDict sample_fundamental) (PDict sample_technical)
      (PDict sample_market_intel) (PDict sample_risk) (PDict sample_context)
      = Ok res /\
    normalize "BUY" = "BULLISH" /\
    normalize "SELL" = "BEARISH" /\
    normalize "NEUTRAL" = "NEUTRAL" /\
    conflicts res = ["Mixed signals: 1 bullish, 1 bearish"] /\
    confidence_adjustment res = 0%Z /\
    confidence_adjustment res <> (-20)%Z.
Proof.
  eexists. split; [apply (calc_well_typed _ _ _ _ _ _ _ _ _ _ _ _ _ sample_well_typed)|].
  simpl. repeat split; try reflexivity. discriminate.
Qed.

(** ** Weight selection (C7) *)

(** C7.  For every time-horizon string (or none, which reads as "medium"),
    the weights used are the long-term set when the lowercased string
    contains "long", the short-term set when it contains "short" but not
    "long", and the swing set otherwise; the set used sums to 1. *)
Theorem weight_selection_three_way
    f t m r u sf st sm sr rating signal sentiment horizon :
  well_typed f t m r u sf st sm sr rating signal sentiment horizon ->
  exists res,
    _calculate_weighted_scores (PDict f) (PDict t) (PDict m) (PDict r) (PDict u)
      = Ok res /\
    let h := lower (default "medium" horizon) in
    (contains "long" h = true -> weights_used res = weights_long) /\
    (contains "long" h = false -> contains "short" h = true ->
       weights_used res = weights_short) /\
    (contains "long" h = false -> contains "short" h = false ->
       weights_used res = weights_swing) /\
    weights_sum (weights_used res) = 1.
Proof.
  intros Hwt. eexists. split; [apply (calc_well_typed _ _ _ _ _ _ _ _ _ _ _ _ _ Hwt)|].
  simpl. repeat split.
  - unfold select_weights. by intros ->.
  - unfold select_weights. by intros -> ->.
  - unfold select_weights. by intros -> ->.
  - apply weights_sum_one, select_weights_cases.
Qed.

Lemma weight_selection_three_way_witness :
  exists res,
    _calculate_weighted_scores (PDict sample_fundamental) (PDict sample_technical)
      (PDict sample_market_intel) (PDict sample_risk) (PDict sample_context)
      = Ok res /\
    let h := lower "Long-term" in
    (contains "long" h = true -> weights_used res = weights_long) /\
    (contains "long" h = false -> contains "short" h = true ->
       weights_used res = weights_short) /\
    (contains "long" h = false -> contains "short" h = false ->
       weights_used res = weights_swing) /\
    weights_sum (weights_used res) = 1.
Proof.
  apply (weight_selection_three_way
           sample_fundamental sample_technical sample_market_intel
           sample_risk sample_context
           (Some 80%Z) (Some 40%Z) (Some 60%Z) (Some 30%Z)
           (Some "BUY") (Some "SELL") (Some "NEUTRAL") (Some "Long-term")).
  split; reflexivity.
Defined.

(** The three sets carry the values of the source literals, in hundredths. *)
Lemma weight_sets_values :
  weights_long = {| w_fundamental := Qc_of_Z 50 / Qc_of_Z 100;
                    w_technical := Qc_of_Z 20 / Qc_of_Z 100;
                    w_market_intel := Qc_of_Z 20 / Qc_of_Z 100;
                    w_risk := Qc_of_Z 10 / Qc_of_Z 100 |} /\
  weights_short = {| w_fundamental := Qc_of_Z 15 / Qc_of_Z 100;
                     w_technical := Qc_of_Z 50 / Qc_of_Z 100;
                     w_market_intel := Qc_of_Z 25 / Qc_of_Z 100;
                     w_risk := Qc_of_Z 10 / Qc_of_Z 100 |} /\
  weights_swing = {| w_fundamental := Qc_of_Z 30 / Qc_of_Z 100;
                     w_technical := Qc_of_Z 40 / Qc_of_Z 100;
                     w_market_intel := Qc_of_Z 20 / Qc_of_Z 100;
                     w_risk := Qc_of_Z 10 / Qc_of_Z 100 |}.
Proof.
  unfold weights_long, weights_short, weights_swing.
  by rewrite dec_10, dec_15, dec_20, dec_25, dec_30, dec_40, dec_50.
Qed.

(** ** Weighted average (C8) *)

(** C8.  Whichever of the four scores are present ([Some]) or absent
    ([None]), the call returns, and its weighted average is the sum of the
    four scores times their weights, where an absent score counts as 50 and
    the risk score enters as 100 minus itself. *)
Theorem weighted_average_is_weighted_sum
    f t m r u sf st sm sr rating signal sentiment horizon :
  well_typed f t m r u sf st sm sr rating signal sentiment horizon ->
  exists res,
    _calculate_weighted_scores (PDict f) (PDict t) (PDict m) (PDict r) (PDict u)
      = Ok res /\
    let w := weights_used res in
    weighted_average res =
      Qc_of_Z (default 50 sf) * w_fundamental w +
      Qc_of_Z (default 50 st) * w_technical w +
      Qc_of_Z (default 50 sm) * w_market_intel w +
      Qc_of_Z (100 - default 50 sr) * w_risk w.
Proof.
  intros Hwt. eexists. split; [apply (calc_well_typed _ _ _ _ _ _ _ _ _ _ _ _ _ Hwt)|].
  reflexivity.
Qed.

(** One component present, three absent. *)
Lemma weighted_average_is_weighted_sum_witness :
  exists res,
    _calculate_weighted_scores (PDict sample_fundamental) (PDict ∅) (PDict ∅)
      (PDict ∅) (PDict ∅) = Ok res /\
    let w := weights_used res in
    weighted_average res =
      Qc_of_Z 80 * w_fundamental w + Qc_of_Z 50 * w_technical w +
      Qc_of_Z 50 * w_market_intel w + Qc_of_Z (100 - 50) * w_risk w.
Proof.
  apply (weighted_average_is_weighted_sum
           sample_fundamental ∅ ∅ ∅ ∅
           (Some 80%Z) None None None (Some "BUY") None None None).
  split; reflexivity.
Defined.

(** ** Final score (C9) *)

(** C9.  The final score is the weighted average plus the confidence
    adjustment, with no clamping: four in-range scores (100, 100, 100 and
    risk 0) give a final score of 110. *)
Theorem final_score_unclamped :
  (forall f t m r u sf st sm sr rating signal sentiment horizon,
     well_typed f t m r u sf st sm sr rating signal sentiment horizon ->
     exists res,
       _calculate_weighted_scores (PDict f) (PDict t) (PDict m) (PDict r) (PDict u)
         = Ok res /\
       final_score res =
         weighted_average res + Qc_of_Z (confidence_adjustment res)) /\
  (exists res,
     _calculate_weighted_scores (PDict top_fundamental) (PDict top_technical)
       (PDict top_market_intel) (PDict top_risk) (PDict ∅) = Ok res /\
     weighted_average res = Qc_of_Z 100 /\
     final_score res = Qc_of_Z 110 /\
     Qc_of_Z 100 < final_score res).
Proof.
  split.
  - intros * Hwt. eexists.
    split; [apply (calc_well_typed _ _ _ _ _ _ _ _ _ _ _ _ _ Hwt)|]. reflexivity.
  - eexists. split.
    + apply (calc_well_typed top_fundamental top_technical top_market_intel
               top_risk ∅ (Some 100%Z) (Some 100%Z) (Some 100%Z) (Some 0%Z)
               (Some "BUY") (Some "BUY") (Some "POSITIVE") None).
      split; reflexivity.
    + simpl. repeat split; qc_const.
Qed.

Lemma final_score_unclamped_witness :
  exists res,
    _calculate_weighted_scores (PDict sample_fundamental) (PDict sample_technical)
      (PDict sample_market_intel) (PDict sample_risk) (PDict sample_context)
      = Ok res /\
    final_score res = weighted_average res + Qc_of_Z (confidence_adjustment res).
Proof.
  apply (proj1 final_score_unclamped
           sample_fundamental sample_technical sample_market_intel
           sample_risk sample_context
           (Some 80%Z) (Some 40%Z) (Some 60%Z) (Some 30%Z)
           (Some "BUY") (Some "SELL") (Some "NEUTRAL") (Some "Long-term")).
  split; reflexivity.
Defined.

End SynthesizerFacts.

(* ===================================================================== *)
(** * Properties of intent validation                                     *)
(* ===================================================================== *)

Module RoutingFacts.
Import Routing Router RoutingSpec Bot BotSpec.

Example validate_unknown :
  fst (validate_intent (intent_of UNKNOWN ["TCS"])) = false.
Proof. reflexivity. Qed.

Example validate_help_without_ticker :
  validate_intent (intent_of HELP []) = (true, None).
Proof. reflexivity. Qed.

Example validate_comparison_two :
  validate_intent (intent_of COMPARISON ["TCS"; "INFY"]) = (true, None).
Proof. reflexivity. Qed.

Example validate_comparison_one :
  validate_intent (intent_of COMPARISON ["TCS"])
  = (false, Some "Please specify two tickers for comparison. Example: `/c TCS INFY`").
Proof. reflexivity. Qed.

(** A rejection always comes with its message. *)
Lemma validate_intent_rejects (intent : Intent) :
  fst (validate_intent intent) = false ->
  exists msg, validate_intent intent = (false, Some msg).
Proof.
  unfold validate_intent. intros Hv.
  repeat case_match; try done; by eexists.
Qed.

Lemma validate_intent_accepts (intent : Intent) :
  fst (validate_intent intent) = true -> validate_intent intent = (true, None).
Proof.
  unfold validate_intent. intros Hv. repeat case_match; done.
Qed.

(** An accepted intent other than HELP carries a ticker, so that its
    progress message can be built. *)
Lemma accepted_intent_has_message (intent : Intent) :
  fst (validate_intent intent) = true -> type intent <> HELP ->
  exists msg, get_progress_message intent = Ok msg.
Proof.
  intros Hv Hh. unfold validate_intent in Hv.
  unfold get_progress_message, py_index.
  destruct (tickers intent) as [|t0 [|t1 tk]]; cbn in Hv |- *.
  - destruct (type intent); cbn in Hv; done.
  - eexists; reflexivity.
  - eexists; reflexivity.
Qed.

(** What the two validating handlers do with the verdict. *)
Lemma after_validation (intent : Intent) (continue : list Effect) :
  (let '(is_valid, error_msg) := validate_intent intent in
   if negb is_valid then
     [reply_text (format_error (str_option error_msg)) get_error_keyboard]
   else continue)
  = match validate_intent intent with
    | (false, msg) =>
        [reply_text (format_error (str_option msg)) get_error_keyboard]
    | (true, _) => continue
    end.
Proof. by destruct (validate_intent intent) as [[] msg]. Qed.

(** [_run_analysis] on an intent whose progress message exists. *)
Lemma run_analysis_effects {fmt : PyFormat} (env : Env) (user_id : Z)
    (intent : Intent) (msg : string) :
  get_progress_message intent = Ok msg ->
  exists rest,
    _run_analysis env intent user_id
    = reply_text msg no_markup
      :: graph_run intent (Some (pretty user_id)) :: rest /\
    forall i u, graph_run i u ∉ rest.
Proof.
  intros E. unfold _run_analysis, _run_analysis_with_message. rewrite E.
  destruct (_format_result env intent _) as [response keyboard].
  eexists. split; [reflexivity|].
  intros i u Hin. apply elem_of_app in Hin as [Hin|Hin].
  - apply list_elem_of_fmap in Hin as (m & Heq & _). discriminate Heq.
  - apply list_elem_of_singleton in Hin. discriminate Hin.
Qed.

(** C4, as amended.  [validate_intent] is a function of the intent alone.
    It accepts a COMPARISON intent exactly when it carries at least two
    tickers; it rejects every intent other than HELP that carries no
    ticker; it rejects every UNKNOWN intent.  Rejection comes before any
    stage: when the intent that a command or a message gives is rejected,
    the handler sends the error message and does nothing else, so that the
    graph, and with it every collector and producer, is not called.  The
    graph runs for the accepted intents, after the progress message (the
    arguments of a command are taken to be ASCII text there, as the
    tickers are their upper case). *)
Theorem validate_intent_rules {fmt : PyFormat} (intent : Intent) :
  (type intent = COMPARISON ->
     (fst (validate_intent intent) = true <-> (2 <= length (tickers intent))%nat)) /\
  (type intent <> HELP -> tickers intent = [] ->
     fst (validate_intent intent) = false) /\
  (type intent = UNKNOWN -> fst (validate_intent intent) = false) /\
  (fst (validate_intent intent) = false ->
     exists msg,
       validate_intent intent = (false, Some msg) /\
       (forall (env : Env) (user_id : Z) (args : list string),
          command_intent env user_id (type intent) args = intent ->
          _handle_analysis env user_id (type intent) args
          = [reply_text (format_error msg) get_error_keyboard]) /\
       (forall (env : Env) (user_id : Z) (text : string),
          message_intent env user_id text = intent ->
          handle_message env user_id text
          = [reply_text (format_error msg) get_error_keyboard])) /\
  (fst (validate_intent intent) = true -> type intent <> HELP ->
     exists msg,
       get_progress_message intent = Ok msg /\
       (forall (env : Env) (user_id : Z) (args : list string),
          Forall (fun arg => isascii arg = true) args ->
          command_intent env user_id (type intent) args = intent ->
          exists rest,
            _handle_analysis env user_id (type intent) args
            = reply_text msg no_markup
              :: graph_run intent (Some (pretty user_id)) :: rest) /\
       (forall (env : Env) (user_id : Z) (text : string),
          message_intent env user_id text = intent ->
          exists rest,
            handle_message env user_id text
            = reply_text msg no_markup
              :: graph_run intent (Some (pretty user_id)) :: rest)).
Proof.
  split; [|split; [|split; [|split]]].
  - destruct intent as [ty tk q c a]; simpl. unfold validate_intent; simpl.
    intros ->; simpl.
    destruct tk as [|x [|y tk']]; simpl; split; intros; done || lia.
  - destruct intent as [ty tk q c a]; simpl. unfold validate_intent; simpl.
    intros Hh ->. destruct ty; simpl; done.
  - destruct intent as [ty tk q c a]; simpl. unfold validate_intent; simpl.
    intros ->. done.
  - intros Hv. destruct (validate_intent_rejects intent Hv) as [msg E].
    exists msg. split; [exact E|]. split.
    + intros env user_id args Hi. unfold _handle_analysis.
      rewrite after_validation, Hi, E. reflexivity.
    + intros env user_id text Hi. unfold handle_message.
      rewrite after_validation, Hi, E. reflexivity.
  - intros Hv Hh.
    destruct (accepted_intent_has_message intent Hv Hh) as [msg E].
    pose proof (validate_intent_accepts intent Hv) as Ev.
    exists msg. split; [exact E|]. split.
    + intros env user_id args _ Hi. unfold _handle_analysis.
      rewrite after_validation, Hi, Ev.
      destruct (run_analysis_effects env user_id intent msg E) as (rest & -> & _).
      by exists rest.
    + intros env user_id text Hi. unfold handle_message.
      rewrite after_validation, Hi, Ev.
      rewrite bool_decide_eq_false_2 by done.
      destruct (run_analysis_effects env user_id intent msg E) as (rest & -> & _).
      by exists rest.
Qed.

(** A COMPARISON intent carrying one ticker is rejected: the command
    [/c tcs] is answered by the error message alone. *)
Lemma validate_intent_rules_witness :
  (fst (validate_intent (intent_of COMPARISON ["TCS"])) = true <-> (2 <= 1)%nat) /\
  cmd_compare (fmt := PortfolioSpec.sample_format) sample_env 42 ["tcs"]
  = [reply_text
       (format_error
          "Please specify two tickers for comparison. Example: `/c TCS INFY`")
       get_error_keyboard].
Proof.
  pose proof (validate_intent_rules (fmt := PortfolioSpec.sample_format)
                (command_intent sample_env 42 COMPARISON ["tcs"]))
    as (Hcmp & _ & _ & Hrej & _).
  split.
  - apply (Hcmp eq_refl).
  - destruct (Hrej eq_refl) as (msg & Emsg & Hcommand & _).
    injection Emsg as <-. exact (Hcommand sample_env 42 ["tcs"] eq_refl).
Defined.

(** C4, as stated, fails: a COMPARISON intent whose two tickers are the
    same is accepted, and so is one with three tickers. *)
Lemma comparison_accepted_without_two_distinct :
  validate_intent (intent_of COMPARISON ["TCS"; "TCS"]) = (true, None) /\
  ~ two_distinct ["TCS"; "TCS"] /\
  validate_intent (intent_of COMPARISON ["TCS"; "INFY"; "WIPRO"]) = (true, None) /\
  ~ two_distinct ["TCS"; "INFY"; "WIPRO"].
Proof.
  repeat split; try reflexivity.
  - intros (a & b & Heq & Hne). congruence.
  - intros (a & b & Heq & Hne). discriminate.
Qed.

End RoutingFacts.

(* ===================================================================== *)
(** * Properties of the portfolio decision rules                          *)
(* ===================================================================== *)

Module PortfolioFacts.
Import Portfolio PortfolioSpec.

Local Open Scope Qc_scope.

(** The texts of the stop-loss decision. *)
Example decision_of_near_stop :
  match _determine_action (fmt := sample_format) holding_near_stop (Qc_of_Z 101)
          (pnl_percent_of holding_near_stop (Qc_of_Z 101)) 0 None None PNone with
  | Ok d => reason d = "Price near stop loss (â‚¹100.0)" /\
            notes d = ["Current: â‚¹101.00, Stop: â‚¹100.00"]
  | Raise _ => False
  end.
Proof. vm_compute. split; reflexivity. Qed.

(** Bought at 100, now 126, no stop loss, technical score 40: the profit
    is 26% and half of the position is booked. *)
Example decision_profit_weak_technicals :
  match _determine_action (fmt := sample_format) holding_in_loss (Qc_of_Z 126)
          (pnl_percent_of holding_in_loss (Qc_of_Z 126)) 0 None
          (Some (<["score" := PInt 40]> ∅)) PNone with
  | Ok d => action d = BOOK_PARTIAL_50 /\ priority d = HIGH
  | Raise _ => False
  end.
Proof. vm_compute. split; reflexivity. Qed.

(** A score that is not a number raises only when a rule compares it. *)
Example decision_raises_on_text_score :
  _determine_action (fmt := sample_format) holding_in_loss (Qc_of_Z 80)
    (pnl_percent_of holding_in_loss (Qc_of_Z 80)) 0
    (Some (<["score" := PStr "low"]> ∅)) None PNone
  = Raise (Exn TypeError "unsupported operand type(s)").
Proof. vm_compute. reflexivity. Qed.

Section Rules.
Context {fmt : PyFormat}.

(** C5.  When a stop loss is set and the price is within 2% above it, the
    decision is STOP_LOSS_HIT with priority URGENT, whatever the profit
    percentage, the target price and the two analyses are. *)
Theorem stop_loss_rule_first (h : Holding) (current_price pnl_percent : Qc)
    (days_held : Z) (fundamental technical : option (gmap string pyval))
    (user : pyval) (sl : Qc) :
  stop_loss h = Some sl ->
  sl <> Q2Qc 0 ->
  (current_price - sl) / sl * Qc_of_Z 100 ≤ Qc_of_Z 2 ->
  exists d,
    _determine_action h current_price pnl_percent days_held
      fundamental technical user = Ok d /\
    action d = STOP_LOSS_HIT /\ priority d = URGENT.
Proof.
  intros Hsl Hnz Hdist. unfold _determine_action. rewrite Hsl; simpl.
  rewrite (bool_decide_eq_false_2 _ Hnz); simpl.
  unfold Qcleb. rewrite (bool_decide_eq_true_2 _ Hdist).
  eexists. repeat split.
Qed.

(** C6.  When the stop-loss rule does not apply and the profit percentage
    is at most -15, the decision is BOOK_ALL/URGENT for a fundamental score
    below 40 and HOLD/HIGH otherwise. *)
Theorem large_loss_rule (h : Holding) (current_price pnl_percent : Qc)
    (days_held : Z) (fundamental technical : option (gmap string pyval))
    (user : pyval) (score : Z) :
  ~ stop_rule_fires h current_price ->
  pnl_percent ≤ Qc_of_Z (-15) ->
  score_or_50 fundamental = PInt score ->
  exists d,
    _determine_action h current_price pnl_percent days_held
      fundamental technical user = Ok d /\
    ((score < 40)%Z -> action d = BOOK_ALL /\ priority d = URGENT) /\
    ((40 <= score)%Z -> action d = HOLD /\ priority d = HIGH).
Proof.
  intros Hstop Hpnl Hscore. unfold _determine_action.
  assert (match stop_loss h with
          | Some sl =>
              if truthy_float (Some sl)
              then if Qcleb ((current_price - sl) / sl * Qc_of_Z 100) (Qc_of_Z 2)
                   then Some sl else None
              else None
          | None => None
          end = None) as ->.
  { destruct (stop_loss h) as [sl|] eqn:Hsl; [|done]. simpl.
    destruct (decide (sl = Q2Qc 0)) as [Hz|Hnz].
    - by rewrite (bool_decide_eq_true_2 _ Hz).
    - rewrite (bool_decide_eq_false_2 _ Hnz); simpl.
      unfold Qcleb. case_bool_decide as Hd; [|done].
      destruct Hstop. by exists sl. }
  unfold Qcleb at 1. rewrite (bool_decide_eq_true_2 _ Hpnl).
  rewrite Hscore; simpl.
  destruct (Z.ltb_spec score 40); eexists; repeat split; simpl; intros; lia.
Qed.

End Rules.

(** The example of C5: bought at 100, now 101, stop loss 100; the profit is
    1% and no target is set. *)
Lemma stop_loss_rule_first_witness :
  pnl_percent_of holding_near_stop (Qc_of_Z 101) = Qc_of_Z 1 /\
  exists d,
    _determine_action (fmt := sample_format) holding_near_stop (Qc_of_Z 101)
      (pnl_percent_of holding_near_stop (Qc_of_Z 101)) 0 None None PNone = Ok d /\
    action d = STOP_LOSS_HIT /\ priority d = URGENT.
Proof.
  split; [apply Qc_is_canon; vm_compute; reflexivity|].
  apply (stop_loss_rule_first (fmt := sample_format) holding_near_stop
           (Qc_of_Z 101) (pnl_percent_of holding_near_stop (Qc_of_Z 101))
           0 None None PNone (Qc_of_Z 100)).
  - reflexivity.
  - intros Heq. discriminate Heq.
  - apply Qcle_alt. vm_compute. discriminate.
Defined.

(** The example of C6: bought at 100, now 80, fundamental score 30; the
    profit is -20%. *)
Lemma large_loss_rule_witness :
  pnl_percent_of holding_in_loss (Qc_of_Z 80) = Qc_of_Z (-20) /\
  exists d,
    _determine_action (fmt := sample_format) holding_in_loss (Qc_of_Z 80)
      (pnl_percent_of holding_in_loss (Qc_of_Z 80)) 0
      (Some (<["score" := PInt 30]> ∅)) None PNone = Ok d /\
    ((30 < 40)%Z -> action d = BOOK_ALL /\ priority d = URGENT) /\
    ((40 <= 30)%Z -> action d = HOLD /\ priority d = HIGH).
Proof.
  split; [apply Qc_is_canon; vm_compute; reflexivity|].
  apply (large_loss_rule (fmt := sample_format) holding_in_loss (Qc_of_Z 80)
           (pnl_percent_of holding_in_loss (Qc_of_Z 80)) 0
           (Some (<["score" := PInt 30]> ∅)) None PNone 30).
  - intros (sl & Hsl & _). discriminate Hsl.
  - apply Qcle_alt. vm_compute. discriminate.
  - reflexivity.
Defined.

End PortfolioFacts.

(* ===================================================================== *)
(** * Properties of the pipeline stages                                   *)
(* ===================================================================== *)

Module FlowFacts.
Import Routing Flow SynthesizerSpec RoutingSpec FlowSpec.

(** Unfolds one stage down to the calls of the collaborators. *)
Ltac run_stage :=
  unfold try_except, for_enumerate, store_result, set_slot, get_slot,
    append_error, append_progress, gets, modify, lift;
  unfold mbind, M_bind, fmap, M_fmap, mret, M_ret;
  cbn -[or_empty_dict truthy Synthesizer.analyze].

(** Closes a case of the fan-out theorem once the three results are
    known: the state is then explicit. *)
Ltac fan_out_done :=
  eexists; split; [reflexivity|]; cbn; split; [done|]; split;
  [ by rewrite !lookup_insert_ne
  | intros [|[|[|?]]] ? ? ? ? ?; by simplify_map_eq ].

Lemma calc_on_empty :
  Synthesizer._calculate_weighted_scores (PDict ∅) (PDict ∅) (PDict ∅) (PDict ∅)
    (PDict ∅) = Ok neutral_scores.
Proof.
  rewrite (SynthesizerFacts.calc_well_typed ∅ ∅ ∅ ∅ ∅
             None None None None None None None None); [|split; reflexivity].
  unfold neutral_scores. simpl.
  f_equal. f_equal; apply Qc_is_canon; vm_compute; reflexivity.
Qed.

(** The synthesizer looks for keys that [synthesis_data] does not have. *)
Lemma analyze_inputs_synthesis_data
    (stock_data fundamental technical market_intel risk : pyval) :
  Synthesizer.analyze_inputs
    (synthesis_data stock_data fundamental technical market_intel risk)
  = Ok (neutral_inputs stock_data).
Proof.
  unfold Synthesizer.analyze_inputs, synthesis_data, py_get.
  cbn [mbind result_bind].
  repeat first [rewrite lookup_insert_eq | rewrite lookup_insert_ne by done
               | rewrite lookup_empty].
  cbn [default id].
  rewrite calc_on_empty. reflexivity.
Qed.

Section Stage.
Context {fmt : PyFormat} (w : World).

(** C3.  Whatever the five slot values are, the synthesizer finds none of
    the four analyses in the dict that [_run_synthesis] builds: its score
    block has the four scores at 50, no conflict, adjustment +10, weighted
    average 50 and final score 60; the stage behaves as the steps of the
    synthesizer after its score block ([synthesizer_generate]: the prompt
    and the text generation) on these neutral inputs. *)
Theorem synthesis_stage_scores_are_neutral :
  (forall stock_data fundamental technical market_intel risk : pyval,
     Synthesizer.analyze_inputs
       (synthesis_data stock_data fundamental technical market_intel risk)
     = Ok (neutral_inputs stock_data)) /\
  (forall st : GraphState,
     _run_synthesis w st =
     match synthesizer_generate w
             (neutral_inputs (default PNone (slots st !! "stock_data"))) with
     | Ok result =>
         (Ok tt,
          with_progress (fun l => (l ++ ["✅ Recommendation generated"])%list)
            (with_slots (insert "synthesized_recommendation" result) st))
     | Raise e =>
         (Ok tt,
          with_errors (fun l => (l ++ ["Synthesis error: " +:+ str_exn e])%list) st)
     end) /\
  Synthesizer.p_scores (neutral_inputs PNone) = neutral_scores /\
  Synthesizer.fundamental_score neutral_scores = PInt 50 /\
  Synthesizer.technical_score neutral_scores = PInt 50 /\
  Synthesizer.market_intel_score neutral_scores = PInt 50 /\
  Synthesizer.risk_score neutral_scores = PInt 50 /\
  Synthesizer.conflicts neutral_scores = [] /\
  Synthesizer.weighted_average neutral_scores = Qc_of_Z 50 /\
  Synthesizer.final_score neutral_scores = Qc_of_Z 60.
Proof.
  split; [exact analyze_inputs_synthesis_data|]. split; [|repeat split].
  intros st. unfold _run_synthesis. run_stage.
  unfold Synthesizer.analyze. rewrite analyze_inputs_synthesis_data.
  cbn [mbind result_bind].
  change (Synthesizer.analyze_prompt _ _ ?x) with (synthesizer_generate w x).
  destruct (synthesizer_generate w _); reflexivity.
Qed.

(** The fan-out stage when the three results are known. *)
Lemma _run_parallel_analysis_results (st : GraphState) (r0 r1 r2 : result pyval) :
  truthy (default PNone (slots st !! "stock_data")) = true ->
  fan_out_results w st = [r0; r1; r2] ->
  _run_parallel_analysis w st =
  try_except
    (for_enumerate
       (fun i result =>
          match result with
          | Raise e =>
              append_error (default EmptyString (agent_names !! i) +:+ " agent error: "
                              +:+ str_exn e)
          | Ok r =>
              store_result (default EmptyString (parallel_slots !! i))
                (default EmptyString (agent_names !! i)) "score" r
          end) [r0; r1; r2])
    (fun e => append_error ("Parallel analysis error: " +:+ str_exn e)) st.
Proof.
  intros Hsd Hres. unfold fan_out_results, slot_or_empty in Hres.
  injection Hres as H0 H1 H2.
  unfold _run_parallel_analysis, parallel_tasks, bundle, intel_bundle,
    or_empty_dict.
  run_stage. rewrite Hsd. cbn -[truthy].
  destruct (slots st !! "news_data") as [news|],
    (slots st !! "market_data") as [market|];
    cbn -[truthy] in H2 |- *; change (truthy PNone) with false;
    cbn -[truthy]; rewrite H0, H1, H2;
    destruct r0, r1, r2; reflexivity.
Qed.

(** C10.  In a state with stock data, let the three producers of the world
    be asked what the stage asks them ([fan_out_results]).  When producer
    [i] raises [e] and the two others return dicts, the stage returns
    normally; the two results are stored under their slots, the slot of
    producer [i] keeps its previous value, and the error list has grown by
    exactly one entry, tagged with the name of producer [i]. *)
Theorem fan_out_isolates_one_failure (st : GraphState) (i : nat) (e : exn)
    (name slot : string) :
  truthy (default PNone (slots st !! "stock_data")) = true ->
  fan_out_results w st !! i = Some (Raise e) ->
  (forall j r, j <> i -> fan_out_results w st !! j = Some r ->
               exists d, r = Ok (PDict d)) ->
  producer_names !! i = Some name ->
  parallel_slots !! i = Some slot ->
  exists st',
    _run_parallel_analysis w st = (Ok tt, st') /\
    errors st' = (errors st ++ [name +:+ " agent error: " +:+ str_exn e])%list /\
    slots st' !! slot = slots st !! slot /\
    (forall j r k, j <> i -> fan_out_results w st !! j = Some (Ok r) ->
                   parallel_slots !! j = Some k -> slots st' !! k = Some r).
Proof.
  intros Hsd Hi Hothers Hname Hslot.
  assert (exists r0 r1 r2, fan_out_results w st = [r0; r1; r2])
    as (r0 & r1 & r2 & Hres) by (by eexists _, _, _).
  rewrite (_run_parallel_analysis_results st r0 r1 r2 Hsd Hres).
  rewrite Hres in Hi, Hothers |- *.
  assert (forall j r, j <> i -> [r0; r1; r2] !! j = Some r ->
                      exists d, r = Ok (PDict d)) as Hdict by exact Hothers.
  destruct i as [|[|[|i]]]; simpl in Hi, Hname, Hslot; simplify_eq.
  - destruct (Hdict 1%nat _ ltac:(lia) eq_refl) as [d1 ->].
    destruct (Hdict 2%nat _ ltac:(lia) eq_refl) as [d2 ->].
    fan_out_done.
  - destruct (Hdict 0%nat _ ltac:(lia) eq_refl) as [d0 ->].
    destruct (Hdict 2%nat _ ltac:(lia) eq_refl) as [d2 ->].
    fan_out_done.
  - destruct (Hdict 0%nat _ ltac:(lia) eq_refl) as [d0 ->].
    destruct (Hdict 1%nat _ ltac:(lia) eq_refl) as [d1 ->].
    fan_out_done.
Qed.

(** The call in [_run_comparison_synthesis] never reaches [compare]: its
    first keyword is not a parameter of [compare]. *)
Lemma _run_comparison_synthesis_always_errors (st : GraphState) :
  _run_comparison_synthesis w st =
  (Ok tt, with_errors (fun l => (l ++ [comparison_error])%list) st).
Proof. reflexivity. Qed.

End Stage.

(** The technical producer raises; the fundamental and market-intel
    producers return. *)
Lemma fan_out_isolates_one_failure_witness :
  exists st',
    _run_parallel_analysis (fmt := PortfolioSpec.sample_format)
      technical_down_world collected_state = (Ok tt, st') /\
    errors st' = (errors collected_state
                  ++ ["Technical" +:+ " agent error: "
                        +:+ str_exn (Exn OtherError "timed out")])%list /\
    slots st' !! "technical_analysis"
      = slots collected_state !! "technical_analysis" /\
    (forall j r k, j <> 1%nat ->
       fan_out_results technical_down_world collected_state !! j = Some (Ok r) ->
       parallel_slots !! j = Some k -> slots st' !! k = Some r).
Proof.
  apply (fan_out_isolates_one_failure (fmt := PortfolioSpec.sample_format)
           technical_down_world collected_state 1 (Exn OtherError "timed out")
           "Technical" "technical_analysis").
  - reflexivity.
  - reflexivity.
  - intros [|[|[|j]]] r Hj Hr; [| lia | |discriminate Hr].
    + injection Hr as <-. eexists. reflexivity.
    + injection Hr as <-. eexists. reflexivity.
  - reflexivity.
  - reflexivity.
Defined.

(** C2 at the COMPARISON topology.  Every collector and producer of
    [all_ok_world] succeeds; the run on two tickers fills both stock-data
    slots and the four analysis slots, yet it ends with one error entry and
    with [synthesized_recommendation] still [None]. *)
Theorem comparison_run_with_all_successes :
  let final := run (fmt := PortfolioSpec.sample_format) all_ok_world
                 (intent_of COMPARISON ["TCS.NS"; "INFY.NS"]) None in
  errors final = [comparison_error] /\
  slots final !! "synthesized_recommendation" = Some PNone /\
  populated final "stock_data" /\
  populated final "stock_data_2" /\
  populated final "fundamental_analysis" /\
  populated final "technical_analysis" /\
  populated final "fundamental_analysis_2" /\
  populated final "technical_analysis_2".
Proof.
  cbv zeta. split; [vm_compute; reflexivity|].
  split; [vm_compute; reflexivity|].
  repeat split; (eexists; split; [vm_compute; reflexivity | discriminate]).
Qed.

End FlowFacts.

(* ===================================================================== *)
(** * Whole runs                                                          *)
(* ===================================================================== *)

Module RunFacts.
Import Routing Flow RoutingSpec FlowSpec FlowFacts.

(** ** Computations that leave the recommendation slot alone *)

Lemma keeps_ret {A} (a : A) : keeps_recommendation (mret a : M A).
Proof. by intros st. Qed.

Lemma keeps_lift {A} (r : result A) : keeps_recommendation (lift r).
Proof. by intros st. Qed.

Lemma keeps_gets {A} (f : GraphState -> A) : keeps_recommendation (gets f).
Proof. by intros st. Qed.

Lemma keeps_get_slot (k : string) : keeps_recommendation (get_slot k).
Proof. by intros st. Qed.

Lemma keeps_append_error (msg : string) : keeps_recommendation (append_error msg).
Proof. by intros st. Qed.

Lemma keeps_append_progress (msg : string) :
  keeps_recommendation (append_progress msg).
Proof. by intros st. Qed.

Lemma keeps_set_slot (k : string) (v : pyval) :
  k <> "synthesized_recommendation" -> keeps_recommendation (set_slot k v).
Proof. intros Hk st. cbn. by rewrite lookup_insert_ne. Qed.

Lemma keeps_bind {A B} (m : M A) (k : A -> M B) :
  keeps_recommendation m -> (forall a, keeps_recommendation (k a)) ->
  keeps_recommendation (m ≫= k).
Proof.
  intros Hm Hk st. specialize (Hm st).
  unfold mbind, M_bind. destruct (m st) as [[a|e] st']; cbn in *.
  - by rewrite Hk.
  - done.
Qed.

Lemma keeps_fmap {A B} (f : A -> B) (m : M A) :
  keeps_recommendation m -> keeps_recommendation (f <$> m).
Proof.
  intros Hm st. specialize (Hm st).
  unfold fmap, M_fmap. by destruct (m st) as [[a|e] st'].
Qed.

Lemma keeps_try_except (body : M unit) (handler : exn -> M unit) :
  keeps_recommendation body -> (forall e, keeps_recommendation (handler e)) ->
  keeps_recommendation (try_except body handler).
Proof.
  intros Hb Hh st. specialize (Hb st).
  unfold try_except. destruct (body st) as [[a|e] st']; cbn in *.
  - done.
  - by rewrite Hh.
Qed.

Ltac keeps_step :=
  first
    [ apply keeps_try_except; [|intros ?]
    | apply keeps_bind; [|intros ?]
    | apply keeps_fmap
    | apply keeps_get_slot
    | apply keeps_gets
    | apply keeps_lift
    | apply keeps_ret
    | apply keeps_append_error
    | apply keeps_append_progress
    | apply keeps_set_slot; done
    | case_match ].

Section Runs.
Context {fmt : PyFormat} (w : World).

Lemma keeps_store_result (slot label key : string) (r : pyval) :
  slot <> "synthesized_recommendation" ->
  keeps_recommendation (store_result slot label key r).
Proof. intros Hs. unfold store_result. repeat keeps_step. Qed.

Lemma keeps__collect_comparison_data :
  keeps_recommendation (_collect_comparison_data w).
Proof. unfold _collect_comparison_data. repeat keeps_step. Qed.

Lemma keeps__run_parallel_comparison_analysis :
  keeps_recommendation (_run_parallel_comparison_analysis w).
Proof.
  unfold _run_parallel_comparison_analysis.
  repeat first [apply keeps_store_result; done | keeps_step].
Qed.

(** A stage whose handler only appends an error entry returns normally. *)
Lemma try_except_returns (body : M unit) (f : exn -> string) (st : GraphState) :
  exists st', try_except body (fun e => append_error (f e)) st = (Ok tt, st').
Proof.
  unfold try_except. destruct (body st) as [[a|e] st']; eexists; reflexivity.
Qed.

Lemma _collect_comparison_data_returns (st : GraphState) :
  exists st', _collect_comparison_data w st = (Ok tt, st').
Proof. apply try_except_returns. Qed.

Lemma _run_parallel_comparison_analysis_returns (st : GraphState) :
  exists st', _run_parallel_comparison_analysis w st = (Ok tt, st').
Proof. apply try_except_returns. Qed.

Lemma bind_returns {B} (m : M unit) (k : unit -> M B) (st st' : GraphState) :
  m st = (Ok tt, st') -> (m ≫= k) st = k tt st'.
Proof. intros E. unfold mbind, M_bind. by rewrite E. Qed.

(** X9.  Every run of the COMPARISON topology, in every world, ends with an
    error entry and without a recommendation. *)
Theorem comparison_run_never_clean (intent : Intent) (uid : option string) :
  type intent = COMPARISON ->
  let final := run w intent uid in
  errors final <> [] /\
  slots final !! "synthesized_recommendation" = Some PNone.
Proof.
  intros Hty. unfold run. rewrite Hty.
  set (st0 := initial_state w intent uid).
  destruct (negb (truthy (PStr (ticker st0)))).
  - split; [|reflexivity]. cbn. by destruct (errors st0).
  - cbn [bool_decide decide_rel graph_map]. unfold comparison_graph, ainvoke.
    cbn [foldr snd].
    destruct (_collect_comparison_data_returns st0) as [st1 E1].
    destruct (_run_parallel_comparison_analysis_returns st1) as [st2 E2].
    pose proof (keeps__collect_comparison_data st0) as K1.
    pose proof (keeps__run_parallel_comparison_analysis st1) as K2.
    rewrite E1 in K1. rewrite E2 in K2. cbn in K1, K2.
    rewrite (bind_returns _ _ st0 st0 eq_refl).
    rewrite (bind_returns _ _ _ _ E1), (bind_returns _ _ _ _ E2).
    rewrite (bind_returns _ _ _ _ (_run_comparison_synthesis_always_errors w st2)).
    cbn. split.
    + by destruct (errors st2).
    + by rewrite K2, K1.
Qed.

Lemma truthy_not_none (v : pyval) : truthy v = true -> v <> PNone.
Proof. by intros Hv ->. Qed.

Lemma populated_intro (st : GraphState) (k : string) (v : pyval) :
  slots st !! k = Some v -> v <> PNone -> populated st k.
Proof. intros. by exists v. Qed.

(** Replaces the calls of the collaborators by the answers that the
    hypotheses give. *)
Ltac answer :=
  repeat match goal with
    | H : ?call = Ok _ |- context [?call] => rewrite H
    | H : truthy ?v = _ |- context [truthy ?v] => rewrite H
    | H : hist_count ?sd = S _ |- context [hist_count ?sd] => rewrite H
    | |- context [truthy (PDict ∅)] => change (truthy (PDict ∅)) with false
    end.

Ltac unfold_stages :=
  unfold _collect_price_data, _collect_stock_data, _collect_all_data,
    _run_single_agent, _run_parallel_analysis, _run_risk_analysis,
    _run_synthesis, parallel_tasks, bundle, intel_bundle.

Ltac eval_run :=
  repeat first
    [ rewrite lookup_insert_eq
    | rewrite lookup_insert_ne by done
    | rewrite lookup_empty
    | progress (cbn -[or_empty_dict truthy Synthesizer.analyze Nat.ltb])
    | progress answer
    | progress (unfold Synthesizer.analyze;
                rewrite analyze_inputs_synthesis_data;
                cbn [mbind result_bind]; unfold Synthesizer.analyze_prompt)
    | progress unfold or_empty_dict ].

(** Runs the first stage of a chain on an explicit state. *)
Ltac first_stage :=
  match goal with
  | |- context [(?m ≫= ?k) ?st] =>
      let E := fresh "E" in
      eassert (m st = (Ok tt, _)) as E;
      [ unfold_stages; run_stage; eval_run; reflexivity
      | rewrite (bind_returns m k st _ E); clear E ]
  end.

Ltac slot_populated :=
  eapply populated_intro;
  [ cbn; repeat first [rewrite lookup_insert_eq | rewrite lookup_insert_ne by done];
    reflexivity
  | first [ discriminate | assumption | by apply truthy_not_none ] ].

Ltac slots_populated :=
  repeat (apply Forall_cons_2; [slot_populated|]); apply Forall_nil_2.

Lemma has_history_succ (sd : StockData) :
  has_history sd -> exists n, hist_count sd = S n.
Proof.
  unfold has_history. destruct (hist_count sd) as [|n]; [lia|by exists n].
Qed.

(** The STANDARD / DEEP_DIVE chain from a fresh state. *)
Lemma full_analysis_clean (st : GraphState) :
  calls_succeed w FULL_ANALYSIS (ticker st) ->
  truthy (PStr (ticker st)) = true ->
  slots st = initial_slots ->
  errors st = [] ->
  exists st',
    ainvoke (full_analysis_graph w) st = (Ok tt, st') /\
    errors st' = [] /\
    Forall (populated st') (expected_slots FULL_ANALYSIS).
Proof.
  intros (sd & news & market & f & tc & mi & r & prompt & (Esd & Hdump)
          & (n & Hhist)%has_history_succ & Hctx
          & Ef & Etc & Emi & Er & (stock & price & Estock & Eprice)
          & Eprompt) Ht Hslots Herr.
  destruct st as [tk tk2 it uid sl er pr stt ep].
  cbn in Hslots, Herr, Ht, Esd, Hctx, Ef, Etc, Emi, Er. subst sl er.
  assert (Synthesizer._build_analysis_prompt (synthesizer_render w)
            (SynthesizerSpec.neutral_inputs (model_dump sd)) = Ok prompt)
    as Ebuild.
  { unfold Synthesizer._build_analysis_prompt. cbn [Synthesizer.p_stock_data
      SynthesizerSpec.neutral_inputs]. rewrite Estock.
    cbn [py_get mbind result_bind]. rewrite Eprice.
    cbn [py_get mbind result_bind]. rewrite <- Estock. exact Eprompt. }
  destruct Hctx as (Enews & Emarket & Hnews & Hmarket).
  unfold stock_question in Ef, Etc. unfold intel_question in Emi.
  unfold risk_question in Er.
  unfold ainvoke, full_analysis_graph, initial_slots, expected_slots.
  cbn [foldr snd]. do 4 first_stage.
  eexists. split; [reflexivity|].
  split; [reflexivity | slots_populated].
Qed.

(** X10.  The other four topologies.  When every call that the run makes
    is answered with a result that is not empty ([calls_succeed]: the
    collectors for the ticker, the producers on the bundles built from what
    was collected, the prompt of the synthesizer), a run for an intent type
    other than COMPARISON ends with no error entry and with every expected
    slot populated.  Nothing is asked of the world on other arguments. *)
Theorem other_runs_clean (intent : Intent) (uid : option string) (t : string) :
  head (tickers intent) = Some t ->
  t <> EmptyString ->
  calls_succeed w (type intent) t ->
  let final := run w intent uid in
  errors final = [] /\
  Forall (populated final) (expected_slots (type intent)).
Proof.
  intros Hhd Ht Hcalls. destruct intent as [ty tk q c a]. cbn in Hhd, Hcalls.
  destruct tk as [|t0 tk]; [done|]. injection Hhd as ->.
  apply String.eqb_neq in Ht.
  assert (truthy (PStr t) = true) as Htruthy by (cbn; by rewrite Ht).
  unfold run. cbv zeta. cbn [Routing.type Routing.tickers].
  set (st0 := initial_state w _ uid).
  assert (truthy (PStr (ticker st0)) = true) as -> by exact Htruthy.
  cbn [negb].
  destruct ty; cbn [calls_succeed] in Hcalls; try done;
    first [ rewrite (bool_decide_eq_true_2 _ eq_refl)
          | rewrite bool_decide_eq_false_2 by done ];
    cbn [graph_map expected_slots]; unfold deep_dive_graph.
  5-8: destruct (full_analysis_clean st0 Hcalls Htruthy eq_refl eq_refl)
         as (st' & E & Herr & Hpop);
       rewrite (bind_returns _ _ st0 st0 eq_refl), E; by split.
  - destruct Hcalls as (cached & Ec & Hc).
    subst st0; unfold initial_state, initial_slots;
      unfold ainvoke, price_graph; cbn [foldr snd].
    rewrite (bind_returns _ _ _ _ eq_refl).
    destruct Hc as [Hc | (price & Ep & Hp)]; [|destruct (truthy cached) eqn:Hc];
      first_stage; (split; [reflexivity | slots_populated]).
  - destruct Hcalls as (sd & d & (Esd & Hdump) & Ed & Hd).
    unfold stock_question in Ed.
    subst st0; unfold initial_state, initial_slots;
      unfold ainvoke, single_aspect_graph; cbn [foldr snd].
    rewrite (bind_returns _ _ _ _ eq_refl). do 2 first_stage.
    split; [reflexivity | slots_populated].
  - destruct Hcalls as (sd & d & (Esd & Hdump) & Ed & Hd).
    unfold stock_question in Ed.
    subst st0; unfold initial_state, initial_slots;
      unfold ainvoke, single_aspect_graph; cbn [foldr snd].
    rewrite (bind_returns _ _ _ _ eq_refl). do 2 first_stage.
    split; [reflexivity | slots_populated].
  - destruct Hcalls as (sd0 & sd & news & market & d & Esd0
                         & (n & Hhist0)%has_history_succ & Hctx
                         & (Esd & Hdump) & Ed & Hd).
    destruct Hctx as (Enews & Emarket & Hnews & Hmarket).
    unfold intel_question in Ed.
    subst st0; unfold initial_state, initial_slots;
      unfold ainvoke, single_aspect_graph; cbn [foldr snd].
    do 3 first_stage.
    split; [reflexivity | slots_populated].
Qed.

End Runs.

(** Stock data that comes back without price history is stored, and a
    warning is put on the error list: [calls_succeed] asks for a history. *)
Lemma missing_history_is_recorded :
  let final := run (fmt := PortfolioSpec.sample_format) no_history_world
                 (intent_of FULL_ANALYSIS ["TCS.NS"]) None in
  errors final =
    ["Warning: No historical data available for technical analysis"] /\
  populated final "stock_data" /\
  populated final "synthesized_recommendation".
Proof.
  cbv zeta. split; [vm_compute; reflexivity|].
  split; (eexists; split; [vm_compute; reflexivity | discriminate]).
Qed.

End RunFacts.

(* ===================================================================== *)
(** * More properties of the synthesizer: bounds and monotonicity         *)
(* ===================================================================== *)

Module ScoreFacts.
Import Synthesizer SynthesizerSpec SynthesizerFacts ScoreSpec.

Local Open Scope Qc_scope.

Lemma hundredths_mono (k k' : Z) :
  (k <= k')%Z -> Qc_of_Z k / Qc_of_Z 100 ≤ Qc_of_Z k' / Qc_of_Z 100.
Proof.
  intros H. unfold Qcdiv. apply Qcmult_le_mono_pos_r; [by vm_compute|].
  by apply (proj1 (Z2Qc_inj_le k k')).
Qed.

Lemma whole_as_hundredths (n : Z) :
  Qc_of_Z n = Qc_of_Z (n * 100) / Qc_of_Z 100.
Proof. rewrite Z2Qc_inj_mul. field. apply Qc_of_Z_100_neq_0. Qed.

(** Each weight set is a set of whole percentages that add up to 100. *)
Lemma weighted_sum_percent (w : Weights) :
  w = weights_long \/ w = weights_short \/ w = weights_swing ->
  exists p1 p2 p3 p4 : Z,
    (0 <= p1 /\ 0 <= p2 /\ 0 <= p3 /\ 0 <= p4 /\ p1 + p2 + p3 + p4 = 100)%Z /\
    forall a b c d,
      weighted_sum w a b c d
      = Qc_of_Z (a * p1 + b * p2 + c * p3 + d * p4) / Qc_of_Z 100.
Proof.
  unfold weighted_sum.
  intros [-> | [-> | ->]]; simpl.
  - exists 50%Z, 20%Z, 20%Z, 10%Z. split; [lia|]. intros.
    rewrite !Z2Qc_inj_add, !Z2Qc_inj_mul, dec_50, dec_20, dec_10.
    field. apply Qc_of_Z_100_neq_0.
  - exists 15%Z, 50%Z, 25%Z, 10%Z. split; [lia|]. intros.
    rewrite !Z2Qc_inj_add, !Z2Qc_inj_mul, dec_15, dec_50, dec_25, dec_10.
    field. apply Qc_of_Z_100_neq_0.
  - exists 30%Z, 40%Z, 20%Z, 10%Z. split; [lia|]. intros.
    rewrite !Z2Qc_inj_add, !Z2Qc_inj_mul, dec_30, dec_40, dec_20, dec_10.
    field. apply Qc_of_Z_100_neq_0.
Qed.

Lemma adjustment_range (signals : list string) :
  (0 <= adjustment signals <= 10)%Z.
Proof. rewrite adjustment_mixed. destruct (mixed signals); lia. Qed.

(** X28.  When the four scores are absent or between 0 and 100, the weighted
    average lies between 0 and 100 and the final score between 0 and
    110. *)
Theorem scores_in_range_bounds
    f t m r u sf st sm sr rating signal sentiment horizon :
  well_typed f t m r u sf st sm sr rating signal sentiment horizon ->
  in_range sf -> in_range st -> in_range sm -> in_range sr ->
  exists res,
    _calculate_weighted_scores (PDict f) (PDict t) (PDict m) (PDict r) (PDict u)
      = Ok res /\
    Qc_of_Z 0 ≤ weighted_average res /\ weighted_average res ≤ Qc_of_Z 100 /\
    Qc_of_Z 0 ≤ final_score res /\ final_score res ≤ Qc_of_Z 110.
Proof.
  unfold in_range. intros Hwt Hf Ht Hm Hr. eexists.
  split; [apply (calc_well_typed _ _ _ _ _ _ _ _ _ _ _ _ _ Hwt)|].
  cbn [weighted_average final_score].
  destruct (weighted_sum_percent _ (select_weights_cases (default "medium" horizon)))
    as (p1 & p2 & p3 & p4 & Hp & ->).
  pose proof (adjustment_range (signals_of rating signal sentiment)) as Hadj.
  set (adj := adjustment (signals_of rating signal sentiment)) in *.
  set (k := (default 50 sf * p1 + default 50 st * p2 + default 50 sm * p3
             + (100 - default 50 sr) * p4)%Z).
  assert (0 <= k <= 100 * 100)%Z as Hk by (subst k; nia).
  replace (Qc_of_Z k / Qc_of_Z 100 + Qc_of_Z adj)
    with (Qc_of_Z (k + adj * 100) / Qc_of_Z 100)
    by (rewrite Z2Qc_inj_add, Z2Qc_inj_mul; field; apply Qc_of_Z_100_neq_0).
  rewrite (whole_as_hundredths 0), (whole_as_hundredths 100),
    (whole_as_hundredths 110).
  repeat split; apply hundredths_mono; lia.
Qed.

(** X29.  For a fixed time horizon the weighted average is monotone: scores
    that are at least as high, with a risk score that is at most as high,
    give a weighted average that is at least as high.  With the same
    three signals the final score is monotone as well. *)
Theorem weighted_average_monotone
    f t m r f' t' m' r' u sf st sm sr sf' st' sm' sr'
    rating signal sentiment rating' signal' sentiment' horizon :
  well_typed f t m r u sf st sm sr rating signal sentiment horizon ->
  well_typed f' t' m' r' u sf' st' sm' sr' rating' signal' sentiment' horizon ->
  (default 50 sf <= default 50 sf')%Z ->
  (default 50 st <= default 50 st')%Z ->
  (default 50 sm <= default 50 sm')%Z ->
  (default 50 sr' <= default 50 sr)%Z ->
  exists res res',
    _calculate_weighted_scores (PDict f) (PDict t) (PDict m) (PDict r) (PDict u)
      = Ok res /\
    _calculate_weighted_scores (PDict f') (PDict t') (PDict m') (PDict r') (PDict u)
      = Ok res' /\
    weighted_average res ≤ weighted_average res' /\
    (signals_of rating signal sentiment = signals_of rating' signal' sentiment' ->
       final_score res ≤ final_score res').
Proof.
  intros Hwt Hwt' Hf Ht Hm Hr. eexists _, _.
  split; [apply (calc_well_typed _ _ _ _ _ _ _ _ _ _ _ _ _ Hwt)|].
  split; [apply (calc_well_typed _ _ _ _ _ _ _ _ _ _ _ _ _ Hwt')|].
  cbn [weighted_average final_score].
  destruct (weighted_sum_percent _ (select_weights_cases (default "medium" horizon)))
    as (p1 & p2 & p3 & p4 & Hp & Hsum).
  rewrite !Hsum.
  assert (default 50 sf * p1 + default 50 st * p2 + default 50 sm * p3
          + (100 - default 50 sr) * p4
          <= default 50 sf' * p1 + default 50 st' * p2 + default 50 sm' * p3
             + (100 - default 50 sr') * p4)%Z as Hk by nia.
  split; [by apply hundredths_mono|].
  intros <-. apply Qcplus_le_compat; [by apply hundredths_mono | apply Qcle_refl].
Qed.

Lemma upper_lower_ascii (c : ascii) :
  upper_ascii (lower_ascii c) = upper_ascii c.
Proof. by destruct c as [[] [] [] [] [] [] [] []]. Qed.

Lemma upper_upper_ascii (c : ascii) :
  upper_ascii (upper_ascii c) = upper_ascii c.
Proof. by destruct c as [[] [] [] [] [] [] [] []]. Qed.

Lemma upper_lower (s : string) : upper (lower s) = upper s.
Proof.
  unfold upper, lower. induction s as [|c s IH]; [done|].
  cbn. by rewrite upper_lower_ascii, IH.
Qed.

Lemma upper_upper (s : string) : upper (upper s) = upper s.
Proof.
  unfold upper. induction s as [|c s IH]; [done|].
  cbn. by rewrite upper_upper_ascii, IH.
Qed.

(** X30.  On an ASCII signal, [_normalize_signal] does not depend on the case of
    the signal and maps the normalized signal to itself; it raises on
    anything but a string. *)
Theorem normalize_signal_stable (s : string) :
  isascii s = true ->
  _normalize_signal (PStr (lower s)) = _normalize_signal (PStr s) /\
  _normalize_signal (PStr (upper s)) = _normalize_signal (PStr s) /\
  (forall x, _normalize_signal (PStr s) = Ok x ->
             _normalize_signal (PStr x) = Ok x) /\
  (forall v, (forall s', v <> PStr s') -> exists e, _normalize_signal v = Raise e).
Proof.
  intros _. split; [|split; [|split]].
  - unfold _normalize_signal, py_upper. cbn [mbind result_bind].
    by rewrite upper_lower.
  - unfold _normalize_signal, py_upper. cbn [mbind result_bind].
    by rewrite upper_upper.
  - intros x. rewrite _normalize_signal_str. intros [= <-].
    destruct (normalize_cases s) as [-> | [-> | ->]]; reflexivity.
  - intros v Hv. destruct v as [|z|s'|d]; try (by eexists).
    by destruct (Hv s').
Qed.

(** A rating in mixed case. *)
Lemma normalize_signal_stable_witness :
  _normalize_signal (PStr (lower "Strong Buy"))
  = _normalize_signal (PStr "Strong Buy") /\
  _normalize_signal (PStr (upper "Strong Buy"))
  = _normalize_signal (PStr "Strong Buy").
Proof.
  pose proof (normalize_signal_stable "Strong Buy" eq_refl) as (Hl & Hu & _).
  by split.
Defined.

Lemma scores_in_range_bounds_witness :
  exists res,
    _calculate_weighted_scores (PDict sample_fundamental) (PDict sample_technical)
      (PDict sample_market_intel) (PDict sample_risk) (PDict sample_context)
      = Ok res /\
    Qc_of_Z 0 ≤ weighted_average res /\ weighted_average res ≤ Qc_of_Z 100 /\
    Qc_of_Z 0 ≤ final_score res /\ final_score res ≤ Qc_of_Z 110.
Proof.
  apply (scores_in_range_bounds
           sample_fundamental sample_technical sample_market_intel
           sample_risk sample_context
           (Some 80%Z) (Some 40%Z) (Some 60%Z) (Some 30%Z)
           (Some "BUY") (Some "SELL") (Some "NEUTRAL") (Some "Long-term")).
  - split; reflexivity.
  - unfold in_range. cbn. lia.
  - unfold in_range. cbn. lia.
  - unfold in_range. cbn. lia.
  - unfold in_range. cbn. lia.
Defined.

(** The sample input against the input with the four best scores, both
    without a time horizon. *)
Lemma weighted_average_monotone_witness :
  exists res res',
    _calculate_weighted_scores (PDict sample_fundamental) (PDict sample_technical)
      (PDict sample_market_intel) (PDict sample_risk) (PDict ∅) = Ok res /\
    _calculate_weighted_scores (PDict top_fundamental) (PDict top_technical)
      (PDict top_market_intel) (PDict top_risk) (PDict ∅) = Ok res' /\
    weighted_average res ≤ weighted_average res' /\
    (signals_of (Some "BUY") (Some "SELL") (Some "NEUTRAL")
     = signals_of (Some "BUY") (Some "BUY") (Some "POSITIVE") ->
     final_score res ≤ final_score res').
Proof.
  apply (weighted_average_monotone
           sample_fundamental sample_technical sample_market_intel sample_risk
           top_fundamental top_technical top_market_intel top_risk ∅
           (Some 80%Z) (Some 40%Z) (Some 60%Z) (Some 30%Z)
           (Some 100%Z) (Some 100%Z) (Some 100%Z) (Some 0%Z)
           (Some "BUY") (Some "SELL") (Some "NEUTRAL")
           (Some "BUY") (Some "BUY") (Some "POSITIVE") None).
  - split; reflexivity.
  - split; reflexivity.
  - cbn. lia.
  - cbn. lia.
  - cbn. lia.
  - cbn. lia.
Defined.

End ScoreFacts.

(* ===================================================================== *)
(** * Properties of routing                                               *)
(* ===================================================================== *)

Module RouterFacts.
Import Routing Router RoutingSpec.

(** X11.  The progress message exists exactly for the intents that carry a
    ticker, whatever their type: without one the message for the
    COMPARISON path fails while the table of messages is built, so the
    default name [stock] is never shown.  Every intent that validation
    accepts, HELP apart, has a message. *)
Theorem get_progress_message_needs_ticker (intent : Intent) :
  ((exists msg, get_progress_message intent = Ok msg) <-> tickers intent <> []) /\
  (tickers intent = [] ->
     get_progress_message intent
     = Raise (Exn OtherError "list index out of range")) /\
  (fst (validate_intent intent) = true -> type intent <> HELP ->
     exists msg, get_progress_message intent = Ok msg).
Proof.
  assert (tickers intent <> [] -> exists msg, get_progress_message intent = Ok msg)
    as Hsome.
  { intros Hne. unfold get_progress_message, py_index.
    destruct (tickers intent) as [|t0 [|t1 tk]]; [done|..]; cbn;
      eexists; reflexivity. }
  assert (tickers intent = [] ->
          get_progress_message intent
          = Raise (Exn OtherError "list index out of range")) as Hnone.
  { intros E. unfold get_progress_message, py_index. by rewrite E. }
  split; [split|split].
  - intros [msg Hmsg] E. rewrite (Hnone E) in Hmsg. discriminate.
  - exact Hsome.
  - exact Hnone.
  - intros Hv Hh. apply Hsome. intros E.
    unfold validate_intent in Hv. rewrite E in Hv.
    destruct (type intent); cbn in Hv; done.
Qed.

(** An accepted HELP request without tickers has no progress message. *)
Lemma help_has_no_progress_message :
  validate_intent (intent_of HELP []) = (true, None) /\
  get_progress_message (intent_of HELP [])
  = Raise (Exn OtherError "list index out of range").
Proof. split; reflexivity. Qed.

(** X12.  Progress updates are shown for every intent type except PRICE_CHECK,
    that is, for every path except FAST; HELP and UNKNOWN intents fall
    back to the STANDARD route. *)
Theorem should_show_progress_unless_fast (intent : Intent) :
  (should_show_progress intent = true <-> type intent <> PRICE_CHECK) /\
  (should_show_progress intent = false <-> path (get_route intent) = FAST) /\
  (ROUTE_CONFIG (type intent) = None ->
     path (get_route intent) = STANDARD /\
     expected_time_seconds (get_route intent) = (15, 25)).
Proof.
  unfold should_show_progress, get_route.
  destruct (type intent); cbn; repeat split; intros; done.
Qed.

End RouterFacts.

(* ===================================================================== *)
(** * Properties of the handlers of the bot                               *)
(* ===================================================================== *)

Module BotFacts.
Import Routing Router Text Flow RoutingSpec Bot BotSpec RoutingFacts.

Section Handlers.
Context {fmt : PyFormat} (env : Env).

(** An analysis that has been started runs the graph once, on the intent
    it was started with. *)
Lemma run_analysis_runs_accepted (user_id : Z) (intent : Intent) :
  validate_intent intent = (true, None) ->
  runs_accepted user_id (_run_analysis env intent user_id).
Proof.
  intros Hv i u Hin. unfold _run_analysis in Hin.
  destruct (get_progress_message intent) as [msg|e] eqn:E.
  - fold (_run_analysis env intent user_id) in Hin.
    destruct (run_analysis_effects env user_id intent msg E)
      as (rest & Hrun & Hrest).
    unfold _run_analysis in Hrun. rewrite E in Hrun. rewrite Hrun in Hin.
    apply elem_of_cons in Hin as [Heq|Hin]; [discriminate Heq|].
    apply elem_of_cons in Hin as [[= -> ->]|Hin]; [done|].
    by apply Hrest in Hin.
  - apply list_elem_of_singleton in Hin. discriminate Hin.
Qed.

(** The intents that a button builds carry the tickers that the validation
    asks for. *)
Lemma callback_intent_accepted (data : string) (intent : Intent) :
  callback_intent data = Some intent ->
  validate_intent intent = (true, None).
Proof.
  unfold callback_intent, action_map.
  destruct (split_on "_" data) as [|action [|part1 [|part2 rest]]]; [done..| |];
    cbn [mbind option_bind]; repeat case_match; intros [= <-]; try done;
    simplify_eq; reflexivity.
Qed.

(** X31.  Whatever starts it, the graph runs only on an intent that
    [validate_intent] accepts, and for the user of the update: this holds
    of the commands and of free text, which validate, and of the inline
    buttons, which do not.  (The arguments of a command and the data of a
    button are taken to be ASCII text, as the tickers are their upper
    case.) *)
Theorem graph_runs_only_on_accepted_intents (user_id : Z) :
  (forall intent_type args,
     Forall (fun arg => isascii arg = true) args ->
     runs_accepted user_id (_handle_analysis env user_id intent_type args)) /\
  (forall text, runs_accepted user_id (handle_message env user_id text)) /\
  (forall data,
     isascii data = true ->
     runs_accepted user_id (handle_callback env user_id data)).
Proof.
  split; [|split].
  - intros ty args _. unfold _handle_analysis. rewrite after_validation.
    destruct (validate_intent _) as [[] msg] eqn:Ev.
    + apply run_analysis_runs_accepted.
      apply validate_intent_accepts. by rewrite Ev.
    + intros i u Hin. apply list_elem_of_singleton in Hin. discriminate Hin.
  - intros text. unfold handle_message. rewrite after_validation.
    destruct (validate_intent _) as [[] msg] eqn:Ev.
    + case_bool_decide.
      * intros i u Hin. apply list_elem_of_singleton in Hin. discriminate Hin.
      * apply run_analysis_runs_accepted.
        apply validate_intent_accepts. by rewrite Ev.
    + intros i u Hin. apply list_elem_of_singleton in Hin. discriminate Hin.
  - intros data _ i u Hin. unfold handle_callback in Hin.
    apply elem_of_cons in Hin as [Heq|Hin]; [discriminate Heq|].
    repeat case_match.
    + apply list_elem_of_singleton in Hin. discriminate Hin.
    + unfold _handle_example in Hin. repeat case_match;
        try (by apply elem_of_nil in Hin).
      apply list_elem_of_singleton in Hin. discriminate Hin.
    + apply list_elem_of_singleton in Hin. discriminate Hin.
    + match goal with
      | H : callback_intent data = Some ?x |- _ =>
          apply callback_intent_accepted in H;
          apply (run_analysis_runs_accepted user_id x H i u)
      end.
      unfold _run_analysis.
      by match goal with H : get_progress_message _ = _ |- _ => rewrite H end.
    + apply list_elem_of_singleton in Hin. discriminate Hin.
    + by apply elem_of_nil in Hin.
Qed.

End Handlers.

(** The button [compare_tcs_infy] starts a comparison of TCS and INFY. *)
Example callback_compare :
  exists rest,
    handle_callback (fmt := PortfolioSpec.sample_format) sample_env 42
      "compare_tcs_infy"
    = answer_callback
      :: reply_text "⏳ Comparing TCS vs INFY..." no_markup
      :: graph_run
           {| type := COMPARISON; tickers := ["TCS"; "INFY"];
              raw_query := "compare TCS INFY";
              confidence := Q2Qc 1.0; aspect := None |}
           (Some "42")
      :: rest.
Proof. eexists. vm_compute. reflexivity. Qed.

End BotFacts.

(* ===================================================================== *)
(** * Properties of the intent classifier                                 *)
(* ===================================================================== *)

Module ClassifierFacts.
Import Routing Text Classifier RoutingSpec ClassifierSpec.

Lemma lower_upper_ascii (c : ascii) : lower_ascii (upper_ascii c) = lower_ascii c.
Proof. by destruct c as [[] [] [] [] [] [] [] []]. Qed.

Lemma lower_upper (s : string) : lower (upper s) = lower s.
Proof.
  unfold upper, lower. induction s as [|c s IH]; [done|].
  cbn. by rewrite lower_upper_ascii, IH.
Qed.

Lemma lower_app (s1 s2 : string) : lower (s1 +:+ s2) = lower s1 +:+ lower s2.
Proof.
  unfold lower. induction s1 as [|c s1 IH]; [done|].
  change (String c s1 +:+ s2) with (String c (s1 +:+ s2)). cbn [str_map].
  rewrite IH. reflexivity.
Qed.

Lemma lower_slash (c : ascii) : c <> "/"%char -> lower_ascii c <> "/"%char.
Proof. destruct c as [[] [] [] [] [] [] [] []]; by vm_compute. Qed.

(** X13.  On ASCII text: every shortcut of the table is recognised, in any case
    and whatever text follows it (no white space is needed: [/portfolio]
    is a price check), and none is hidden by an earlier entry; the
    upper-cased query is the same command as the query; a query that does
    not start with a slash is no command. *)
Theorem check_command_prefixes (query : string) :
  isascii query = true ->
  (forall cmd intent,
     (cmd, intent) ∈ COMMAND_SHORTCUTS ->
     _check_command (cmd +:+ query) = (intent, Q2Qc 1.0) /\
     _check_command (upper cmd +:+ query) = (intent, Q2Qc 1.0)) /\
  _check_command (upper query) = _check_command query /\
  (startswith query "/" = false -> _check_command query = (UNKNOWN, Q2Qc 0.0)).
Proof.
  intros _. split; [|split].
  - intros cmd intent Hin.
    assert (_check_command (cmd +:+ query) = (intent, Q2Qc 1.0)) as H1.
    { unfold COMMAND_SHORTCUTS in Hin.
      repeat (apply elem_of_cons in Hin as [[= -> ->]|Hin];
              [unfold _check_command; rewrite lower_app; by destruct query|]).
      by apply elem_of_nil in Hin. }
    split; [exact H1|].
    unfold _check_command in *.
    by rewrite lower_app, lower_upper, <- lower_app.
  - unfold _check_command. by rewrite lower_upper.
  - unfold _check_command, startswith.
    destruct query as [|c q]; [reflexivity|]. intros Hpre.
    assert (c <> "/"%char) as Hne.
    { intros ->. cbn in Hpre. by destruct q. }
    apply lower_slash in Hne.
    unfold lower. cbn [str_map List.find COMMAND_SHORTCUTS fst String.prefix].
    destruct (ascii_dec "/" (lower_ascii c)) as [E|_]; [by destruct Hne|].
    reflexivity.
Qed.

Section Matching.
Context (search : IntentType -> string -> bool)
        (validate_ticker : string -> bool * option string * option string)
        (extract_tickers_from_text : string -> list string).

(** The first loop of [_extract_tickers] keeps every word. *)
Lemma words_all_kept (acc parts : list string) :
  foldl (fun tickers part =>
           let cleaned := strip_chars ",.!?" (upper part) in
           if truthy_triple (validate_ticker cleaned)
           then (tickers ++ [cleaned])%list else tickers) acc parts
  = (acc ++ map cleaned parts)%list.
Proof.
  revert acc. induction parts as [|p parts IH]; intros acc; cbn.
  - by rewrite app_nil_r.
  - rewrite IH. by rewrite <- app_assoc.
Qed.

(** The second loop only appends. *)
Lemma extracted_appended (acc extracted : list string) :
  acc `prefix_of`
  foldl (fun tickers ticker =>
           if bool_decide (ticker ∈ tickers) then tickers
           else (tickers ++ [ticker])%list) acc extracted.
Proof.
  revert acc. induction extracted as [|x l IH]; intros acc; cbn; [done|].
  case_bool_decide; [apply IH|].
  etrans; [|apply IH]. by apply prefix_app_r.
Qed.

Lemma take_2_prefix (a b : string) (l l' : list string) :
  (a :: b :: l) `prefix_of` l' -> take 2 l' = [a; b].
Proof. intros [k ->]. reflexivity. Qed.

Lemma extract_tickers_length (query : string) :
  (length (_extract_tickers validate_ticker extract_tickers_from_text query)
   <= 2)%nat.
Proof. unfold _extract_tickers. cbv zeta. rewrite length_take. lia. Qed.

Lemma extract_tickers_three (query w0 w1 w2 : string) (rest : list string) :
  split query = w0 :: w1 :: w2 :: rest ->
  _extract_tickers validate_ticker extract_tickers_from_text query
  = [cleaned w1; cleaned w2].
Proof.
  unfold _extract_tickers. cbv zeta.
  intros ->. cbn [drop]. rewrite words_all_kept.
  apply (take_2_prefix _ _ (map cleaned rest)). apply extracted_appended.
Qed.

(** X14.  On an ASCII query, [_extract_tickers] returns at most two tickers.
    Every word after the first counts as a ticker, whatever
    [validate_ticker] returns: in a query of three words or more the
    tickers are the second and the third word, upper-cased and without
    surrounding punctuation, and [extract_tickers_from_text] adds nothing;
    in a query of two words the first ticker is the second word. *)
Theorem extract_tickers_takes_words (query : string) :
  isascii query = true ->
  (length (_extract_tickers validate_ticker extract_tickers_from_text query)
   <= 2)%nat /\
  (forall w0 w1 w2 rest,
     split query = w0 :: w1 :: w2 :: rest ->
     _extract_tickers validate_ticker extract_tickers_from_text query
     = [cleaned w1; cleaned w2]) /\
  (forall w0 w1,
     split query = [w0; w1] ->
     head (_extract_tickers validate_ticker extract_tickers_from_text query)
     = Some (cleaned w1)).
Proof.
  intros _. split; [apply extract_tickers_length|].
  split; [intros w0 w1 w2 rest; apply extract_tickers_three|].
  intros w0 w1. unfold _extract_tickers. cbv zeta.
  intros ->. cbn [drop]. rewrite words_all_kept. cbn [map app].
  destruct (extracted_appended [cleaned w1]
              (extract_tickers_from_text query)) as [k ->].
  reflexivity.
Qed.

(** X15.  [_match_patterns] returns the first intent of [priority_order] one of
    whose patterns is found, and UNKNOWN when none is; the confidence is
    0.9 when exactly one intent has a pattern that is found. *)
Theorem match_patterns_by_priority (query : string) :
  let found := List.filter (fun intent => search intent query) PATTERNS_keys in
  fst (_match_patterns search query)
  = default UNKNOWN (List.find (fun p => search p query) priority_order) /\
  snd (_match_patterns search query)
  = match length found with
    | 0%nat => Q2Qc 0.0
    | 1%nat => Q2Qc 0.9
    | _ => Q2Qc 0.7
    end.
Proof.
  unfold _match_patterns, PATTERNS_keys, priority_order. cbn [List.filter List.find].
  destruct (search PRICE_CHECK query), (search TECHNICAL_ANALYSIS query),
    (search FUNDAMENTAL_ANALYSIS query), (search SENTIMENT_ANALYSIS query),
    (search FULL_ANALYSIS query), (search COMPARISON query),
    (search DEEP_DIVE query), (search HELP query); by vm_compute.
Qed.

(** The last step of [classify]. *)
Lemma classify_fallback (q : string) (t : IntentType) (c : Qc)
    (tk : list string) (a : option string) :
  let intent :=
    (let '(intent_type, confidence) :=
       (if bool_decide (t = UNKNOWN) && negb (length tk =? 0)%nat
        then (FULL_ANALYSIS, Q2Qc 0.6) else (t, c)) in
     {| type := intent_type; tickers := tk; raw_query := q;
        confidence := confidence; aspect := a |}) in
  tickers intent = tk /\ (type intent = UNKNOWN -> tk = []).
Proof.
  destruct tk as [|x tk]; cbn.
  - rewrite andb_false_r. by cbn.
  - rewrite andb_true_r. case_bool_decide; cbn; [done|]. by split.
Qed.

(** X16.  The classification of an ASCII query never has the type UNKNOWN
    together with tickers, and never more than two tickers.  A query of
    three words or more is always accepted by the validation: its second
    and third word are taken as the tickers. *)
Theorem classified_queries_validate (query : string) :
  isascii query = true ->
  let intent :=
    classify search validate_ticker extract_tickers_from_text query in
  (length (tickers intent) <= 2)%nat /\
  (type intent = UNKNOWN -> tickers intent = []) /\
  (forall w0 w1 w2 rest,
     split (strip query) = w0 :: w1 :: w2 :: rest ->
     tickers intent = [cleaned w1; cleaned w2] /\
     type intent <> UNKNOWN /\
     validate_intent intent = (true, None)).
Proof.
  intros _. cbv zeta.
  set (intent := classify search validate_ticker extract_tickers_from_text
                   query).
  set (found := _extract_tickers validate_ticker extract_tickers_from_text
                  (strip query)).
  assert (tickers intent = found /\
          (type intent = UNKNOWN -> tickers intent = [])) as [Htk Hunk].
  { subst intent found. unfold classify.
    destruct (_check_command (strip query)) as [t c].
    destruct (if bool_decide (t = UNKNOWN) then _ else _) as [t' c'].
    destruct (classify_fallback (strip query) t' c'
                (_extract_tickers validate_ticker extract_tickers_from_text
                   (strip query))
                (_determine_aspect t')) as [E1 E2].
    split; [exact E1|]. intros Hu. rewrite E1. by apply E2. }
  split; [|split].
  - rewrite Htk. apply extract_tickers_length.
  - exact Hunk.
  - intros w0 w1 w2 rest Hsplit.
    pose proof (extract_tickers_three (strip query) w0 w1 w2 rest Hsplit)
      as Hex.
    fold found in Hex. rewrite Hex in Htk.
    assert (type intent <> UNKNOWN) as Hty.
    { intros Hu. apply Hunk in Hu. by rewrite Hu in Htk. }
    split; [exact Htk|]. split; [exact Hty|].
    unfold validate_intent. rewrite Htk.
    rewrite (bool_decide_eq_false_2 _ Hty). cbn.
    destruct (type intent); cbn; done.
Qed.

End Matching.

(** The command [/P] followed by a ticker. *)
Lemma check_command_prefixes_witness :
  _check_command ("/p" +:+ " reliance") = (PRICE_CHECK, Q2Qc 1.0) /\
  _check_command ("/P" +:+ " reliance") = (PRICE_CHECK, Q2Qc 1.0).
Proof.
  apply (proj1 (check_command_prefixes " reliance" eq_refl) "/p" PRICE_CHECK).
  apply list_elem_of_here.
Defined.

(** A comparison command with a validator that rejects every ticker. *)
Lemma extract_tickers_takes_words_witness :
  _extract_tickers reject_all extract_none "/c tcs, infy wipro"
  = [cleaned "tcs,"; cleaned "infy"].
Proof.
  apply (proj1 (proj2 (extract_tickers_takes_words reject_all extract_none
                         "/c tcs, infy wipro" eq_refl))
           "/c" "tcs," "infy" ["wipro"]).
  reflexivity.
Defined.

(** A question in plain words is taken for a full analysis of its second
    and third word. *)
Lemma classified_queries_validate_witness :
  let intent := classify no_match reject_all extract_none
                  "Should I buy HDFC?" in
  tickers intent = [cleaned "I"; cleaned "buy"] /\
  type intent <> UNKNOWN /\
  validate_intent intent = (true, None).
Proof.
  apply (proj2 (proj2 (classified_queries_validate no_match reject_all
                         extract_none "Should I buy HDFC?" eq_refl))
           "Should" "I" "buy" ["HDFC?"]).
  reflexivity.
Defined.

(** A question in plain words: the tickers are its second and third
    word. *)
Example classify_plain_question :
  let intent := classify no_match reject_all extract_none
                  "Should I buy HDFC?" in
  type intent = FULL_ANALYSIS /\ tickers intent = ["I"; "BUY"] /\
  validate_intent intent = (true, None).
Proof. cbv zeta. repeat split; by vm_compute. Qed.

Example check_command_portfolio :
  _check_command "/portfolio" = (PRICE_CHECK, Q2Qc 1.0).
Proof. reflexivity. Qed.

End ClassifierFacts.

(* ===================================================================== *)
(** * More properties of the portfolio decision rules                     *)
(* ===================================================================== *)

Module DecisionFacts.
Import Portfolio PortfolioSpec DecisionSpec.

Local Open Scope Qc_scope.

Lemma Qcleb_true (x y : Qc) : Qcleb x y = true <-> x ≤ y.
Proof. unfold Qcleb. apply bool_decide_eq_true. Qed.

Lemma Qcleb_false (x y : Qc) : Qcleb x y = false <-> y < x.
Proof.
  unfold Qcleb. rewrite bool_decide_eq_false. split.
  - apply Qcnot_le_lt.
  - apply Qclt_not_le.
Qed.

Lemma Qcltb_true (x y : Qc) : Qcltb x y = true <-> x < y.
Proof. unfold Qcltb. apply bool_decide_eq_true. Qed.

Lemma Qcltb_false (x y : Qc) : Qcltb x y = false <-> y ≤ x.
Proof.
  unfold Qcltb. rewrite bool_decide_eq_false. split.
  - apply Qcnot_lt_le.
  - apply Qcle_not_lt.
Qed.

Lemma stop_hit_some (h : Holding) (p sl : Qc) :
  stop_hit h p = Some sl -> stop_rule_fires h p /\ stop_loss h = Some sl.
Proof.
  unfold stop_hit. destruct (stop_loss h) as [s|] eqn:E; [|done]. cbn.
  case_bool_decide as Hz; [done|]. cbn.
  destruct (Qcleb _ _) eqn:Hd; [|done]. intros [= <-].
  split; [|done]. exists s. by rewrite Qcleb_true in Hd.
Qed.

Lemma stop_hit_none (h : Holding) (p : Qc) :
  stop_hit h p = None <-> ~ stop_rule_fires h p.
Proof.
  split.
  - intros Hn (sl & Hsl & Hnz & Hd). unfold stop_hit in Hn. rewrite Hsl in Hn.
    cbn in Hn. rewrite (bool_decide_eq_false_2 _ Hnz) in Hn. cbn in Hn.
    apply Qcleb_true in Hd. by rewrite Hd in Hn.
  - intros Hn. destruct (stop_hit h p) as [sl|] eqn:E; [|done].
    by apply stop_hit_some in E as [? _].
Qed.

Lemma target_hit_true (h : Holding) (p : Qc) :
  target_hit h p = true <-> target_reached h p.
Proof.
  unfold target_hit, target_reached. split.
  - destruct (target_price h) as [tp|]; [|done]. cbn.
    case_bool_decide as Hz; [done|]. cbn. rewrite Qcleb_true. by exists tp.
  - intros (tp & -> & Hnz & Hle). cbn.
    rewrite (bool_decide_eq_false_2 _ Hnz). cbn. by apply Qcleb_true.
Qed.

Section MoreRules.
Context {fmt : PyFormat}.

(** Splits the body of [_determine_action] into its rules. *)
Ltac rules h p :=
  unfold _determine_action; fold (stop_hit h p); fold (target_hit h p);
  unfold py_lt, py_ge, and_then, as_int; cbn [mbind result_bind];
  repeat (case_match; cbn [mbind result_bind] in * ).

(** Turns the tests met on the way into comparisons. *)
Ltac tests_to_props :=
  repeat match goal with
         | H : Qcleb _ _ = true |- _ => apply Qcleb_true in H
         | H : Qcleb _ _ = false |- _ => apply Qcleb_false in H
         | H : Qcltb _ _ = true |- _ => apply Qcltb_true in H
         | H : Qcltb _ _ = false |- _ => apply Qcltb_false in H
         | H : _ && _ = true |- _ => apply andb_true_iff in H as [? ?]
         | H : _ && _ = false |- _ => apply andb_false_iff in H as [?|?]
         | H : (_ <? _)%Z = true |- _ => apply Z.ltb_lt in H
         | H : (_ <? _)%Z = false |- _ => apply Z.ltb_ge in H
         | H : (_ <=? _)%Z = true |- _ => apply Z.leb_le in H
         | H : (_ <=? _)%Z = false |- _ => apply Z.leb_gt in H
         end.

(** Comparisons of rationals: a goal that follows from the hypotheses, or
    hypotheses that contradict each other. *)
Ltac qc_order := unfold Qcle, Qclt in *; cbn in *; unfold inject_Z in *; lra.
Ltac qc_absurd := exfalso; qc_order.

Lemma target_hit_false (h : Holding) (p : Qc) :
  ~ target_reached h p -> target_hit h p = false.
Proof.
  intros Hn. destruct (target_hit h p) eqn:E; [|done].
  by apply target_hit_true in E.
Qed.

(** The two facts about a decision that the report relies on. *)
Lemma decision_urgency (h : Holding) (p pnl : Qc) (days : Z)
    (f t : option (gmap string pyval)) (u : pyval) (d : ActionDecision) :
  _determine_action h p pnl days f t u = Ok d ->
  action d <> REBALANCE /\
  (priority d = URGENT -> action d = STOP_LOSS_HIT \/ action d = BOOK_ALL).
Proof.
  rules h p; try done; intros [= <-]; cbn [action priority];
    (split; [done|]); intros; by auto.
Qed.

(** X17.  Whatever the inputs, a decision is never REBALANCE; it is URGENT only
    as STOP_LOSS_HIT or BOOK_ALL; it is STOP_LOSS_HIT exactly when the
    stop-loss rule applies; it is ADD_MORE only below a profit of 10%;
    it is BOOK_ALL only below a fundamental score of 40; and it carries at
    least one note. *)
Theorem decision_limits (h : Holding) (p pnl : Qc) (days : Z)
    (f t : option (gmap string pyval)) (u : pyval) (d : ActionDecision) :
  _determine_action h p pnl days f t u = Ok d ->
  action d <> REBALANCE /\
  (priority d = URGENT -> action d = STOP_LOSS_HIT \/ action d = BOOK_ALL) /\
  (action d = STOP_LOSS_HIT <-> stop_rule_fires h p) /\
  (action d = ADD_MORE -> pnl < Qc_of_Z 10) /\
  (action d = BOOK_ALL -> exists z, score_or_50 f = PInt z /\ (z < 40)%Z) /\
  notes d <> [].
Proof.
  rules h p; try done; intros [= <-]; cbn [action priority notes];
    tests_to_props;
    match goal with
    | H : stop_hit _ _ = Some _ |- _ => apply stop_hit_some in H as [Hfire _]
    | H : stop_hit _ _ = None |- _ => apply stop_hit_none in H
    end;
    (split; [done|]); (split; [intros; by auto|]);
    (split; [split; first [done | by intros ?]|]);
    (split; [first [done | intros _; assumption | intros _; qc_absurd]|]);
    (split; [first [done | intros _; eexists; split; [reflexivity | lia]]|]);
    done.
Qed.

(** X18.  With two integer scores a decision is always produced: the rules
    raise only where they compare a score that is not a number. *)
Theorem decision_exists_for_integer_scores (h : Holding) (p pnl : Qc)
    (days : Z) (f t : option (gmap string pyval)) (u : pyval) (zf zt : Z) :
  score_or_50 f = PInt zf ->
  score_or_50 t = PInt zt ->
  exists d, _determine_action h p pnl days f t u = Ok d.
Proof.
  intros Hf Ht. unfold _determine_action. rewrite Hf, Ht.
  unfold py_lt, py_ge, and_then, as_int; cbn [mbind result_bind].
  repeat (case_match; cbn [mbind result_bind] in * ); by eexists.
Qed.

(** X19.  When the stop-loss rule does not apply, the loss is smaller than 15%
    and the price has reached the target, half of the position is booked
    with priority HIGH, whatever the two analyses contain. *)
Theorem target_rule (h : Holding) (p pnl : Qc) (days : Z)
    (f t : option (gmap string pyval)) (u : pyval) :
  ~ stop_rule_fires h p ->
  Qc_of_Z (-15) < pnl ->
  target_reached h p ->
  exists d,
    _determine_action h p pnl days f t u = Ok d /\
    action d = BOOK_PARTIAL_50 /\ priority d = HIGH /\
    notes d = ["Consider moving to trailing stop"].
Proof.
  intros Hs Hpnl Ht. apply stop_hit_none in Hs. apply target_hit_true in Ht.
  apply Qcleb_false in Hpnl.
  unfold _determine_action; fold (stop_hit h p); fold (target_hit h p).
  rewrite Hs, Hpnl, Ht. by eexists.
Qed.

(** X20.  When neither the stop-loss rule nor the target rule applies and the
    profit is at least 25%, the decision follows the technical score:
    below 45 half of the position is booked with priority HIGH; otherwise
    a quarter is booked from a profit of 50% on, and a trailing stop is
    advised below, both with priority MEDIUM. *)
Theorem large_profit_rule (h : Holding) (p pnl : Qc) (days : Z)
    (f t : option (gmap string pyval)) (u : pyval) (score : Z) :
  ~ stop_rule_fires h p ->
  ~ target_reached h p ->
  Qc_of_Z 25 ≤ pnl ->
  score_or_50 t = PInt score ->
  exists d,
    _determine_action h p pnl days f t u = Ok d /\
    ((score < 45)%Z -> action d = BOOK_PARTIAL_50 /\ priority d = HIGH) /\
    ((45 <= score)%Z -> Qc_of_Z 50 ≤ pnl ->
       action d = BOOK_PARTIAL_25 /\ priority d = MEDIUM) /\
    ((45 <= score)%Z -> pnl < Qc_of_Z 50 ->
       action d = TRAILING_STOP /\ priority d = MEDIUM).
Proof.
  intros Hs Htg Hpnl Ht. apply stop_hit_none in Hs.
  apply target_hit_false in Htg.
  assert (Qcleb pnl (Qc_of_Z (-15)) = false) as Hloss
    by (apply Qcleb_false; qc_order).
  apply Qcleb_true in Hpnl.
  unfold _determine_action; fold (stop_hit h p); fold (target_hit h p).
  rewrite Hs, Hloss, Htg, Hpnl, Ht.
  unfold py_lt, as_int; cbn [mbind result_bind].
  destruct (score <? 45)%Z eqn:H45; tests_to_props.
  - eexists. split; [reflexivity|]. cbn. repeat split; intros; done || lia.
  - destruct (Qcleb (Qc_of_Z 50) pnl) eqn:H50; tests_to_props;
      (eexists; split; [reflexivity|]); cbn; repeat split; intros;
      first [done | lia | qc_absurd].
Qed.

(** X21.  When both analyses are missing (or carry no score) the two scores
    are 50, and unless the stop-loss or the target rule applies the
    decision follows the profit alone: HOLD up to a profit of 10%, a
    quarter booked from 10% to 25% and from 50% on, a trailing stop in
    between.  It is never BOOK_ALL and never ADD_MORE. *)
Theorem decision_without_scores (h : Holding) (p pnl : Qc) (days : Z)
    (f t : option (gmap string pyval)) (u : pyval) :
  score_or_50 f = PInt 50 ->
  score_or_50 t = PInt 50 ->
  ~ stop_rule_fires h p ->
  ~ target_reached h p ->
  exists d,
    _determine_action h p pnl days f t u = Ok d /\
    action d <> BOOK_ALL /\ action d <> ADD_MORE /\
    (pnl ≤ Qc_of_Z (-15) -> action d = HOLD /\ priority d = HIGH) /\
    (Qc_of_Z (-15) < pnl -> pnl < Qc_of_Z 10 ->
       action d = HOLD /\ priority d = LOW) /\
    (Qc_of_Z 10 ≤ pnl -> pnl < Qc_of_Z 25 ->
       action d = BOOK_PARTIAL_25 /\ priority d = MEDIUM) /\
    (Qc_of_Z 25 ≤ pnl -> pnl < Qc_of_Z 50 ->
       action d = TRAILING_STOP /\ priority d = MEDIUM) /\
    (Qc_of_Z 50 ≤ pnl -> action d = BOOK_PARTIAL_25 /\ priority d = MEDIUM).
Proof.
  intros Hf Ht Hs Htg. apply stop_hit_none in Hs.
  apply target_hit_false in Htg.
  unfold _determine_action; fold (stop_hit h p); fold (target_hit h p).
  rewrite Hs, Htg, Hf, Ht.
  unfold py_lt, py_ge, and_then, as_int; cbn [mbind result_bind].
  cbn [Z.ltb Z.leb Z.compare Pos.compare Pos.compare_cont].
  repeat (case_match; cbn [mbind result_bind] in * ); tests_to_props;
    (eexists; split; [reflexivity|]); cbn [action priority];
    repeat split; intros; first [done | qc_absurd].
Qed.

End MoreRules.

(** Bought at 100, now 80, fundamental score 30: everything is sold, with
    priority URGENT. *)
Lemma decision_limits_witness :
  let d := {| action := BOOK_ALL;
              reason := "Large loss (-20.0%) with weak fundamentals";
              priority := URGENT;
              notes := ["Fundamental score: 30/100"] |} in
  action d <> REBALANCE /\
  (priority d = URGENT -> action d = STOP_LOSS_HIT \/ action d = BOOK_ALL) /\
  (action d = STOP_LOSS_HIT <-> stop_rule_fires holding_in_loss (Qc_of_Z 80)) /\
  (action d = ADD_MORE ->
     pnl_percent_of holding_in_loss (Qc_of_Z 80) < Qc_of_Z 10) /\
  (action d = BOOK_ALL ->
     exists z, score_or_50 (Some (<["score" := PInt 30]> ∅)) = PInt z /\
               (z < 40)%Z) /\
  notes d <> [].
Proof.
  apply (decision_limits (fmt := sample_format) holding_in_loss (Qc_of_Z 80)
           (pnl_percent_of holding_in_loss (Qc_of_Z 80)) 0
           (Some (<["score" := PInt 30]> ∅)) None PNone).
  vm_compute. reflexivity.
Defined.

Lemma decision_exists_for_integer_scores_witness :
  exists d,
    _determine_action (fmt := sample_format) holding_in_loss (Qc_of_Z 105)
      (pnl_percent_of holding_in_loss (Qc_of_Z 105)) 0
      (Some (<["score" := PInt 72]> ∅)) (Some (<["score" := PInt 80]> ∅)) PNone
    = Ok d.
Proof.
  apply (decision_exists_for_integer_scores (fmt := sample_format)
           holding_in_loss (Qc_of_Z 105)
           (pnl_percent_of holding_in_loss (Qc_of_Z 105)) 0
           (Some (<["score" := PInt 72]> ∅)) (Some (<["score" := PInt 80]> ∅))
           PNone 72 80); reflexivity.
Defined.

(** Target 120, stop loss 80, bought at 100, now 125. *)
Lemma target_rule_witness :
  exists d,
    _determine_action (fmt := sample_format) holding_with_target (Qc_of_Z 125)
      (pnl_percent_of holding_with_target (Qc_of_Z 125)) 0
      (Some (<["score" := PStr "n/a"]> ∅)) None PNone = Ok d /\
    action d = BOOK_PARTIAL_50 /\ priority d = HIGH /\
    notes d = ["Consider moving to trailing stop"].
Proof.
  apply (target_rule (fmt := sample_format) holding_with_target (Qc_of_Z 125)
           (pnl_percent_of holding_with_target (Qc_of_Z 125)) 0
           (Some (<["score" := PStr "n/a"]> ∅)) None PNone).
  - intros (sl & Hsl & _ & Hd). injection Hsl as <-.
    apply Qcle_alt in Hd. by vm_compute in Hd.
  - by vm_compute.
  - exists (Qc_of_Z 120). split; [reflexivity|]. split; [discriminate|].
    apply Qcle_alt. by vm_compute.
Defined.

(** Bought at 100, now 160, technical score 60: a quarter is booked. *)
Lemma large_profit_rule_witness :
  exists d,
    _determine_action (fmt := sample_format) holding_in_loss (Qc_of_Z 160)
      (pnl_percent_of holding_in_loss (Qc_of_Z 160)) 0 None
      (Some (<["score" := PInt 60]> ∅)) PNone = Ok d /\
    ((60 < 45)%Z -> action d = BOOK_PARTIAL_50 /\ priority d = HIGH) /\
    ((45 <= 60)%Z ->
       Qc_of_Z 50 ≤ pnl_percent_of holding_in_loss (Qc_of_Z 160) ->
       action d = BOOK_PARTIAL_25 /\ priority d = MEDIUM) /\
    ((45 <= 60)%Z ->
       pnl_percent_of holding_in_loss (Qc_of_Z 160) < Qc_of_Z 50 ->
       action d = TRAILING_STOP /\ priority d = MEDIUM).
Proof.
  apply (large_profit_rule (fmt := sample_format) holding_in_loss (Qc_of_Z 160)
           (pnl_percent_of holding_in_loss (Qc_of_Z 160)) 0 None
           (Some (<["score" := PInt 60]> ∅)) PNone 60).
  - intros (sl & Hsl & _). discriminate Hsl.
  - intros (tp & Htp & _). discriminate Htp.
  - apply Qcle_alt. by vm_compute.
  - reflexivity.
Defined.

(** Both analyses missing, bought at 100, now 112. *)
Lemma decision_without_scores_witness :
  let pnl := pnl_percent_of holding_in_loss (Qc_of_Z 112) in
  exists d,
    _determine_action (fmt := sample_format) holding_in_loss (Qc_of_Z 112)
      pnl 0 None None PNone = Ok d /\
    action d <> BOOK_ALL /\ action d <> ADD_MORE /\
    (pnl ≤ Qc_of_Z (-15) -> action d = HOLD /\ priority d = HIGH) /\
    (Qc_of_Z (-15) < pnl -> pnl < Qc_of_Z 10 ->
       action d = HOLD /\ priority d = LOW) /\
    (Qc_of_Z 10 ≤ pnl -> pnl < Qc_of_Z 25 ->
       action d = BOOK_PARTIAL_25 /\ priority d = MEDIUM) /\
    (Qc_of_Z 25 ≤ pnl -> pnl < Qc_of_Z 50 ->
       action d = TRAILING_STOP /\ priority d = MEDIUM) /\
    (Qc_of_Z 50 ≤ pnl -> action d = BOOK_PARTIAL_25 /\ priority d = MEDIUM).
Proof.
  apply (decision_without_scores (fmt := sample_format) holding_in_loss
           (Qc_of_Z 112) (pnl_percent_of holding_in_loss (Qc_of_Z 112)) 0
           None None PNone).
  - reflexivity.
  - reflexivity.
  - intros (sl & Hsl & _). discriminate Hsl.
  - intros (tp & Htp & _). discriminate Htp.
Defined.

End DecisionFacts.

(* ===================================================================== *)
(** * Properties of the portfolio report                                  *)
(* ===================================================================== *)

Module WorkflowFacts.
Import Portfolio PortfolioSpec DecisionSpec DecisionFacts Workflow WorkflowSpec.

Local Open Scope Qc_scope.

(** ** The stable descending sort *)

Section Sorting.
Context {A : Type} (key : A -> Qc).

Lemma insert_desc_perm (x : A) (l : list A) : insert_desc key x l ≡ₚ x :: l.
Proof.
  induction l as [|y l IH]; cbn; [done|].
  destruct (Qcleb (key x) (key y)); [|done].
  rewrite IH. apply Permutation_swap.
Qed.

Lemma sorted_desc_perm (l : list A) : sorted_desc key l ≡ₚ l.
Proof.
  unfold sorted_desc.
  assert (forall acc, foldl (fun acc x => insert_desc key x acc) acc l ≡ₚ acc ++ l)
    as H.
  { induction l as [|x l IH]; intros acc; cbn.
    - by rewrite app_nil_r.
    - rewrite IH, insert_desc_perm. cbn. apply Permutation_middle. }
  apply (H []).
Qed.

Lemma insert_desc_sorted (x : A) (l : list A) :
  StronglySorted (fun a b => key b ≤ key a) l ->
  StronglySorted (fun a b => key b ≤ key a) (insert_desc key x l).
Proof.
  induction l as [|y l IH]; cbn; intros Hs.
  - repeat constructor.
  - apply StronglySorted_inv in Hs as [Hs Hy].
    destruct (Qcleb (key x) (key y)) eqn:E.
    + apply Qcleb_true in E. constructor; [by apply IH|].
      rewrite insert_desc_perm. by constructor.
    + apply Qcleb_false in E. apply Qclt_le_weak in E.
      constructor; [by constructor|]. constructor; [exact E|].
      eapply Forall_impl; [exact Hy|]. intros z Hz. cbn beta in *.
      by eapply Qcle_trans.
Qed.

Lemma sorted_desc_sorted (l : list A) :
  StronglySorted (fun a b => key b ≤ key a) (sorted_desc key l).
Proof.
  unfold sorted_desc.
  assert (forall acc,
            StronglySorted (fun a b => key b ≤ key a) acc ->
            StronglySorted (fun a b => key b ≤ key a)
              (foldl (fun acc x => insert_desc key x acc) acc l)) as H.
  { induction l as [|x l IH]; intros acc Hacc; cbn; [done|].
    apply IH. by apply insert_desc_sorted. }
  apply H. constructor.
Qed.

End Sorting.

(** ** Categories *)

Lemma action_value_inj (a b : PortfolioAction) :
  action_value a = action_value b -> a = b.
Proof. by destruct a, b. Qed.

Lemma tickers_with_cons (k : PortfolioAction) (a : StockAnalysis)
    (l : list StockAnalysis) :
  tickers_with k (a :: l)
  = ((if bool_decide (get_action a = k) then [get_ticker a] else [])
     ++ tickers_with k l)%list.
Proof. unfold tickers_with. cbn. by destruct (bool_decide _). Qed.

Lemma categorize_lookup (analyses : list StockAnalysis) (k : PortfolioAction) :
  _categorize_actions analyses !! action_value k
  = if bool_decide (k = REBALANCE) then None
    else Some (tickers_with k analyses).
Proof.
  unfold _categorize_actions. cbv zeta.
  set (c0 := list_to_map _).
  assert (forall (l : list StockAnalysis) (c : gmap string (list string))
                 (f : PortfolioAction -> list string),
            (forall k, c !! action_value k
                       = if bool_decide (k = REBALANCE) then None
                         else Some (f k)) ->
            forall k,
              foldl (fun categories analysis =>
                       match categories !! action_value (get_action analysis) with
                       | Some l0 =>
                           <[action_value (get_action analysis)
                               := (l0 ++ [get_ticker analysis])%list]> categories
                       | None => categories
                       end) c l !! action_value k
              = if bool_decide (k = REBALANCE) then None
                else Some (f k ++ tickers_with k l)%list) as Hfold.
  { induction l as [|a l IH]; intros c f Hc k'.
    - cbn. rewrite Hc. unfold tickers_with. cbn. by rewrite app_nil_r.
    - cbn [foldl]. rewrite tickers_with_cons, app_assoc.
      pose (f' := fun j => (f j ++ if bool_decide (get_action a = j)
                                   then [get_ticker a] else [])%list).
      apply (IH _ f'). subst f'. cbn beta.
      intros j. rewrite (Hc (get_action a)).
      case_bool_decide as Ha.
      + rewrite Hc. case_bool_decide as Hk; [done|].
        rewrite bool_decide_eq_false_2 by congruence. by rewrite app_nil_r.
      + destruct (decide (get_action a = j)) as [<-|Hne].
        * rewrite lookup_insert_eq. rewrite bool_decide_eq_false_2 by done.
          by rewrite bool_decide_eq_true_2.
        * rewrite lookup_insert_ne by (intros E; by apply action_value_inj in E).
          rewrite Hc. case_bool_decide; [done|].
          rewrite bool_decide_eq_false_2 by done. by rewrite app_nil_r. }
  rewrite (Hfold analyses c0 (fun _ => [])); [done|].
  intros k'. subst c0. by destruct k'.
Qed.

(** X23.  [_categorize_actions] files every analysis under its action, in the
    order of the analyses: each of the seven keys holds the tickers of the
    analyses with that action, a failure entry counting as HOLD.  An
    analysis whose action is REBALANCE is filed nowhere. *)
Theorem categorize_actions_files_by_action (analyses : list StockAnalysis) :
  (forall k, k ∈ category_keys ->
     _categorize_actions analyses !! action_value k
     = Some (tickers_with k analyses)) /\
  _categorize_actions analyses !! action_value REBALANCE = None /\
  (forall t e, _categorize_actions [Failed t e] !! action_value HOLD = Some [t]).
Proof.
  split; [|split].
  - intros k Hk. rewrite categorize_lookup.
    rewrite bool_decide_eq_false_2; [done|]. intros ->.
    unfold category_keys in Hk.
    repeat (apply elem_of_cons in Hk as [Hk|Hk]; [discriminate Hk|]).
    by apply elem_of_nil in Hk.
  - by rewrite categorize_lookup.
  - intros t e. by rewrite categorize_lookup.
Qed.

(** ** Insights *)

Lemma insights_fields (analyses : list StockAnalysis) (tv tp : Qc)
    (summary : gmap string (list string)) :
  let ins := _generate_portfolio_insights analyses tv tp summary in
  urgent_actions ins
  = length (List.filter
              (fun a => bool_decide (get_priority a = Some URGENT)) analyses) /\
  action_required_count ins
  = (length (default [] (summary !! action_value BOOK_ALL))
     + length (default [] (summary !! action_value STOP_LOSS_HIT))
     + length (default [] (summary !! action_value BOOK_PARTIAL_50)))%nat /\
  best_performers ins = map performer (take 3 (ranked analyses)) /\
  worst_performers ins
  = map performer (drop (length (ranked analyses) - 3) (ranked analyses)).
Proof.
  unfold _generate_portfolio_insights. cbv zeta. fold pnl_key.
  fold (ranked analyses). fold performer.
  assert ((if (3 <=? length (ranked analyses))%nat
           then take 3 (ranked analyses) else ranked analyses)
          = take 3 (ranked analyses)) as ->.
  { destruct (Nat.leb_spec 3 (length (ranked analyses))); [done|].
    rewrite take_ge; [done | lia]. }
  assert ((if (3 <=? length (ranked analyses))%nat
           then drop (length (ranked analyses) - 3) (ranked analyses)
           else ranked analyses)
          = drop (length (ranked analyses) - 3) (ranked analyses)) as ->.
  { destruct (Nat.leb_spec 3 (length (ranked analyses))); [done|].
    replace (length (ranked analyses) - 3)%nat with 0%nat by lia. done. }
  repeat case_match; simplify_eq; done.
Qed.

Lemma ranked_sorted (analyses : list StockAnalysis) :
  StronglySorted (fun a b => pnl_key b ≤ pnl_key a) (ranked analyses).
Proof. apply sorted_desc_sorted. Qed.

Lemma ranked_elem (analyses : list StockAnalysis) (a : StockAnalysis) :
  a ∈ ranked analyses <-> a ∈ analyses /\ is_Some (get_pnl_percent a).
Proof.
  unfold ranked. rewrite sorted_desc_perm.
  rewrite list_elem_of_In, filter_In, bool_decide_eq_true.
  by rewrite <- list_elem_of_In.
Qed.

(** X24.  The performers of the insights.  Both lists have at most three
    entries, in descending order of the profit percentage.  Every analysis
    with a profit percentage is among the best performers or is not above
    any of them, and is among the worst performers or is not below any of
    them. *)
Theorem performers_are_extremes (analyses : list StockAnalysis) (tv tp : Qc)
    (summary : gmap string (list string)) :
  let ins := _generate_portfolio_insights analyses tv tp summary in
  (length (best_performers ins) <= 3)%nat /\
  (length (worst_performers ins) <= 3)%nat /\
  descending (best_performers ins) /\
  descending (worst_performers ins) /\
  (forall a p, a ∈ analyses -> get_pnl_percent a = Some p ->
     (get_ticker a, p) ∈ best_performers ins \/
     forall b, b ∈ best_performers ins -> p ≤ snd b) /\
  (forall a p, a ∈ analyses -> get_pnl_percent a = Some p ->
     (get_ticker a, p) ∈ worst_performers ins \/
     forall b, b ∈ worst_performers ins -> snd b ≤ p).
Proof.
  cbv zeta.
  destruct (insights_fields analyses tv tp summary) as (_ & _ & -> & ->).
  set (l := ranked analyses). set (n := (length l - 3)%nat).
  pose proof (ranked_sorted analyses) as Hs. fold l in Hs.
  assert (forall a p, a ∈ analyses -> get_pnl_percent a = Some p ->
            a ∈ l /\ performer a = (get_ticker a, p)) as Hin.
  { intros a p Ha Hp. split.
    - apply ranked_elem. split; [done|]. by rewrite Hp.
    - unfold performer, pnl_key. by rewrite Hp. }
  assert (forall l', StronglySorted (fun a b => pnl_key b ≤ pnl_key a) l' ->
            descending (map performer l')) as Hdesc.
  { intros l' Hl'. unfold descending.
    apply (StronglySorted_fmap performer
             (fun a b => pnl_key b ≤ pnl_key a)); [|done].
    by intros x y. }
  split; [rewrite length_map, length_take; lia|].
  split; [rewrite length_map, length_drop; lia|].
  split.
  { apply Hdesc. rewrite <- (take_drop 3 l) in Hs.
    by apply StronglySorted_app_1_l in Hs. }
  split.
  { apply Hdesc. rewrite <- (take_drop n l) in Hs.
    by apply StronglySorted_app_1_r in Hs. }
  split.
  - intros a p Ha Hp. destruct (Hin a p Ha Hp) as [Hl Hperf].
    rewrite <- (take_drop 3 l) in Hl, Hs.
    apply elem_of_app in Hl as [Hl|Hl].
    + left. rewrite <- Hperf. by apply list_elem_of_fmap_2.
    + right. intros b Hb. apply list_elem_of_fmap in Hb as (x & -> & Hx).
      pose proof (StronglySorted_app_1_elem_of _ _ _ _ _ Hs Hx Hl) as Hle.
      cbn in Hle |- *. unfold pnl_key at 1 in Hle. by rewrite Hp in Hle.
  - intros a p Ha Hp. destruct (Hin a p Ha Hp) as [Hl Hperf].
    rewrite <- (take_drop n l) in Hl, Hs.
    apply elem_of_app in Hl as [Hl|Hl].
    + right. intros b Hb. apply list_elem_of_fmap in Hb as (x & -> & Hx).
      pose proof (StronglySorted_app_1_elem_of _ _ _ _ _ Hs Hl Hx) as Hle.
      cbn in Hle |- *. unfold pnl_key at 2 in Hle. by rewrite Hp in Hle.
    + left. rewrite <- Hperf. by apply list_elem_of_fmap_2.
Qed.

Lemma filed_length (l : list StockAnalysis) :
  Forall (fun e => get_action e <> REBALANCE) l ->
  filed (_categorize_actions l) = length l.
Proof.
  intros Hall. unfold filed, category_keys. cbn [foldr].
  rewrite !categorize_lookup.
  rewrite !bool_decide_eq_false_2 by done. cbn [from_option id].
  induction Hall as [|a l Ha Hall IH]; [done|].
  rewrite !tickers_with_cons, !length_app. cbn [length]. rewrite <- IH.
  destruct (get_action a); try done;
    repeat (case_bool_decide; try done); cbn [length]; lia.
Qed.

Lemma urgent_bound (l : list StockAnalysis) :
  Forall (fun e => get_priority e = Some URGENT ->
                   get_action e = STOP_LOSS_HIT \/ get_action e = BOOK_ALL) l ->
  (length (List.filter (fun a => bool_decide (get_priority a = Some URGENT)) l)
   <= length (tickers_with BOOK_ALL l) + length (tickers_with STOP_LOSS_HIT l))%nat.
Proof.
  intros Hall. induction Hall as [|a l Ha Hall IH]; [done|].
  rewrite !tickers_with_cons, !length_app. cbn [List.filter].
  case_bool_decide as Hu.
  - destruct (Ha Hu) as [-> | ->];
      repeat (case_bool_decide; try done); cbn [length]; lia.
  - destruct (bool_decide (get_action a = BOOK_ALL)),
      (bool_decide (get_action a = STOP_LOSS_HIT)); cbn; lia.
Qed.

(** ** The loop over the holdings *)

Section Report.
Context {fmt : PyFormat} (w : World).

Lemma Qc_add_0 (x : Qc) : x + Q2Qc 0 = x.
Proof. ring. Qed.

Lemma add_if_truthy (s x : Qc) :
  (if truthy_float (Some x) then s + x else s) = s + x.
Proof. cbn. case_bool_decide as E; cbn; [rewrite E; ring | done]. Qed.

Lemma analyze_step_entry (user : pyval) (acc : list StockAnalysis)
    (tv tp : Qc) (h : Holding) :
  analyze_step w user (acc, tv, tp) h
  = ((acc ++ [entry_of w user h])%list,
     tv + value_of (entry_of w user h), tp + pnl_of (entry_of w user h)).
Proof.
  unfold analyze_step, entry_of.
  destruct (_analyze_single_holding w h user) as [[a|t e]|e]; cbn -[truthy_float].
  - by rewrite !add_if_truthy.
  - unfold value_of, pnl_of. cbn. by rewrite !Qc_add_0.
  - unfold value_of, pnl_of. cbn. by rewrite !Qc_add_0.
Qed.

Lemma analyze_loop (user : pyval) (holdings : list Holding)
    (acc : list StockAnalysis) (tv tp : Qc) :
  foldl (analyze_step w user) (acc, tv, tp) holdings
  = ((acc ++ map (entry_of w user) holdings)%list,
     tv + total value_of (map (entry_of w user) holdings),
     tp + total pnl_of (map (entry_of w user) holdings)).
Proof.
  revert acc tv tp. induction holdings as [|h l IH]; intros acc tv tp;
    cbn [foldl map]; unfold total; cbn [foldr].
  - by rewrite app_nil_r, !Qc_add_0.
  - rewrite analyze_step_entry, IH. rewrite <- app_assoc. cbn [app].
    unfold total. by rewrite !Qcplus_assoc.
Qed.

(** What an entry says about its holding. *)
Lemma entry_shape (user : pyval) (h : Holding) :
  let e := entry_of w user h in
  get_ticker e = Portfolio.ticker h /\
  get_action e <> REBALANCE /\
  (get_priority e = Some URGENT ->
     get_action e = STOP_LOSS_HIT \/ get_action e = BOOK_ALL).
Proof.
  unfold entry_of, _analyze_single_holding. cbv zeta.
  destruct (get_stock_data w (Portfolio.ticker h) true) as [[q|]|e];
    cbn [mbind result_bind].
  2,3: cbn; repeat split; done.
  destruct (days_held w h) as [d|e]; cbn [mbind result_bind].
  2: cbn; repeat split; done.
  match goal with
  | |- context [_determine_action ?x1 ?x2 ?x3 ?x4 ?x5 ?x6 ?x7] =>
      destruct (_determine_action x1 x2 x3 x4 x5 x6 x7) as [dec|err] eqn:Hdec
  end; cbn [mbind result_bind].
  2: cbn; repeat split; done.
  apply decision_urgency in Hdec as (Hre & Hurg).
  cbn. repeat split; try done. intros [= Hp]. by apply Hurg.
Qed.

Lemma invested_foldl (holdings : list Holding) (s : Qc) :
  foldl (fun s h => s + Qc_of_Z (quantity h) * avg_price h) s holdings
  = s + invested holdings.
Proof.
  revert s. unfold invested.
  induction holdings as [|h l IH]; intros s; cbn [foldl foldr]; [ring|].
  rewrite IH. ring.
Qed.

(** The report, when the user exists and holds something. *)
Lemma analyze_portfolio_report (telegram_id : Z) (user : pyval)
    (holdings : list Holding) :
  get_user w telegram_id = Ok user ->
  truthy user = true ->
  get_portfolio w telegram_id = Ok holdings ->
  holdings <> [] ->
  exists report,
    analyze_portfolio w telegram_id = Ok (ReportOk report) /\
    stock_analyses report = map (entry_of w user) holdings /\
    total_holdings report = length holdings /\
    total_invested report = invested holdings /\
    total_value report = total value_of (stock_analyses report) /\
    total_pnl report = total pnl_of (stock_analyses report) /\
    actions_summary report = _categorize_actions (stock_analyses report) /\
    exists tv tp,
      portfolio_insights report
      = _generate_portfolio_insights (stock_analyses report) tv tp
          (actions_summary report).
Proof.
  intros Hu Ht Hp Hne. unfold analyze_portfolio.
  rewrite Hu. cbn [mbind result_bind]. rewrite Ht. cbn [negb].
  rewrite Hp. cbn [mbind result_bind].
  destruct holdings as [|h0 l]; [done|]. cbn [length Nat.eqb].
  rewrite analyze_loop. rewrite invested_foldl.
  cbn [app].
  destruct (save_analysis w _); eexists; (split; [reflexivity|]);
    cbn [stock_analyses total_holdings total_invested total_value total_pnl
         actions_summary portfolio_insights];
    (repeat split; try ring; try reflexivity); by eexists _, _.
Qed.

(** X25.  When the user exists and holds something, [analyze_portfolio] returns
    a report, whatever the collaborators do: the report has one entry per
    holding, in the order of the holdings and under the ticker of the
    holding; an analysis that raises becomes a failure entry and does not
    stop the loop; and no failure to save the report is passed on. *)
Theorem report_has_entry_per_holding (telegram_id : Z) (user : pyval)
    (holdings : list Holding) :
  get_user w telegram_id = Ok user ->
  truthy user = true ->
  get_portfolio w telegram_id = Ok holdings ->
  holdings <> [] ->
  exists report,
    analyze_portfolio w telegram_id = Ok (ReportOk report) /\
    stock_analyses report = map (entry_of w user) holdings /\
    map get_ticker (stock_analyses report) = map Portfolio.ticker holdings /\
    total_holdings report = length (stock_analyses report).
Proof.
  intros Hu Ht Hp Hne.
  destruct (analyze_portfolio_report _ _ _ Hu Ht Hp Hne)
    as (report & E & Hs & Hn & _).
  exists report. split; [exact E|]. split; [exact Hs|]. rewrite Hs. split.
  - rewrite <- list_fmap_compose. apply list_fmap_ext. intros i h _.
    apply entry_shape.
  - by rewrite length_map.
Qed.

(** X27.  In a report every holding is filed under exactly one of the seven
    actions, and every entry that is URGENT is counted among the actions
    required. *)
Theorem report_counts (telegram_id : Z) (user : pyval)
    (holdings : list Holding) :
  get_user w telegram_id = Ok user ->
  truthy user = true ->
  get_portfolio w telegram_id = Ok holdings ->
  holdings <> [] ->
  exists report,
    analyze_portfolio w telegram_id = Ok (ReportOk report) /\
    filed (actions_summary report) = length holdings /\
    (urgent_actions (portfolio_insights report)
     <= action_required_count (portfolio_insights report))%nat.
Proof.
  intros Hu Ht Hp Hne.
  destruct (analyze_portfolio_report _ _ _ Hu Ht Hp Hne)
    as (report & E & Hs & _ & _ & _ & _ & Hsum & tv & tp & Hins).
  exists report. split; [exact E|]. rewrite Hins, Hsum, Hs.
  destruct (insights_fields (map (entry_of w user) holdings) tv tp
              (_categorize_actions (map (entry_of w user) holdings)))
    as (-> & -> & _).
  split.
  - rewrite filed_length; [by rewrite length_map|].
    apply Forall_forall. intros e He.
    apply list_elem_of_fmap in He as (h & -> & _). apply entry_shape.
  - rewrite !categorize_lookup.
    rewrite !bool_decide_eq_false_2 by done. cbn [from_option id].
    etrans; [apply urgent_bound|lia].
    apply Forall_forall. intros e He.
    apply list_elem_of_fmap in He as (h & -> & _). apply entry_shape.
Qed.

End Report.

(** Two holdings; the quote of the second one cannot be fetched, the
    technical producer raises and the report cannot be saved. *)
Lemma report_has_entry_per_holding_witness :
  exists report,
    analyze_portfolio (fmt := sample_format) sample_world 1
    = Ok (ReportOk report) /\
    stock_analyses report
    = map (entry_of (fmt := sample_format) sample_world (PStr "user"))
        sample_holdings /\
    map get_ticker (stock_analyses report)
    = map Portfolio.ticker sample_holdings /\
    total_holdings report = length (stock_analyses report).
Proof.
  apply (report_has_entry_per_holding (fmt := sample_format) sample_world 1
           (PStr "user") sample_holdings).
  - reflexivity.
  - reflexivity.
  - reflexivity.
  - discriminate.
Defined.

Lemma report_counts_witness :
  exists report,
    analyze_portfolio (fmt := sample_format) sample_world 1
    = Ok (ReportOk report) /\
    filed (actions_summary report) = length sample_holdings /\
    (urgent_actions (portfolio_insights report)
     <= action_required_count (portfolio_insights report))%nat.
Proof.
  apply (report_counts (fmt := sample_format) sample_world 1
           (PStr "user") sample_holdings).
  - reflexivity.
  - reflexivity.
  - reflexivity.
  - discriminate.
Defined.

(** The report of the example: the first holding is up 30% and gets a
    trailing stop, the second is a failure entry filed under HOLD; the
    total profit of 300 is set against the 2000 invested in both. *)
Example sample_report :
  match analyze_portfolio (fmt := sample_format) sample_world 1 with
  | Ok (ReportOk report) =>
      map get_action (stock_analyses report) = [TRAILING_STOP; HOLD] /\
      stock_analyses report !! 1%nat = Some (Failed "XYZ.NS" "no quote") /\
      total_value report = Qc_of_Z 1300 /\
      total_pnl report = Qc_of_Z 300 /\
      total_invested report = Qc_of_Z 2000 /\
      total_pnl_percent report = Qc_of_Z 15
  | _ => False
  end.
Proof.
  vm_compute. repeat split; apply Qc_is_canon; reflexivity.
Qed.

End WorkflowFacts.

Module StageFacts.
Import Routing Flow SynthesizerSpec RoutingSpec FlowSpec FlowFacts RunFacts StageLogic.

Section Generic.
Context (R : relation GraphState) `{!PreOrder R}.

Lemma preserves_ret {A} (a : A) : preserves R (mret a : M A).
Proof. intros st. reflexivity. Qed.

Lemma preserves_lift {A} (r : result A) : preserves R (lift r).
Proof. intros st. reflexivity. Qed.

Lemma preserves_gets {A} (f : GraphState -> A) : preserves R (gets f).
Proof. intros st. reflexivity. Qed.

Lemma preserves_get_slot (k : string) : preserves R (get_slot k).
Proof. intros st. reflexivity. Qed.

Lemma preserves_bind {A B} (m : M A) (k : A -> M B) :
  preserves R m -> (forall a, preserves R (k a)) -> preserves R (m ≫= k).
Proof.
  intros Hm Hk st. specialize (Hm st).
  unfold mbind, M_bind. destruct (m st) as [[a|e] st']; cbn in *.
  - etrans; [exact Hm | apply Hk].
  - exact Hm.
Qed.

Lemma preserves_fmap {A B} (f : A -> B) (m : M A) :
  preserves R m -> preserves R (f <$> m).
Proof.
  intros Hm st. specialize (Hm st).
  unfold fmap, M_fmap. by destruct (m st) as [[a|e] st'].
Qed.

Lemma preserves_try_except (body : M unit) (handler : exn -> M unit) :
  preserves R body -> (forall e, preserves R (handler e)) ->
  preserves R (try_except body handler).
Proof.
  intros Hb Hh st. specialize (Hb st).
  unfold try_except. destruct (body st) as [[a|e] st']; cbn in *.
  - exact Hb.
  - etrans; [exact Hb | apply Hh].
Qed.

End Generic.

Lemma extends_append_error (msg : string) : preserves extends (append_error msg).
Proof. intros st. repeat split; cbn; try done. by apply prefix_app_r. Qed.

Lemma extends_append_progress (msg : string) :
  preserves extends (append_progress msg).
Proof. intros st. repeat split; cbn; try done. by apply prefix_app_r. Qed.

Lemma extends_set_slot (k : string) (v : pyval) : preserves extends (set_slot k v).
Proof. intros st. by repeat split. Qed.

Lemma same_outside_append_error keys (msg : string) :
  preserves (same_outside keys) (append_error msg).
Proof. by intros st k Hk. Qed.

Lemma same_outside_append_progress keys (msg : string) :
  preserves (same_outside keys) (append_progress msg).
Proof. by intros st k Hk. Qed.

Lemma same_outside_set_slot keys (k : string) (v : pyval) :
  k ∈ keys -> preserves (same_outside keys) (set_slot k v).
Proof.
  intros Hin st k' Hk'. cbn. rewrite lookup_insert_ne; [done|].
  intros ->. by apply Hk'.
Qed.

Ltac in_keys := repeat first [apply list_elem_of_here | apply list_elem_of_further].

Ltac preserves_step :=
  first
    [ apply preserves_try_except; [apply _| |intros ?]
    | apply preserves_bind; [apply _| |intros ?]
    | apply preserves_fmap; [apply _|]
    | apply preserves_get_slot; apply _
    | apply preserves_gets; apply _
    | apply preserves_lift; apply _
    | apply preserves_ret; apply _
    | apply extends_append_error
    | apply extends_append_progress
    | apply extends_set_slot
    | apply same_outside_append_error
    | apply same_outside_append_progress
    | apply same_outside_set_slot; in_keys
    | progress cbn [compose Nat.eqb]
    | case_match ].

Ltac preserves_tac := unfold store_result, for_enumerate; cbn [imap foldr];
  repeat preserves_step.

Lemma ignores_ret {A} (a : A) : ignores_intent (mret a : M A).
Proof. by intros i p st. Qed.

Lemma ignores_lift {A} (r : result A) : ignores_intent (lift r).
Proof. by intros i p st. Qed.

Lemma ignores_gets {A} (f : GraphState -> A) :
  (forall i p st, f (retag i p st) = f st) -> ignores_intent (gets f).
Proof. intros Hf i p st. unfold gets. cbn. by rewrite Hf. Qed.

Lemma ignores_get_slot (k : string) : ignores_intent (get_slot k).
Proof. by intros i p st. Qed.

Lemma ignores_set_slot (k : string) (v : pyval) : ignores_intent (set_slot k v).
Proof. by intros i p st. Qed.

Lemma ignores_append_error (msg : string) : ignores_intent (append_error msg).
Proof. by intros i p st. Qed.

Lemma ignores_append_progress (msg : string) :
  ignores_intent (append_progress msg).
Proof. by intros i p st. Qed.

Lemma ignores_bind {A B} (m : M A) (k : A -> M B) :
  ignores_intent m -> (forall a, ignores_intent (k a)) ->
  ignores_intent (m ≫= k).
Proof.
  intros Hm Hk i p st. unfold mbind, M_bind. rewrite Hm.
  destruct (m st) as [[a|e] st']; cbn; [apply Hk | reflexivity].
Qed.

Lemma ignores_fmap {A B} (f : A -> B) (m : M A) :
  ignores_intent m -> ignores_intent (f <$> m).
Proof.
  intros Hm i p st. unfold fmap, M_fmap. rewrite Hm.
  by destruct (m st) as [[a|e] st'].
Qed.

Lemma ignores_try_except (body : M unit) (handler : exn -> M unit) :
  ignores_intent body -> (forall e, ignores_intent (handler e)) ->
  ignores_intent (try_except body handler).
Proof.
  intros Hb Hh i p st. unfold try_except. rewrite Hb.
  destruct (body st) as [[a|e] st']; cbn; [reflexivity | apply Hh].
Qed.

Ltac ignores_step :=
  first
    [ apply ignores_try_except; [|intros ?]
    | apply ignores_bind; [|intros ?]
    | apply ignores_fmap
    | apply ignores_get_slot
    | apply ignores_gets; reflexivity
    | apply ignores_lift
    | apply ignores_ret
    | apply ignores_append_error
    | apply ignores_append_progress
    | apply ignores_set_slot
    | progress cbn [compose Nat.eqb]
    | case_match ].

Ltac ignores_tac := unfold store_result, for_enumerate; cbn [imap foldr];
  repeat ignores_step.

Section Stages.
Context {fmt : PyFormat} (w : World).

Lemma try_except_append_error_returns (body : M unit) (f : exn -> string) :
  returns (try_except body (fun e => append_error (f e))).
Proof. intros st. unfold try_except. by destruct (body st) as [[a|e] st']. Qed.

(** Each node is a [try] whose handler appends one error entry. *)
Lemma nodes_return (t : IntentType) :
  Forall (fun node => returns (snd node)) (graph_map w t).
Proof.
  destruct t; unfold graph_map, deep_dive_graph, price_graph,
      single_aspect_graph, full_analysis_graph, comparison_graph;
    repeat (apply Forall_cons_2; [cbn [snd]|]); try apply Forall_nil_2;
    apply try_except_append_error_returns.
Qed.

Lemma extends__collect_price_data : preserves extends (_collect_price_data w).
Proof. unfold _collect_price_data. preserves_tac. Qed.

Lemma extends__collect_stock_data : preserves extends (_collect_stock_data w).
Proof. unfold _collect_stock_data. preserves_tac. Qed.

Lemma extends__collect_all_data : preserves extends (_collect_all_data w).
Proof. unfold _collect_all_data. preserves_tac. Qed.

Lemma extends__collect_comparison_data :
  preserves extends (_collect_comparison_data w).
Proof. unfold _collect_comparison_data. preserves_tac. Qed.

Lemma extends__run_single_agent : preserves extends (_run_single_agent w).
Proof. unfold _run_single_agent. preserves_tac. Qed.

Lemma extends__run_parallel_analysis : preserves extends (_run_parallel_analysis w).
Proof. unfold _run_parallel_analysis, parallel_tasks. preserves_tac. Qed.

Lemma extends__run_parallel_comparison_analysis :
  preserves extends (_run_parallel_comparison_analysis w).
Proof. unfold _run_parallel_comparison_analysis. preserves_tac. Qed.

Lemma extends__run_risk_analysis : preserves extends (_run_risk_analysis w).
Proof. unfold _run_risk_analysis. preserves_tac. Qed.

Lemma extends__run_synthesis : preserves extends (_run_synthesis w).
Proof. unfold _run_synthesis. preserves_tac. Qed.

Lemma extends__run_comparison_synthesis :
  preserves extends (_run_comparison_synthesis w).
Proof. unfold _run_comparison_synthesis. preserves_tac. Qed.

Lemma nodes_extend (t : IntentType) :
  Forall (fun node => preserves extends (snd node)) (graph_map w t).
Proof.
  destruct t; unfold graph_map, deep_dive_graph, price_graph,
      single_aspect_graph, full_analysis_graph, comparison_graph;
    repeat (apply Forall_cons_2; [cbn [snd]|]); try apply Forall_nil_2;
    auto using extends__collect_price_data, extends__collect_stock_data,
      extends__collect_all_data, extends__collect_comparison_data,
      extends__run_single_agent, extends__run_parallel_analysis,
      extends__run_parallel_comparison_analysis, extends__run_risk_analysis,
      extends__run_synthesis, extends__run_comparison_synthesis.
Qed.

(** A chain of nodes that return and keep [R] returns and keeps [R]. *)
Lemma ainvoke_preserves (R : relation GraphState) `{!PreOrder R}
    (graph : StateGraph) (st : GraphState) :
  Forall (fun node => returns (snd node)) graph ->
  Forall (fun node => preserves R (snd node)) graph ->
  exists st', ainvoke graph st = (Ok tt, st') /\ R st st'.
Proof.
  intros Hret Hpre. revert st.
  induction graph as [|[name node] graph IH]; intros st.
  - exists st. split; reflexivity.
  - apply Forall_cons in Hret as [Hr Hret]. apply Forall_cons in Hpre as [Hp Hpre].
    cbn in Hr, Hp. specialize (Hr st). specialize (Hp st).
    unfold ainvoke. cbn [foldr snd]. unfold mbind at 1, M_bind.
    destruct (node st) as [[[]|e] st1]; cbn in Hr, Hp; [|discriminate].
    destruct (IH Hret Hpre st1) as (st' & E & HR).
    exists st'. split; [exact E | by etrans].
Qed.

(** X1.  The run of any of the graphs, from any state, returns normally; it
    only appends to the error list and to the progress log, and leaves the
    request fields as they are. *)
Theorem graphs_only_append (t : IntentType) (st : GraphState) :
  exists st',
    ainvoke (graph_map w t) st = (Ok tt, st') /\
    errors st `prefix_of` errors st' /\
    progress st `prefix_of` progress st' /\
    ticker st' = ticker st /\
    ticker_2 st' = ticker_2 st /\
    intent st' = intent st /\
    execution_path st' = execution_path st.
Proof.
  destruct (ainvoke_preserves extends (graph_map w t) st
              (nodes_return t) (nodes_extend t))
    as (st' & E & E1 & P1 & T1 & U1 & I1 & V1 & S1 & X1).
  exists st'. by repeat split.
Qed.

(** ** The slots a stage may write *)

Lemma same_outside_mono (keys keys' : list string) (st st' : GraphState) :
  keys ⊆ keys' -> same_outside keys st st' -> same_outside keys' st st'.
Proof. intros Hsub Hs k Hk. apply Hs. intros Hin. apply Hk, Hsub, Hin. Qed.

Lemma writes__collect_price_data :
  preserves (same_outside ["stock_data"]) (_collect_price_data w).
Proof. unfold _collect_price_data. preserves_tac. Qed.

Lemma writes__collect_stock_data :
  preserves (same_outside ["stock_data"]) (_collect_stock_data w).
Proof. unfold _collect_stock_data. preserves_tac. Qed.

Lemma writes__collect_all_data :
  preserves (same_outside ["stock_data"; "news_data"; "market_data"])
    (_collect_all_data w).
Proof. unfold _collect_all_data. preserves_tac. Qed.

Lemma writes__collect_comparison_data :
  preserves (same_outside ["stock_data"; "stock_data_2"])
    (_collect_comparison_data w).
Proof. unfold _collect_comparison_data. preserves_tac. Qed.

Lemma writes__run_parallel_analysis :
  preserves
    (same_outside ["fundamental_analysis"; "technical_analysis";
                   "market_intel_analysis"])
    (_run_parallel_analysis w).
Proof. unfold _run_parallel_analysis, parallel_tasks. preserves_tac. Qed.

Lemma writes__run_parallel_comparison_analysis :
  preserves
    (same_outside ["fundamental_analysis"; "technical_analysis";
                   "fundamental_analysis_2"; "technical_analysis_2"])
    (_run_parallel_comparison_analysis w).
Proof. unfold _run_parallel_comparison_analysis. preserves_tac. Qed.

Lemma writes__run_risk_analysis :
  preserves (same_outside ["risk_analysis"]) (_run_risk_analysis w).
Proof. unfold _run_risk_analysis. preserves_tac. Qed.

Lemma writes__run_synthesis :
  preserves (same_outside ["synthesized_recommendation"]) (_run_synthesis w).
Proof. unfold _run_synthesis. preserves_tac. Qed.

Lemma writes__run_comparison_synthesis :
  preserves (same_outside []) (_run_comparison_synthesis w).
Proof. intros st. by rewrite _run_comparison_synthesis_always_errors. Qed.

Lemma writes__run_single_agent (st : GraphState) :
  same_outside (single_slot (intent st)) st (snd (_run_single_agent w st)).
Proof.
  unfold _run_single_agent.
  match goal with
  | |- same_outside _ _ (snd (try_except (gets intent ≫= ?k) ?h st)) =>
      set (body := k)
  end.
  assert (forall i, preserves (same_outside (single_slot i)) (body i)) as Hk.
  { intros i; subst body; destruct i; cbn [single_slot]; preserves_tac. }
  assert ((gets intent ≫= body) st = body (intent st) st) as E by reflexivity.
  unfold try_except. rewrite E. specialize (Hk (intent st) st).
  destruct (body (intent st) st) as [[[]|e] st1]; cbn in *; [exact Hk|].
  intros k' Hk'; cbn; by apply Hk.
Qed.

Lemma preserves_weaken {A} (keys keys' : list string) (m : M A) :
  keys ⊆ keys' -> preserves (same_outside keys) m ->
  preserves (same_outside keys') m.
Proof. intros Hsub Hm st. eapply same_outside_mono; [exact Hsub | apply Hm]. Qed.

Ltac keys_member Hx :=
  unfold writable;
  repeat (apply elem_of_cons in Hx as [->|Hx]; [in_keys|]);
  by apply elem_of_nil in Hx.

Ltac keys_subset :=
  let x := fresh "x" in
  let Hx := fresh "Hx" in
  intros x Hx; keys_member Hx.

Lemma nodes_write (t : IntentType) :
  t <> TECHNICAL_ANALYSIS -> t <> FUNDAMENTAL_ANALYSIS ->
  t <> SENTIMENT_ANALYSIS ->
  Forall (fun node => preserves (same_outside (writable t)) (snd node))
    (graph_map w t).
Proof.
  intros H1 H2 H3.
  destruct t; try done;
    unfold graph_map, deep_dive_graph, price_graph, full_analysis_graph,
      comparison_graph, writable;
    repeat (apply Forall_cons_2; [cbn [snd]|]); try apply Forall_nil_2;
    first
      [ exact writes__collect_price_data
      | eapply preserves_weaken; [|exact writes__collect_all_data]; keys_subset
      | eapply preserves_weaken; [|exact writes__run_parallel_analysis]; keys_subset
      | eapply preserves_weaken; [|exact writes__run_risk_analysis]; keys_subset
      | eapply preserves_weaken; [|exact writes__run_synthesis]; keys_subset
      | eapply preserves_weaken; [|exact writes__collect_comparison_data]; keys_subset
      | eapply preserves_weaken;
          [|exact writes__run_parallel_comparison_analysis]; keys_subset
      | eapply preserves_weaken; [|exact writes__run_comparison_synthesis];
          keys_subset ].
Qed.

Lemma single_aspect_writes (st : GraphState) :
  exists st',
    ainvoke (single_aspect_graph w) st = (Ok tt, st') /\
    same_outside ("stock_data" :: single_slot (intent st)) st st'.
Proof.
  unfold ainvoke, single_aspect_graph. cbn [foldr snd].
  pose proof (try_except_append_error_returns _ _ st
              : fst (_collect_stock_data w st) = Ok tt) as R1.
  pose proof (writes__collect_stock_data st) as W1.
  pose proof (extends__collect_stock_data st) as (_ & _ & _ & _ & I1 & _).
  unfold mbind at 1, M_bind.
  destruct (_collect_stock_data w st) as [[[]|e] st1]; cbn in R1, W1, I1;
    [|discriminate].
  pose proof (try_except_append_error_returns _ _ st1
              : fst (_run_single_agent w st1) = Ok tt) as R2.
  pose proof (writes__run_single_agent st1) as W2. rewrite I1 in W2.
  unfold mbind at 1, M_bind.
  destruct (_run_single_agent w st1) as [[[]|e] st2]; cbn in R2, W2;
    [|discriminate].
  exists st2. split; [reflexivity|].
  intros k Hk. rewrite W2, W1; [done| |].
  - intros Hin. apply Hk. apply elem_of_cons in Hin as [->|Hin]; [left|].
    by apply elem_of_nil in Hin.
  - intros Hin. apply Hk. by right.
Qed.

(** X2.  A run writes only the slots of its topology: every other slot keeps
    the value it has in the initial state. *)
Theorem run_writes_only_its_slots (intent : Intent) (uid : option string)
    (k : string) :
  k ∉ writable (type intent) ->
  slots (run w intent uid) !! k = initial_slots !! k.
Proof.
  intros Hk. unfold run. cbv zeta.
  set (st0 := initial_state w intent uid).
  destruct (negb (truthy (PStr (ticker st0)))); [reflexivity|].
  change initial_slots with (slots st0).
  assert (Flow.intent st0 = type intent) as I0 by reflexivity.
  destruct (decide (type intent = SENTIMENT_ANALYSIS)) as [Hs|Hs].
  - rewrite (bool_decide_eq_true_2 _ Hs). rewrite Hs in *. cbn [graph_map].
    pose proof (try_except_append_error_returns _ _ st0
                : fst (_collect_all_data w st0) = Ok tt) as R1.
    pose proof (writes__collect_all_data st0) as W1.
    pose proof (extends__collect_all_data st0) as (_ & _ & _ & _ & I1 & _).
    unfold mbind at 1, M_bind.
    destruct (_collect_all_data w st0) as [[[]|e] st1]; cbn in R1, W1, I1;
      [|discriminate].
    destruct (single_aspect_writes st1) as (st2 & -> & W2).
    assert (Flow.intent st1 = SENTIMENT_ANALYSIS) as I1'
      by (etrans; [exact I1|]; first [exact I0 | exact Hs]).
    rewrite I1' in W2. cbn [single_slot] in W2.
    rewrite W2, W1; [done| |].
    + intros Hin. apply Hk. keys_member Hin.
    + intros Hin. apply Hk. keys_member Hin.
  - rewrite (bool_decide_eq_false_2 _ Hs).
    rewrite (bind_returns _ _ st0 st0 eq_refl).
    destruct (decide (type intent = TECHNICAL_ANALYSIS)) as [Ht|Ht];
      [|destruct (decide (type intent = FUNDAMENTAL_ANALYSIS)) as [Hf|Hf]].
    + rewrite Ht in *. cbn [graph_map].
      destruct (single_aspect_writes st0) as (st2 & -> & W2).
      rewrite I0 in W2. by apply W2.
    + rewrite Hf in *. cbn [graph_map].
      destruct (single_aspect_writes st0) as (st2 & -> & W2).
      rewrite I0 in W2. by apply W2.
    + destruct (ainvoke_preserves (same_outside (writable (type intent)))
                  (graph_map w (type intent)) st0
                  (nodes_return (type intent))
                  (nodes_write (type intent) Ht Hf Hs)) as (st' & -> & W).
      by apply W.
Qed.

(** A node seen from outside: it returns, the lists have grown and only
    the slots of [keys] may differ. *)
Lemma stage_step (m : M unit) (keys : list string) (st : GraphState) :
  returns m -> preserves extends m -> preserves (same_outside keys) m ->
  exists st1, m st = (Ok tt, st1) /\ extends st st1 /\ same_outside keys st st1.
Proof.
  intros Hr He Hw. specialize (Hr st). specialize (He st). specialize (Hw st).
  destruct (m st) as [[[]|e] st1]; cbn in *; [|discriminate].
  by exists st1.
Qed.

Lemma _run_synthesis_neutral (st : GraphState) :
  _run_synthesis w st =
  match synthesizer_generate w
          (neutral_inputs (default PNone (slots st !! "stock_data"))) with
  | Ok result =>
      (Ok tt,
       with_progress (fun l => (l ++ ["✅ Recommendation generated"])%list)
         (with_slots (insert "synthesized_recommendation" result) st))
  | Raise e =>
      (Ok tt,
       with_errors (fun l => (l ++ ["Synthesis error: " +:+ str_exn e])%list) st)
  end.
Proof.
  unfold _run_synthesis. run_stage.
  unfold Synthesizer.analyze. rewrite analyze_inputs_synthesis_data.
  cbn [mbind result_bind].
  change (Synthesizer.analyze_prompt _ _ ?x) with (synthesizer_generate w x).
  destruct (synthesizer_generate w _); reflexivity.
Qed.

Lemma _run_parallel_analysis_without_stock (st : GraphState) :
  truthy (default PNone (slots st !! "stock_data")) = false ->
  _run_parallel_analysis w st =
  (Ok tt, with_errors (fun l => (l ++ ["No stock data for analysis"])%list) st).
Proof.
  intros H. unfold _run_parallel_analysis. run_stage. by rewrite H.
Qed.

Lemma _run_risk_analysis_without_stock (st : GraphState) :
  truthy (default PNone (slots st !! "stock_data")) = false ->
  _run_risk_analysis w st =
  (Ok tt,
   with_errors (fun l => (l ++ ["No stock data for risk analysis"])%list) st).
Proof.
  intros H. unfold _run_risk_analysis. run_stage. by rewrite H.
Qed.

Lemma _collect_all_data_without_stock (st : GraphState) :
  (forall sd, get_stock_data w (ticker st) true 180 <> Ok (Some sd)) ->
  same_outside ["news_data"; "market_data"] st (snd (_collect_all_data w st)).
Proof.
  intros Hno. unfold _collect_all_data.
  match goal with
  | |- same_outside _ _ (snd (try_except (gets ticker ≫= ?k) ?h st)) =>
      set (body := k)
  end.
  assert (preserves (same_outside ["news_data"; "market_data"])
            (body (ticker st))) as Hk.
  { subst body. cbn beta zeta.
    destruct (get_stock_data w (ticker st) true 180) as [[sd|]|e];
      [by destruct (Hno sd)|..]; preserves_tac. }
  assert ((gets ticker ≫= body) st = body (ticker st) st) as E by reflexivity.
  unfold try_except. rewrite E. specialize (Hk st).
  destruct (body (ticker st) st) as [[[]|e] st1]; cbn in *; [exact Hk|].
  intros k' Hk'; cbn; by apply Hk.
Qed.

Lemma initial_ticker (intent : Intent) (uid : option string) (t : string) :
  head (tickers intent) = Some t -> t <> EmptyString ->
  ticker (initial_state w intent uid) = t /\
  truthy (PStr (ticker (initial_state w intent uid))) = true.
Proof.
  intros Hhd Ht. unfold initial_state. cbn. rewrite Hhd. cbn.
  by rewrite (proj2 (String.eqb_neq t EmptyString) Ht).
Qed.

(** X3.  When the collector has no stock data for the ticker (it returns [None]
    or raises), a full analysis calls none of the four analysis agents and
    produces no recommendation: the stock-data slot, the four analysis
    slots and the recommendation stay [None].  After what the collection
    recorded, the error list ends with the entries of the three stages: the
    two that find no stock data, and the synthesis, whose prompt cannot be
    built from [None]. *)
Theorem full_analysis_without_stock_data (intent : Intent)
    (uid : option string) (t : string) :
  head (tickers intent) = Some t ->
  t <> EmptyString ->
  type intent = FULL_ANALYSIS \/ type intent = DEEP_DIVE ->
  (forall sd, get_stock_data w t true 180 <> Ok (Some sd)) ->
  let final := run w intent uid in
  Forall (fun k => slots final !! k = Some PNone)
    ["stock_data"; "fundamental_analysis"; "technical_analysis";
     "market_intel_analysis"; "risk_analysis"; "synthesized_recommendation"] /\
  exists collected,
    errors final =
    (collected ++
     ["No stock data for analysis"; "No stock data for risk analysis";
      "Synthesis error: 'NoneType' object has no attribute 'get'"])%list.
Proof.
  intros Hhd Ht Hty Hno. unfold run. cbv zeta.
  destruct (initial_ticker intent uid t Hhd Ht) as [Htk ->].
  set (st0 := initial_state w intent uid) in *.
  cbn [negb].
  assert (graph_map w (type intent) = full_analysis_graph w) as ->
    by (by destruct Hty as [-> | ->]).
  rewrite bool_decide_eq_false_2 by (by destruct Hty as [-> | ->]).
  rewrite (bind_returns _ _ st0 st0 eq_refl).
  unfold ainvoke, full_analysis_graph. cbn [foldr snd].
  rewrite <- Htk in Hno.
  pose proof (_collect_all_data_without_stock st0 Hno) as W1.
  destruct (stage_step (_collect_all_data w) _ st0
              (try_except_append_error_returns _ _)
              extends__collect_all_data writes__collect_all_data)
    as (st1 & E1 & X1 & _).
  rewrite E1 in W1. cbn [snd] in W1.
  rewrite (bind_returns _ _ _ _ E1).
  assert (forall k, k ∈ ["stock_data"; "fundamental_analysis";
                         "technical_analysis"; "market_intel_analysis";
                         "risk_analysis"; "synthesized_recommendation"] ->
                    slots st1 !! k = Some PNone) as Hnone.
  { intros k Hk. rewrite W1.
    - repeat (apply elem_of_cons in Hk as [->|Hk]; [reflexivity|]).
      by apply elem_of_nil in Hk.
    - intros Hin.
      repeat (apply elem_of_cons in Hk as [->|Hk];
              [repeat (apply elem_of_cons in Hin as [?|Hin]; [done|]);
               by apply elem_of_nil in Hin|]).
      by apply elem_of_nil in Hk. }
  assert (slots st1 !! "stock_data" = Some PNone) as Hsd
    by (apply Hnone; in_keys).
  rewrite (bind_returns _ _ _ _
             (_run_parallel_analysis_without_stock st1 ltac:(by rewrite Hsd))).
  match goal with
  | |- context [(_run_risk_analysis w ≫= _) ?s] =>
      assert (truthy (default PNone (slots s !! "stock_data")) = false) as Hs2
        by (cbn; by rewrite Hsd);
      rewrite (bind_returns _ _ _ _ (_run_risk_analysis_without_stock s Hs2))
  end.
  unfold mbind, M_bind. rewrite _run_synthesis_neutral.
  cbn [with_errors slots]. rewrite Hsd. cbn [default id].
  change (synthesizer_generate w (neutral_inputs PNone))
    with (Raise (A := pyval) (no_attribute PNone "get")).
  split.
  - repeat (apply Forall_cons_2; [apply Hnone; in_keys|]).
    apply Forall_nil_2.
  - exists (errors st1). cbn -[append]. by rewrite <- !app_assoc.
Qed.

(** The comparison fan-out with the four results known. *)
Lemma _run_parallel_comparison_analysis_results (st : GraphState)
    (r0 r1 r2 r3 : result pyval) :
  truthy (default PNone (slots st !! "stock_data")) = true ->
  truthy (default PNone (slots st !! "stock_data_2")) = true ->
  comparison_results w st = [r0; r1; r2; r3] ->
  _run_parallel_comparison_analysis w st =
  try_except
    (match r0 with
     | Ok r => store_result "fundamental_analysis"
                 (ticker st +:+ " Fundamental") "score" r
     | Raise _ => mret tt
     end;;
     match r1 with
     | Ok r => store_result "technical_analysis"
                 (ticker st +:+ " Technical") "score" r
     | Raise _ => mret tt
     end;;
     match r2 with
     | Ok r => store_result "fundamental_analysis_2"
                 (py_str (ticker_2_value st) +:+ " Fundamental") "score" r
     | Raise _ => mret tt
     end;;
     match r3 with
     | Ok r => store_result "technical_analysis_2"
                 (py_str (ticker_2_value st) +:+ " Technical") "score" r
     | Raise _ => mret tt
     end)
    (fun e => append_error ("Comparison analysis error: " +:+ str_exn e)) st.
Proof.
  intros H1 H2 Hres. unfold comparison_results in Hres.
  injection Hres as E0 E1 E2 E3.
  unfold _run_parallel_comparison_analysis. run_stage.
  rewrite H1, H2. cbn -[or_empty_dict truthy].
  rewrite E0, E1, E2, E3.
  destruct r0, r1, r2, r3; reflexivity.
Qed.

(** X4.  In a state with both stock-data slots filled, when each producer of
    the comparison fan-out either raises or returns a dict, the stage
    returns with the error list as it was: a producer that raises leaves no
    entry, and its slot keeps its previous value; the results of the others
    are stored. *)
Theorem comparison_fan_out_drops_failures (st : GraphState) :
  truthy (default PNone (slots st !! "stock_data")) = true ->
  truthy (default PNone (slots st !! "stock_data_2")) = true ->
  (forall r, Ok r ∈ comparison_results w st -> exists d, r = PDict d) ->
  exists st',
    _run_parallel_comparison_analysis w st = (Ok tt, st') /\
    errors st' = errors st /\
    (forall i e k, comparison_results w st !! i = Some (Raise e) ->
                   comparison_slots !! i = Some k ->
                   slots st' !! k = slots st !! k) /\
    (forall i r k, comparison_results w st !! i = Some (Ok r) ->
                   comparison_slots !! i = Some k ->
                   slots st' !! k = Some r).
Proof.
  intros H1 H2 Hd.
  assert (exists r0 r1 r2 r3, comparison_results w st = [r0; r1; r2; r3])
    as (r0 & r1 & r2 & r3 & Hres) by (by eexists _, _, _, _).
  rewrite (_run_parallel_comparison_analysis_results st r0 r1 r2 r3 H1 H2 Hres).
  rewrite Hres in Hd |- *.
  assert (forall r, r ∈ [r0; r1; r2; r3] -> forall v, r = Ok v ->
                    exists d, v = PDict d) as Hdict.
  { intros r Hin v ->. by apply Hd. }
  destruct r0 as [v0|e0], r1 as [v1|e1], r2 as [v2|e2], r3 as [v3|e3];
    repeat match goal with
           | v : pyval |- _ =>
               let d := fresh "d" in
               destruct (Hdict (Ok v) ltac:(in_keys) v eq_refl) as [d ->]
           end;
    clear Hdict Hd;
    (eexists; split; [reflexivity|]; cbn; split; [done|]; split;
     intros [|[|[|[|?]]]] ? ? ? ?; by simplify_map_eq).
Qed.

Lemma ignores__collect_all_data : ignores_intent (_collect_all_data w).
Proof. unfold _collect_all_data. ignores_tac. Qed.

Lemma ignores__run_parallel_analysis : ignores_intent (_run_parallel_analysis w).
Proof. unfold _run_parallel_analysis. ignores_tac. Qed.

Lemma ignores__run_risk_analysis : ignores_intent (_run_risk_analysis w).
Proof. unfold _run_risk_analysis. ignores_tac. Qed.

Lemma ignores__run_synthesis : ignores_intent (_run_synthesis w).
Proof. unfold _run_synthesis. ignores_tac. Qed.

Lemma ignores_full_analysis_graph :
  ignores_intent (ainvoke (full_analysis_graph w)).
Proof.
  unfold ainvoke, full_analysis_graph. cbn [foldr snd].
  repeat (apply ignores_bind; [|intros ?]);
    auto using ignores__collect_all_data, ignores__run_parallel_analysis,
      ignores__run_risk_analysis, ignores__run_synthesis, ignores_ret.
Qed.

(** X5.  DEEP_DIVE, HELP and UNKNOWN requests are processed exactly as a
    FULL_ANALYSIS request for the same tickers: two runs whose types are
    among these four end in the same state up to the two labels [intent]
    and [execution_path]. *)
Theorem full_chain_runs_agree (i1 i2 : Intent) (uid : option string) :
  tickers i1 = tickers i2 ->
  runs_full_chain (type i1) ->
  runs_full_chain (type i2) ->
  run w i1 uid = retag (type i1) (value (type i1)) (run w i2 uid).
Proof.
  intros Htk H1 H2. unfold run. cbv zeta.
  assert (initial_state w i1 uid
          = retag (type i1) (value (type i1)) (initial_state w i2 uid)) as ->
    by (unfold initial_state, retag; cbn; by rewrite Htk).
  set (st0 := initial_state w i2 uid).
  change (ticker (retag (type i1) (value (type i1)) st0)) with (ticker st0).
  destruct (negb (truthy (PStr (ticker st0)))); [reflexivity|].
  assert (graph_map w (type i1) = full_analysis_graph w) as ->
    by (by destruct H1 as [-> | [-> | [-> | ->]]]).
  assert (graph_map w (type i2) = full_analysis_graph w) as ->
    by (by destruct H2 as [-> | [-> | [-> | ->]]]).
  rewrite !bool_decide_eq_false_2
    by (first [by destruct H1 as [-> | [-> | [-> | ->]]]
              | by destruct H2 as [-> | [-> | [-> | ->]]]]).
  rewrite !(bind_returns (mret tt) _ _ _ eq_refl).
  rewrite ignores_full_analysis_graph.
  by destruct (ainvoke (full_analysis_graph w) st0) as [[[]|e] st'].
Qed.

Lemma _collect_stock_data_some (st : GraphState) (sd : StockData) :
  get_stock_data w (ticker st) true 365 = Ok (Some sd) ->
  _collect_stock_data w st =
  (Ok tt,
   with_progress (fun l => (l ++ ["✅ Stock data collected"])%list)
     (with_slots (insert "stock_data" (model_dump sd)) st)).
Proof.
  intros H. unfold _collect_stock_data. run_stage. by rewrite H.
Qed.

(** X6.  A SENTIMENT run fetches the stock data twice.  Whatever the first
    fetch (180 days, in the pre-step) gives, the data of the second fetch
    (365 days, in the chain) are the ones left in the state. *)
Theorem sentiment_run_keeps_second_fetch (intent : Intent)
    (uid : option string) (t : string) (sd : StockData) :
  head (tickers intent) = Some t ->
  t <> EmptyString ->
  type intent = SENTIMENT_ANALYSIS ->
  get_stock_data w t true 365 = Ok (Some sd) ->
  slots (run w intent uid) !! "stock_data" = Some (model_dump sd).
Proof.
  intros Hhd Ht Hty Hsd. unfold run. cbv zeta.
  destruct (initial_ticker intent uid t Hhd Ht) as [Htk ->].
  set (st0 := initial_state w intent uid) in *.
  assert (Flow.intent st0 = SENTIMENT_ANALYSIS) as I0 by exact Hty.
  cbn [negb]. rewrite Hty. rewrite (bool_decide_eq_true_2 _ eq_refl).
  cbn [graph_map]. unfold ainvoke, single_aspect_graph. cbn [foldr snd].
  destruct (stage_step (_collect_all_data w) _ st0
              (try_except_append_error_returns _ _)
              extends__collect_all_data writes__collect_all_data)
    as (st1 & E1 & (_ & _ & T1 & _ & I1 & _) & _).
  rewrite (bind_returns _ _ _ _ E1).
  rewrite <- Htk, <- T1 in Hsd.
  rewrite (bind_returns _ _ _ _ (_collect_stock_data_some st1 sd Hsd)).
  match goal with
  | |- context [(_run_single_agent w ≫= _) ?s] => set (st2 := s)
  end.
  pose proof (writes__run_single_agent st2) as W3.
  pose proof (try_except_append_error_returns _ _ st2
              : fst (_run_single_agent w st2) = Ok tt) as R3.
  unfold mbind, M_bind.
  destruct (_run_single_agent w st2) as [[[]|e] st3]; cbn in R3, W3;
    [|discriminate].
  cbn. rewrite W3.
  - subst st2. cbn. by rewrite lookup_insert_eq.
  - replace (Flow.intent st1) with SENTIMENT_ANALYSIS by (by rewrite I1).
    cbn [single_slot]. intros Hin.
    apply elem_of_cons in Hin as [?|Hin]; [done|]. by apply elem_of_nil in Hin.
Qed.

(** X7.  A price check looks in the cache first.  A cached price is used
    without a live fetch; an empty cache entry leads to the live fetch; an
    empty answer of both is recorded as an error; and when the cache
    lookup itself raises, the error is recorded and no live fetch makes up
    for it. *)
Theorem price_check_run (intent : Intent) (uid : option string) (t : string) :
  head (tickers intent) = Some t ->
  t <> EmptyString ->
  type intent = PRICE_CHECK ->
  let final := run w intent uid in
  let priced v := PDict (<["price_data" := v]> (<["ticker" := PStr t]> ∅)) in
  (forall v, cache_get_price w t = Ok v -> truthy v = true ->
     slots final !! "stock_data" = Some (priced v) /\
     errors final = [] /\ progress final = ["✅ Price data (cached)"]) /\
  (forall c v, cache_get_price w t = Ok c -> truthy c = false ->
     get_quick_price w t = Ok v -> truthy v = true ->
     slots final !! "stock_data" = Some (priced v) /\
     errors final = [] /\ progress final = ["✅ Price data fetched"]) /\
  (forall c v, cache_get_price w t = Ok c -> truthy c = false ->
     get_quick_price w t = Ok v -> truthy v = false ->
     slots final !! "stock_data" = Some PNone /\
     errors final = ["Could not fetch price for " +:+ t]) /\
  (forall e, cache_get_price w t = Raise e ->
     slots final !! "stock_data" = Some PNone /\
     errors final = ["Price fetch error: " +:+ str_exn e]).
Proof.
  intros Hhd Ht Hty. unfold run. cbv zeta.
  destruct (initial_ticker intent uid t Hhd Ht) as [Htk ->].
  cbn [negb]. rewrite Hty.
  rewrite bool_decide_eq_false_2 by done.
  rewrite (bind_returns _ _ _ _ eq_refl).
  unfold graph_map, price_graph, ainvoke. cbn [foldr snd].
  unfold _collect_price_data. run_stage. rewrite Hhd. cbn [from_option id].
  split; [|split; [|split]].
  - intros v -> ->. cbn. by rewrite lookup_insert_eq.
  - intros c v -> -> -> ->. cbn. by rewrite lookup_insert_eq.
  - intros c v -> -> -> ->. by cbn.
  - intros e ->. by cbn.
Qed.

(** X8.  A technical or fundamental request.  Without stock data (nothing
    fetched, or the fetch raises) the producer is not called and both
    stages leave an error entry.  With stock data, a producer that raises
    or that returns an empty result leaves one error entry and no result;
    a dict that is not empty is stored and no error is recorded. *)
Theorem single_aspect_run (intent : Intent) (uid : option string) (t : string) :
  head (tickers intent) = Some t ->
  t <> EmptyString ->
  type intent = TECHNICAL_ANALYSIS \/ type intent = FUNDAMENTAL_ANALYSIS ->
  let final := run w intent uid in
  let ty := type intent in
  let call sd := aspect_agent w ty (bundle (model_dump sd) (PStr t)) in
  (get_stock_data w t true 365 = Ok None ->
     errors final = ["Could not fetch data for " +:+ t; "No stock data available"] /\
     slots final !! aspect_slot ty = Some PNone) /\
  (forall e, get_stock_data w t true 365 = Raise e ->
     errors final = ["Data collection error: " +:+ str_exn e;
                     "No stock data available"] /\
     slots final !! aspect_slot ty = Some PNone) /\
  (forall sd e, get_stock_data w t true 365 = Ok (Some sd) ->
     truthy (model_dump sd) = true -> call sd = Raise e ->
     errors final = ["Analysis error: " +:+ str_exn e] /\
     slots final !! aspect_slot ty = Some PNone) /\
  (forall sd r, get_stock_data w t true 365 = Ok (Some sd) ->
     truthy (model_dump sd) = true -> call sd = Ok r -> truthy r = false ->
     errors final = [aspect_label ty +:+ " analysis failed"] /\
     slots final !! aspect_slot ty = Some PNone) /\
  (forall sd d, get_stock_data w t true 365 = Ok (Some sd) ->
     truthy (model_dump sd) = true -> call sd = Ok (PDict d) ->
     truthy (PDict d) = true ->
     errors final = [] /\
     slots final !! aspect_slot ty = Some (PDict d)).
Proof.
  intros Hhd Ht Hty. destruct intent as [ty tk q c a]. cbn in Hhd, Hty.
  destruct tk as [|t0 tk]; [done|]. injection Hhd as ->.
  unfold run. cbv zeta. cbn [Routing.type].
  assert (truthy (PStr (ticker (initial_state w
            {| type := ty; tickers := t :: tk; raw_query := q;
               confidence := c; aspect := a |} uid))) = true) as ->.
  { cbn. by rewrite (proj2 (String.eqb_neq t EmptyString) Ht). }
  cbn [negb].
  destruct Hty as [-> | ->];
    rewrite bool_decide_eq_false_2 by done;
    rewrite (bind_returns _ _ _ _ eq_refl);
    unfold graph_map, single_aspect_graph, ainvoke; cbn [foldr snd];
    unfold _collect_stock_data, _run_single_agent; run_stage;
    unfold bundle;
    (split; [|split; [|split; [|split]]]).
  1,6: intros ->; by cbn.
  1,5: intros e ->; by cbn.
  1,4: intros sd e -> Hsd Hcall; cbn;
    rewrite lookup_insert_eq; cbn; rewrite Hsd; cbn; rewrite Hcall; by cbn.
  1,3: intros sd r -> Hsd Hcall Hr; cbn;
    rewrite lookup_insert_eq; cbn; rewrite Hsd; cbn; rewrite Hcall;
    cbn -[truthy]; rewrite Hr; by cbn.
  all: intros sd d -> Hsd Hcall Hd; cbn;
    rewrite lookup_insert_eq; cbn; rewrite Hsd; cbn; rewrite Hcall;
    cbn -[truthy]; rewrite Hd; cbn; by rewrite lookup_insert_eq.
Qed.

End Stages.
(** A COMPARISON run of the world in which everything succeeds leaves
    the news slot, which is not one of its slots, as it was. *)
Lemma run_writes_only_its_slots_witness :
  slots (run (fmt := PortfolioSpec.sample_format) all_ok_world
           (intent_of COMPARISON ["TCS.NS"; "INFY.NS"]) None) !! "news_data"
  = initial_slots !! "news_data".
Proof.
  apply (run_writes_only_its_slots (fmt := PortfolioSpec.sample_format)
           all_ok_world (intent_of COMPARISON ["TCS.NS"; "INFY.NS"]) None
           "news_data").
  cbn. intros Hin.
  repeat (apply elem_of_cons in Hin as [Heq|Hin]; [discriminate Heq|]).
  by apply elem_of_nil in Hin.
Defined.

(** A full analysis in the world whose price collector knows no ticker. *)
Lemma full_analysis_without_stock_data_witness :
  let final := run (fmt := PortfolioSpec.sample_format) no_stock_world
                 (intent_of FULL_ANALYSIS ["TCS.NS"]) None in
  Forall (fun k => slots final !! k = Some PNone)
    ["stock_data"; "fundamental_analysis"; "technical_analysis";
     "market_intel_analysis"; "risk_analysis"; "synthesized_recommendation"] /\
  exists collected,
    errors final =
    (collected ++
     ["No stock data for analysis"; "No stock data for risk analysis";
      "Synthesis error: 'NoneType' object has no attribute 'get'"])%list.
Proof.
  apply (full_analysis_without_stock_data (fmt := PortfolioSpec.sample_format)
           no_stock_world (intent_of FULL_ANALYSIS ["TCS.NS"]) None "TCS.NS").
  - reflexivity.
  - discriminate.
  - left. reflexivity.
  - intros sd Heq. discriminate Heq.
Defined.

(** The comparison fan-out when both technical producers raise. *)
Lemma comparison_fan_out_drops_failures_witness :
  exists st',
    _run_parallel_comparison_analysis (fmt := PortfolioSpec.sample_format)
      technical_down_world compared_state = (Ok tt, st') /\
    errors st' = errors compared_state /\
    (forall i e k,
       comparison_results technical_down_world compared_state !! i
       = Some (Raise e) ->
       comparison_slots !! i = Some k ->
       slots st' !! k = slots compared_state !! k) /\
    (forall i r k,
       comparison_results technical_down_world compared_state !! i
       = Some (Ok r) ->
       comparison_slots !! i = Some k ->
       slots st' !! k = Some r).
Proof.
  apply (comparison_fan_out_drops_failures (fmt := PortfolioSpec.sample_format)
           technical_down_world compared_state).
  - reflexivity.
  - reflexivity.
  - intros r Hin. unfold comparison_results in Hin. cbn in Hin.
    repeat (apply elem_of_cons in Hin as [Heq|Hin];
            [first [discriminate Heq | injection Heq as ->; by eexists]|]).
    by apply elem_of_nil in Hin.
Defined.

(** A deep dive and a full analysis of the same ticker. *)
Lemma full_chain_runs_agree_witness :
  run (fmt := PortfolioSpec.sample_format) all_ok_world
    (intent_of DEEP_DIVE ["TCS.NS"]) None
  = retag DEEP_DIVE (value DEEP_DIVE)
      (run (fmt := PortfolioSpec.sample_format) all_ok_world
         (intent_of FULL_ANALYSIS ["TCS.NS"]) None).
Proof.
  apply (full_chain_runs_agree (fmt := PortfolioSpec.sample_format)
           all_ok_world (intent_of DEEP_DIVE ["TCS.NS"])
           (intent_of FULL_ANALYSIS ["TCS.NS"]) None).
  - reflexivity.
  - right. left. reflexivity.
  - left. reflexivity.
Defined.

(** A sentiment request in the world in which everything succeeds. *)
Lemma sentiment_run_keeps_second_fetch_witness :
  slots (run (fmt := PortfolioSpec.sample_format) all_ok_world
           (intent_of SENTIMENT_ANALYSIS ["TCS.NS"]) None) !! "stock_data"
  = Some (model_dump (sample_stock "TCS.NS")).
Proof.
  apply (sentiment_run_keeps_second_fetch (fmt := PortfolioSpec.sample_format)
           all_ok_world (intent_of SENTIMENT_ANALYSIS ["TCS.NS"]) None
           "TCS.NS" (sample_stock "TCS.NS")).
  - reflexivity.
  - discriminate.
  - reflexivity.
  - reflexivity.
Defined.

(** A COMPARISON run in the world in which everything succeeds. *)
Lemma comparison_run_never_clean_witness :
  let final := run (fmt := PortfolioSpec.sample_format) all_ok_world
                 (intent_of COMPARISON ["TCS.NS"; "INFY.NS"]) None in
  errors final <> [] /\
  slots final !! "synthesized_recommendation" = Some PNone.
Proof.
  apply (comparison_run_never_clean (fmt := PortfolioSpec.sample_format)
           all_ok_world (intent_of COMPARISON ["TCS.NS"; "INFY.NS"]) None).
  reflexivity.
Defined.

(** A full analysis in the world in which everything succeeds. *)
Lemma other_runs_clean_witness :
  let final := run (fmt := PortfolioSpec.sample_format) all_ok_world
                 (intent_of FULL_ANALYSIS ["TCS.NS"]) None in
  errors final = [] /\
  Forall (populated final) (expected_slots FULL_ANALYSIS).
Proof.
  apply (other_runs_clean (fmt := PortfolioSpec.sample_format) all_ok_world
           (intent_of FULL_ANALYSIS ["TCS.NS"]) None "TCS.NS").
  - reflexivity.
  - discriminate.
  - eexists (sample_stock "TCS.NS"), _, _, _, _, _, _, _.
    repeat split;
      first [ reflexivity | discriminate | unfold has_history; cbn; lia
            | by eexists _, _ ].
Defined.

(** A price check in the world in which everything succeeds: the cache
    is empty and the price is fetched. *)
Lemma price_check_run_witness :
  let final := run (fmt := PortfolioSpec.sample_format) all_ok_world
                 (intent_of PRICE_CHECK ["TCS.NS"]) None in
  slots final !! "stock_data"
  = Some (PDict (<["price_data" := sample_price]>
                   (<["ticker" := PStr "TCS.NS"]> ∅))) /\
  errors final = [] /\ progress final = ["✅ Price data fetched"].
Proof.
  apply (proj1 (proj2 (price_check_run (fmt := PortfolioSpec.sample_format)
                         all_ok_world (intent_of PRICE_CHECK ["TCS.NS"]) None
                         "TCS.NS" eq_refl ltac:(discriminate) eq_refl))
           PNone sample_price); reflexivity.
Defined.

(** A fundamental analysis in the world in which everything succeeds. *)
Lemma single_aspect_run_witness :
  let final := run (fmt := PortfolioSpec.sample_format) all_ok_world
                 (intent_of FUNDAMENTAL_ANALYSIS ["TCS.NS"]) None in
  errors final = [] /\
  slots final !! "fundamental_analysis"
  = Some (PDict (<["score" := PInt 72]> (<["rating" := PStr "BUY"]> ∅))).
Proof.
  apply (proj2 (proj2 (proj2 (proj2
           (single_aspect_run (fmt := PortfolioSpec.sample_format)
              all_ok_world (intent_of FUNDAMENTAL_ANALYSIS ["TCS.NS"]) None
              "TCS.NS" eq_refl ltac:(discriminate) (or_intror eq_refl)))))
           (sample_stock "TCS.NS")); reflexivity.
Defined.

End StageFacts.
